(** * Network God Game Engine: the adaptation loop, embedded and verified

    A shallow embedding of [game_engine/self_improvement_system.py] (the
    metric store, the bottleneck analysis, the strategy registry and the
    optimization queue) and of the frame loop of
    [game_engine/engine_core.py], followed by the properties proved of them.

    Conventions of the embedding.
    - A Python [float] is an exact rational ([Q]): rounding, infinities and
      NaN are outside the model.  Equality of floats is [Qeq] ([==]).
    - A float division raises [ZeroDivisionError] when the divisor is zero;
      functions that divide return [option] (pure ones) or a [result] that
      carries the state reached when the exception left the function.
    - A Python [int] is a [Z]; a [list] is a [list]; a [dict] whose iteration
      order is observable is an insertion-ordered association list
      ([odict]), one whose order is not observable is a [gmap].
    - [time.time()] and [random.random()] are inputs of the functions that
      call them.
    - An [OptimizationStrategy] is an object that is mutated in place and
      shared between the registry ([optimization_strategies]) and the
      queued requests.  The objects live in a store ([strategy_objects]),
      by address; the registry and the requests hold addresses, and every
      mutation goes through the store.  An object that is registered twice
      is one object at two positions of the registry. *)

From Stdlib Require Import QArith Qround Qabs Lqa ZArith Lia.
From stdpp Require Import gmap strings list.

Local Open Scope string_scope.
Local Open Scope list_scope.

(** ** Python primitives *)

Module Py.

(** [a < b] on floats. *)
Definition ltb (a b : Q) : bool := negb (Qle_bool b a).
(** [a > b] on floats. *)
Definition gtb (a b : Q) : bool := ltb b a.

(** [min(a, b)]: the first argument unless the second is smaller. *)
Definition min (a b : Q) : Q := if ltb b a then b else a.
(** [max(a, b)]: the first argument unless the second is larger. *)
Definition max (a b : Q) : Q := if gtb b a then b else a.

(** [sum(l)]: left to right, from 0. *)
Definition sum (l : list Q) : Q := fold_left Qplus l 0%Q.

(** [len(l)] as a float, for [sum(l) / len(l)]. *)
Definition flen {A} (l : list A) : Q := inject_Z (Z.of_nat (length l)).

(** [a / b]; [None] is [ZeroDivisionError]. *)
Definition div (a b : Q) : option Q :=
  if Qeq_bool b 0 then None else Some (a / b)%Q.

(** [l[-n:]] for a positive literal [n]: the last [n] elements, all of them
    when there are fewer. *)
Definition last_n {A} (n : nat) (l : list A) : list A :=
  drop (length l - n) l.

(** [l.pop(0)] on a list known to be non-empty, result dropped. *)
Definition pop0 {A} (l : list A) : list A := tail l.

(** Insertion-ordered dictionaries. *)
Section odict.
Context {K V : Type} `{EqDecision K}.

Fixpoint od_get (k : K) (d : list (K * V)) : option V :=
  match d with
  | [] => None
  | (k', v) :: d' => if decide (k = k') then Some v else od_get k d'
  end.

(** [d[k] = v]: in place when [k] is present, at the end otherwise. *)
Fixpoint od_set (k : K) (v : V) (d : list (K * V)) : list (K * V) :=
  match d with
  | [] => [(k, v)]
  | (k', v') :: d' =>
      if decide (k = k') then (k, v) :: d' else (k', v') :: od_set k v d'
  end.

Definition od_mem (k : K) (d : list (K * V)) : bool :=
  match od_get k d with Some _ => true | None => false end.

Definition od_keys (d : list (K * V)) : list K := map fst d.
Definition od_values (d : list (K * V)) : list V := map snd d.
End odict.

End Py.

Abbreviation odict K V := (list (K * V)) (only parsing).

(** ** [self_improvement_system.py] *)

Module SelfImprovement.
Import Py.

Local Open Scope Q_scope.

Record ImprovementSettings := {
  learning_rate : Q;
  adaptation_interval : Q;
  performance_history_size : Z;
  optimization_threshold : Q;
  enable_autonomous_optimization : bool;
  enable_predictive_optimization : bool;
  max_optimization_attempts : Z
}.

Definition default_settings : ImprovementSettings := {|
  learning_rate := 0.01;
  adaptation_interval := 10;
  performance_history_size := 1000;
  optimization_threshold := 0.8;
  enable_autonomous_optimization := true;
  enable_predictive_optimization := true;
  max_optimization_attempts := 10
|}.

Record PerformanceMetric := {
  timestamp : Q;
  system_name : string;
  metric_name : string;
  value : Q;
  target : Q;
  weight : Q
}.

Record OptimizationStrategy := {
  name : string;
  description : string;
  parameters : odict string Q;
  effectiveness : Q;
  last_applied : Q;
  application_count : Z
}.

Record ImprovementStats := {
  learning_cycles : Z;
  optimizations_applied : Z;
  performance_improvements : Z;
  failed_optimizations : Z;
  avg_improvement_rate : Q;
  total_improvement : Q
}.

Definition default_stats : ImprovementStats := {|
  learning_cycles := 0;
  optimizations_applied := 0;
  performance_improvements := 0;
  failed_optimizations := 0;
  avg_improvement_rate := 0;
  total_improvement := 0
|}.

Inductive Severity := high | medium.

(** An entry of the [bottlenecks] list of an analysis. *)
Record Bottleneck := {
  b_system : string;
  b_performance : Q;
  b_severity : Severity
}.

(** The dictionary returned by [_analyze_performance]; the early return
    carries no ["system_performance"] key. *)
Record Analysis := {
  overall_performance : Q;
  system_performance : option (odict string Q);
  bottlenecks : list Bottleneck
}.

(** An entry of [optimization_queue]; [rq_strategy] is the address of the
    strategy object it refers to. *)
Record OptimizationRequest := {
  rq_strategy : nat;
  rq_system : string;
  rq_severity : Severity;
  rq_timestamp : Q
}.

Record Suggestion := {
  sg_system : string;
  sg_type : string;
  sg_severity : Severity;
  sg_recommendation : string;
  sg_timestamp : Q
}.

(** The fields of [SelfImprovementSystem] that the modelled methods read or
    write ([active_optimizations], [experiment_results] and the two model
    tables are written once or never, and never read), and the store of
    the strategy objects.  A strategy is an object that is mutated in
    place, and the list [optimization_strategies] and the requests of the
    queue hold references to it: [strategy_objects] holds the objects by
    address, and a reference is an address.  An object that is registered
    twice is one object at two positions of the list. *)
Record System := {
  settings : ImprovementSettings;
  stats : ImprovementStats;
  performance_history : list PerformanceMetric;
  system_baselines : gmap string (gmap string Q);
  performance_trends : odict string (list Q);
  strategy_objects : list OptimizationStrategy;
  optimization_strategies : list nat;
  last_adaptation_time : Q;
  improvement_suggestions : list Suggestion;
  optimization_queue : list OptimizationRequest
}.

Definition with_stats (st : ImprovementStats) (s : System) : System :=
  {| settings := settings s; stats := st;
     performance_history := performance_history s;
     system_baselines := system_baselines s;
     performance_trends := performance_trends s;
     strategy_objects := strategy_objects s;
     optimization_strategies := optimization_strategies s;
     last_adaptation_time := last_adaptation_time s;
     improvement_suggestions := improvement_suggestions s;
     optimization_queue := optimization_queue s |}.

Definition with_history (h : list PerformanceMetric) (s : System) : System :=
  {| settings := settings s; stats := stats s;
     performance_history := h;
     system_baselines := system_baselines s;
     performance_trends := performance_trends s;
     strategy_objects := strategy_objects s;
     optimization_strategies := optimization_strategies s;
     last_adaptation_time := last_adaptation_time s;
     improvement_suggestions := improvement_suggestions s;
     optimization_queue := optimization_queue s |}.

Definition with_baselines (b : gmap string (gmap string Q)) (s : System)
  : System :=
  {| settings := settings s; stats := stats s;
     performance_history := performance_history s;
     system_baselines := b;
     performance_trends := performance_trends s;
     strategy_objects := strategy_objects s;
     optimization_strategies := optimization_strategies s;
     last_adaptation_time := last_adaptation_time s;
     improvement_suggestions := improvement_suggestions s;
     optimization_queue := optimization_queue s |}.

Definition with_trends (t : odict string (list Q)) (s : System) : System :=
  {| settings := settings s; stats := stats s;
     performance_history := performance_history s;
     system_baselines := system_baselines s;
     performance_trends := t;
     strategy_objects := strategy_objects s;
     optimization_strategies := optimization_strategies s;
     last_adaptation_time := last_adaptation_time s;
     improvement_suggestions := improvement_suggestions s;
     optimization_queue := optimization_queue s |}.

Definition with_objects (l : list OptimizationStrategy) (s : System)
  : System :=
  {| settings := settings s; stats := stats s;
     performance_history := performance_history s;
     system_baselines := system_baselines s;
     performance_trends := performance_trends s;
     strategy_objects := l;
     optimization_strategies := optimization_strategies s;
     last_adaptation_time := last_adaptation_time s;
     improvement_suggestions := improvement_suggestions s;
     optimization_queue := optimization_queue s |}.

Definition with_strategies (l : list nat) (s : System) : System :=
  {| settings := settings s; stats := stats s;
     performance_history := performance_history s;
     system_baselines := system_baselines s;
     performance_trends := performance_trends s;
     strategy_objects := strategy_objects s;
     optimization_strategies := l;
     last_adaptation_time := last_adaptation_time s;
     improvement_suggestions := improvement_suggestions s;
     optimization_queue := optimization_queue s |}.

Definition with_last_adaptation_time (t : Q) (s : System) : System :=
  {| settings := settings s; stats := stats s;
     performance_history := performance_history s;
     system_baselines := system_baselines s;
     performance_trends := performance_trends s;
     strategy_objects := strategy_objects s;
     optimization_strategies := optimization_strategies s;
     last_adaptation_time := t;
     improvement_suggestions := improvement_suggestions s;
     optimization_queue := optimization_queue s |}.

Definition with_suggestions (l : list Suggestion) (s : System) : System :=
  {| settings := settings s; stats := stats s;
     performance_history := performance_history s;
     system_baselines := system_baselines s;
     performance_trends := performance_trends s;
     strategy_objects := strategy_objects s;
     optimization_strategies := optimization_strategies s;
     last_adaptation_time := last_adaptation_time s;
     improvement_suggestions := l;
     optimization_queue := optimization_queue s |}.

Definition with_queue (q : list OptimizationRequest) (s : System) : System :=
  {| settings := settings s; stats := stats s;
     performance_history := performance_history s;
     system_baselines := system_baselines s;
     performance_trends := performance_trends s;
     strategy_objects := strategy_objects s;
     optimization_strategies := optimization_strategies s;
     last_adaptation_time := last_adaptation_time s;
     improvement_suggestions := improvement_suggestions s;
     optimization_queue := q |}.

(** [_initialize_optimization_strategies] *)
Definition mk_strategy (n d : string) (ps : odict string Q)
  : OptimizationStrategy :=
  {| name := n; description := d; parameters := ps;
     effectiveness := 0; last_applied := 0; application_count := 0 |}.

Definition _initialize_optimization_strategies : list OptimizationStrategy :=
  [ mk_strategy "rendering_quality_adjustment"
      "Dynamically adjust rendering quality based on performance"
      [("target_fps", 60); ("quality_step", 0.1);
       ("min_quality", 0.5); ("max_quality", 1.5)];
    mk_strategy "physics_complexity_reduction"
      "Reduce physics simulation complexity under load"
      [("target_frame_time", 0.016); ("complexity_step", 0.05);
       ("min_complexity", 0.5); ("max_complexity", 1.5)];
    mk_strategy "ai_behavior_optimization"
      "Optimize AI behavior update frequency"
      [("target_response_time", 0.05); ("update_rate_step", 0.01);
       ("min_update_rate", 0.05); ("max_update_rate", 0.5)];
    mk_strategy "content_generation_caching"
      "Optimize content generation caching strategies"
      [("target_generation_time", 1); ("cache_size_step", 10);
       ("min_cache_size", 50); ("max_cache_size", 500)];
    mk_strategy "network_packet_rate_adjustment"
      "Adjust network packet rate based on latency"
      [("target_latency", 0.05); ("packet_rate_step", 5);
       ("min_packet_rate", 20); ("max_packet_rate", 120)] ].

(** [__init__]: the five default strategies are new objects, at the
    addresses 0 to 4. *)
Definition __init__ : System := {|
  settings := default_settings;
  stats := default_stats;
  performance_history := [];
  system_baselines := ∅;
  performance_trends := [];
  strategy_objects := _initialize_optimization_strategies;
  optimization_strategies :=
    seq 0 (length _initialize_optimization_strategies);
  last_adaptation_time := 0;
  improvement_suggestions := [];
  optimization_queue := []
|}.

(** A method that may leave by an exception: [Done] is a normal return,
    [Raised] is a [ZeroDivisionError] with the state as it was mutated up to
    the raise. *)
Inductive result := Done (s : System) | Raised (s : System).

Definition state_of (r : result) : System :=
  match r with Done s | Raised s => s end.

Definition bind (r : result) (k : System -> result) : result :=
  match r with Done s => k s | Raised s => Raised s end.

(** [record_performance_metric]; [now] is the reading of [time.time()]. *)
Definition record_performance_metric (now : Q) (system_name metric_name : string)
    (value target weight : Q) (s : System) : System :=
  let metric := {| timestamp := now; system_name := system_name;
                   metric_name := metric_name; value := value;
                   target := target; weight := weight |} in
  let h := performance_history s ++ [metric] in
  if (Z.of_nat (length h) >? performance_history_size (settings s))%Z
  then with_history (pop0 h) s
  else with_history h s.

(** [metric.value / metric.target] *)
Definition ratio (m : PerformanceMetric) : option Q :=
  div (value m) (target m).

(** First loop of [_analyze_performance]: the ratios of the window, grouped
    by subsystem in order of first appearance. *)
Fixpoint collect_ratios (w : list PerformanceMetric)
    (system_performance : odict string (list Q))
  : option (odict string (list Q)) :=
  match w with
  | [] => Some system_performance
  | metric :: w' =>
      let d := if od_mem (system_name metric) system_performance
               then system_performance
               else od_set (system_name metric) [] system_performance in
      r ← ratio metric;
      collect_ratios w'
        (od_set (system_name metric)
           (default [] (od_get (system_name metric) d) ++ [r]) d)
  end.

(** Second loop of [_analyze_performance]: the average of each subsystem,
    and the bottlenecks among them. *)
Fixpoint average_systems (items : odict string (list Q))
    (system_averages : odict string Q) (bottlenecks : list Bottleneck)
  : option (odict string Q * list Bottleneck) :=
  match items with
  | [] => Some (system_averages, bottlenecks)
  | (system, values) :: rest =>
      avg_performance ← div (sum values) (flen values);
      average_systems rest
        (od_set system avg_performance system_averages)
        (if ltb avg_performance 0.7
         then bottlenecks ++
              [{| b_system := system; b_performance := avg_performance;
                  b_severity := if ltb avg_performance 0.5
                                then high else medium |}]
         else bottlenecks)
  end.

(** [_analyze_performance]; [None] is [ZeroDivisionError]. *)
Definition _analyze_performance (s : System) : option Analysis :=
  if (length (performance_history s) <? 10)%nat
  then Some {| overall_performance := 1; system_performance := None;
               bottlenecks := [] |}
  else
    let recent_metrics := last_n 100 (performance_history s) in
    d ← collect_ratios recent_metrics [];
    '(system_averages, bottlenecks) ← average_systems d [] [];
    overall ← match system_averages with
              | [] => Some 1
              | _ => div (sum (od_values system_averages))
                         (flen system_averages)
              end;
    Some {| overall_performance := overall;
            system_performance := Some system_averages;
            bottlenecks := bottlenecks |}.

(** The literal dictionary of [_select_optimization_strategy]. *)
Definition strategy_mapping : gmap string string :=
  list_to_map
    [ ("renderer", "rendering_quality_adjustment");
      ("physics", "physics_complexity_reduction");
      ("ai_behavior", "ai_behavior_optimization");
      ("content_generator", "content_generation_caching");
      ("networking", "network_packet_rate_adjustment") ].

(** [_select_optimization_strategy]: the first reference of the registry
    whose object carries the mapped name. *)
Definition _select_optimization_strategy (system : string)
    (severity : Severity) (s : System) : option nat :=
  match strategy_mapping !! system with
  | None => None
  | Some strategy_name =>
      if decide (strategy_name = "") then None
      else snd <$> list_find
                     (λ strategy,
                        name <$> strategy_objects s !! strategy
                          = Some strategy_name)
                     (optimization_strategies s)
  end.

(** [_apply_optimizations]; [now] is the reading of [time.time()] that
    stamps the requests (one reading for the requests of one call). *)
Definition _apply_optimizations (now : Q) (performance_analysis : Analysis)
    (s : System) : System :=
  fold_left
    (λ s bottleneck,
       let system := b_system bottleneck in
       let severity := b_severity bottleneck in
       match _select_optimization_strategy system severity s with
       | Some strategy =>
           with_queue
             (optimization_queue s ++
                [{| rq_strategy := strategy; rq_system := system;
                    rq_severity := severity; rq_timestamp := now |}]) s
       | None => s
       end)
    (bottlenecks performance_analysis) s.

Definition set_effectiveness (e : Q) (st : OptimizationStrategy)
  : OptimizationStrategy :=
  {| name := name st; description := description st;
     parameters := parameters st; effectiveness := e;
     last_applied := last_applied st;
     application_count := application_count st |}.

Definition mark_applied (now : Q) (st : OptimizationStrategy)
  : OptimizationStrategy :=
  {| name := name st; description := description st;
     parameters := parameters st; effectiveness := effectiveness st;
     last_applied := now;
     application_count := (application_count st + 1)%Z |}.

(** What the [try] block of [_apply_optimization_strategy] meets: the value
    drawn by [random.random()], or an exception raised before the strategy
    is written. *)
Inductive Attempt := Drawn (r : Q) | Faulted.

(** [_apply_optimization_strategy]; [strategy] is the address of the
    strategy object. *)
Definition _apply_optimization_strategy (strategy : nat) (a : Attempt)
    (s : System) : System * bool :=
  match a with
  | Drawn r =>
      let success := gtb r 0.3 in
      (with_objects
         (alter (λ st,
                   set_effectiveness
                     (if success then min 1 (effectiveness st + 0.1)
                      else max 0 (effectiveness st - 0.05)) st)
                strategy (strategy_objects s)) s,
       true)
  | Faulted => (s, false)
  end.

Definition count_applied (st : ImprovementStats) : ImprovementStats :=
  {| learning_cycles := learning_cycles st;
     optimizations_applied := (optimizations_applied st + 1)%Z;
     performance_improvements := performance_improvements st;
     failed_optimizations := failed_optimizations st;
     avg_improvement_rate := avg_improvement_rate st;
     total_improvement := total_improvement st |}.

Definition count_failed (st : ImprovementStats) : ImprovementStats :=
  {| learning_cycles := learning_cycles st;
     optimizations_applied := optimizations_applied st;
     performance_improvements := performance_improvements st;
     failed_optimizations := (failed_optimizations st + 1)%Z;
     avg_improvement_rate := avg_improvement_rate st;
     total_improvement := total_improvement st |}.

Definition count_cycle (st : ImprovementStats) : ImprovementStats :=
  {| learning_cycles := (learning_cycles st + 1)%Z;
     optimizations_applied := optimizations_applied st;
     performance_improvements := performance_improvements st;
     failed_optimizations := failed_optimizations st;
     avg_improvement_rate := avg_improvement_rate st;
     total_improvement := total_improvement st |}.

(** [_process_optimization_queue]; [now] is the reading of [time.time()]
    stored in [last_applied]. *)
Definition _process_optimization_queue (a : Attempt) (now : Q) (s : System)
  : System :=
  match optimization_queue s with
  | [] => s
  | optimization :: rest =>
      let s := with_queue rest s in
      let strategy := rq_strategy optimization in
      let '(s, success) := _apply_optimization_strategy strategy a s in
      if success : bool
      then
        let s := with_stats (count_applied (stats s)) s in
        with_objects
          (alter (mark_applied now) strategy (strategy_objects s)) s
      else with_stats (count_failed (stats s)) s
  end.

(** The loop of [_update_performance_trends] over the window; the boolean
    tells whether a division raised, and the dictionary is the one reached
    at that point. *)
Fixpoint trends_loop (w : list PerformanceMetric)
    (trends : odict string (list Q)) : odict string (list Q) * bool :=
  match w with
  | [] => (trends, false)
  | metric :: w' =>
      let system := system_name metric in
      let t := if od_mem system trends then trends
               else od_set system [] trends in
      match ratio metric with
      | None => (t, true)
      | Some performance_ratio =>
          let l := default [] (od_get system t) ++ [performance_ratio] in
          let l := if (100 <? length l)%nat then pop0 l else l in
          trends_loop w' (od_set system l t)
      end
  end.

(** [_update_performance_trends] *)
Definition _update_performance_trends (s : System) : result :=
  if (length (performance_history s) <? 50)%nat then Done s
  else
    let recent_metrics := last_n 50 (performance_history s) in
    let '(t, raised) := trends_loop recent_metrics (performance_trends s) in
    if raised : bool then Raised (with_trends t s) else Done (with_trends t s).

(** [_generate_improvement_suggestions]; [now] stamps the suggestions. *)
Definition _generate_improvement_suggestions (now : Q) (s : System) : System :=
  with_suggestions
    (fold_left
       (λ suggestions '(system, trends),
          if (length trends <? 10)%nat then suggestions
          else
            let recent_trend := sum (last_n 5 trends) / 5 in
            let older_trend := sum (take 5 (last_n 10 trends)) / 5 in
            if ltb recent_trend (older_trend * 0.9)
            then suggestions ++
                 [{| sg_system := system;
                     sg_type := "performance_decline";
                     sg_severity := if ltb recent_trend 0.5
                                    then high else medium;
                     sg_recommendation :=
                       String.app "Investigate performance issues in "
                         (String.app system " system");
                     sg_timestamp := now |}]
            else suggestions)
       (performance_trends s) [])
    s.

(** The body of the loop of [_update_baselines]. *)
Definition baseline_step (baselines : gmap string (gmap string Q))
    (metric : PerformanceMetric) : gmap string (gmap string Q) :=
  let system := system_name metric in
  let baselines := match baselines !! system with
                   | Some _ => baselines
                   | None => <[system := ∅]> baselines
                   end in
  let of_system := default ∅ (baselines !! system) in
  let current_baseline :=
    default (target metric) (of_system !! metric_name metric) in
  let new_baseline := current_baseline * 0.9 + value metric * 0.1 in
  <[system := <[metric_name metric := new_baseline]> of_system]> baselines.

(** [_update_baselines] *)
Definition _update_baselines (s : System) : System :=
  if (length (performance_history s) <? 100)%nat then s
  else
    let recent_metrics := last_n 100 (performance_history s) in
    with_baselines (fold_left baseline_step recent_metrics (system_baselines s)) s.

(** [_perform_adaptation]; [_train_models] only prints and sleeps. *)
Definition _perform_adaptation (now : Q) (s : System) : result :=
  let s := with_stats (count_cycle (stats s)) s in
  match _analyze_performance s with
  | None => Raised s
  | Some performance_analysis =>
      let s :=
        if ltb (overall_performance performance_analysis)
               (optimization_threshold (settings s))
        then _apply_optimizations now performance_analysis s
        else s in
      Done (_update_baselines s)
  end.

(** What one call of [update] reads from outside: the clock at its start,
    the clock while requests are queued, the outcome of the application
    attempt, and the clock at the application and at the suggestions. *)
Record Tick := {
  current_time : Q;
  enqueue_time : Q;
  attempt : Attempt;
  applied_time : Q;
  suggestion_time : Q
}.

(** The periodic adaptation of [update] (its first statement). *)
Definition update_adaptation (t : Tick) (s : System) : result :=
  if gtb (current_time t - last_adaptation_time s)
         (adaptation_interval (settings s))
  then bind (_perform_adaptation (enqueue_time t) s)
            (λ s, Done (with_last_adaptation_time (current_time t) s))
  else Done s.

(** [update] *)
Definition update (delta_time : Q) (t : Tick) (s : System) : result :=
  bind (update_adaptation t s) (λ s,
    let s := _process_optimization_queue (attempt t) (applied_time t) s in
    bind (_update_performance_trends s) (λ s,
      Done (if enable_autonomous_optimization (settings s)
            then _generate_improvement_suggestions (suggestion_time t) s
            else s))).

(** [add_optimization_strategy]; [strategy] is the address of the object
    that the caller passes: the list gets the reference, not a copy. *)
Definition add_optimization_strategy (strategy : nat) (s : System)
  : System :=
  with_strategies (optimization_strategies s ++ [strategy]) s.

(** [OptimizationStrategy(...)] evaluated by a caller: a new object, at
    the next address. *)
Definition new_strategy (st : OptimizationStrategy) (s : System)
  : nat * System :=
  (length (strategy_objects s),
   with_objects (strategy_objects s ++ [st]) s).

(** [clear_performance_history] *)
Definition clear_performance_history (s : System) : System :=
  with_trends [] (with_history [] s).

(** [get_performance_rating]; [None] is [ZeroDivisionError]. *)
Definition get_performance_rating (s : System) : option Q :=
  match performance_history s with
  | [] => Some 1
  | _ =>
      let recent_metrics := last_n 50 (performance_history s) in
      match recent_metrics with
      | [] => Some 1
      | _ =>
          ratios ← mapM ratio recent_metrics;
          let total_performance := sum ratios in
          avg_performance ← div total_performance (flen recent_metrics);
          Some (max 0 (min 1 avg_performance))
      end
  end.

End SelfImprovement.

(** ** [engine_core.py] *)

Module EngineCore.
Import Py.

Local Open Scope Q_scope.

Inductive EngineState := STOPPED | RUNNING | PAUSED | ERROR.

Record SystemInfo := {
  name : string;
  version : string;
  status : string;
  performance : Q
}.

(** A registered system object, as far as the engine probes it. *)
Record SystemObject := {
  has_initialize : bool;
  has_update : bool
}.

(** A value of the [performance_metrics] dictionary. *)
Record FrameMetrics := {
  m_frame_time : Q;
  m_fps : Q;
  m_frame_number : Z
}.

Record GameEngine := {
  state : EngineState;
  systems : odict string SystemObject;
  system_info : gmap string SystemInfo;
  frame_rate : Z;
  frame_time : Q;
  last_frame_time : Q;
  current_frame : Z;
  performance_metrics : odict Z FrameMetrics;
  learning_rate : Q;
  adaptation_enabled : bool
}.

Definition with_state (x : EngineState) (e : GameEngine) : GameEngine :=
  {| state := x; systems := systems e; system_info := system_info e;
     frame_rate := frame_rate e; frame_time := frame_time e;
     last_frame_time := last_frame_time e; current_frame := current_frame e;
     performance_metrics := performance_metrics e;
     learning_rate := learning_rate e;
     adaptation_enabled := adaptation_enabled e |}.

Definition with_systems (x : odict string SystemObject) (e : GameEngine)
  : GameEngine :=
  {| state := state e; systems := x; system_info := system_info e;
     frame_rate := frame_rate e; frame_time := frame_time e;
     last_frame_time := last_frame_time e; current_frame := current_frame e;
     performance_metrics := performance_metrics e;
     learning_rate := learning_rate e;
     adaptation_enabled := adaptation_enabled e |}.

Definition with_system_info (x : gmap string SystemInfo) (e : GameEngine)
  : GameEngine :=
  {| state := state e; systems := systems e; system_info := x;
     frame_rate := frame_rate e; frame_time := frame_time e;
     last_frame_time := last_frame_time e; current_frame := current_frame e;
     performance_metrics := performance_metrics e;
     learning_rate := learning_rate e;
     adaptation_enabled := adaptation_enabled e |}.

Definition with_last_frame_time (x : Q) (e : GameEngine) : GameEngine :=
  {| state := state e; systems := systems e; system_info := system_info e;
     frame_rate := frame_rate e; frame_time := frame_time e;
     last_frame_time := x; current_frame := current_frame e;
     performance_metrics := performance_metrics e;
     learning_rate := learning_rate e;
     adaptation_enabled := adaptation_enabled e |}.

Definition with_current_frame (x : Z) (e : GameEngine) : GameEngine :=
  {| state := state e; systems := systems e; system_info := system_info e;
     frame_rate := frame_rate e; frame_time := frame_time e;
     last_frame_time := last_frame_time e; current_frame := x;
     performance_metrics := performance_metrics e;
     learning_rate := learning_rate e;
     adaptation_enabled := adaptation_enabled e |}.

Definition with_performance_metrics (x : odict Z FrameMetrics)
    (e : GameEngine) : GameEngine :=
  {| state := state e; systems := systems e; system_info := system_info e;
     frame_rate := frame_rate e; frame_time := frame_time e;
     last_frame_time := last_frame_time e; current_frame := current_frame e;
     performance_metrics := x;
     learning_rate := learning_rate e;
     adaptation_enabled := adaptation_enabled e |}.

(** [__init__] *)
Definition __init__ : GameEngine := {|
  state := STOPPED;
  systems := [];
  system_info := ∅;
  frame_rate := 60;
  frame_time := 1 / 60;
  last_frame_time := 0;
  current_frame := 0;
  performance_metrics := [];
  learning_rate := 0.01;
  adaptation_enabled := true
|}.

(** [register_system] *)
Definition register_system (name : string) (system : SystemObject)
    (version : string) (e : GameEngine) : GameEngine :=
  with_system_info
    (<[name := {| name := name; version := version;
                  status := "initialized"; performance := 1 |}]>
       (system_info e))
    (with_systems (od_set name system (systems e)) e).

(** [start]; [now] is the reading of [time.time()].  The loop thread it
    spawns is the consumer of the [Iteration] events below. *)
Definition start (now : Q) (e : GameEngine) : GameEngine :=
  match state e with
  | STOPPED =>
      with_current_frame 0
        (with_last_frame_time now (with_state RUNNING e))
  | _ => e
  end.

(** [stop] *)
Definition stop (e : GameEngine) : GameEngine := with_state STOPPED e.

(** [pause] *)
Definition pause (e : GameEngine) : GameEngine :=
  match state e with RUNNING => with_state PAUSED e | _ => e end.

(** [resume] *)
Definition resume (now : Q) (e : GameEngine) : GameEngine :=
  match state e with
  | PAUSED => with_last_frame_time now (with_state RUNNING e)
  | _ => e
  end.

Definition set_status (x : string) (i : SystemInfo) : SystemInfo :=
  {| name := name i; version := version i; status := x;
     performance := performance i |}.

Definition set_performance (x : Q) (i : SystemInfo) : SystemInfo :=
  {| name := name i; version := version i; status := status i;
     performance := x |}.

(** The body of the loop of [_update_systems]; [raises n] tells whether
    the [update] of the system registered as [n] raises in this frame.  The
    division is inside the [try] as well. *)
Definition update_system (raises : string -> bool) (e : GameEngine)
    (item : string * SystemObject) : GameEngine :=
  let '(name, system) := item in
  if has_update system then
    if raises name
    then with_system_info
           (alter (set_status "error") name (system_info e)) e
    else
      match div 1 (frame_time e * 0.9) with
      | Some q =>
          with_system_info
            (alter (set_performance (min 1 q)) name (system_info e)) e
      | None =>
          with_system_info
            (alter (set_status "error") name (system_info e)) e
      end
  else e.

(** [_update_systems] *)
Definition _update_systems (raises : string -> bool) (e : GameEngine)
  : GameEngine :=
  fold_left (update_system raises) (systems e) e.

(** [_optimize_systems] *)
Definition _optimize_systems (e : GameEngine) : GameEngine :=
  with_system_info
    ((λ info,
        if ltb (performance info) 0.8 && adaptation_enabled e
        then
          let improvement := min 0.2 ((1 - performance info) * 0.5) in
          set_performance (min 1 (performance info + improvement)) info
        else info) <$> system_info e)
    e.

(** [list(self.performance_metrics.values())[-300:]], the window read by
    [_analyze_performance] and [get_performance_stats]. *)
Definition recent_frames (e : GameEngine) : list FrameMetrics :=
  last_n 300 (od_values (performance_metrics e)).

(** [_adapt_and_improve]; [_analyze_performance] only prints. *)
Definition _adapt_and_improve (e : GameEngine) : GameEngine :=
  if (current_frame e mod 300 =? 0)%Z then _optimize_systems e else e.

(** What one iteration of the loop reads from outside. *)
Record Frame := {
  start_time : Q;
  end_time : Q;
  raises : string -> bool
}.

(** The body of the [while] of [_main_loop] in state [RUNNING]. *)
Definition run_frame (f : Frame) (e : GameEngine) : GameEngine :=
  let e := _update_systems (raises f) e in
  let e := if adaptation_enabled e then _adapt_and_improve e else e in
  let frame_duration := end_time f - start_time f in
  let e := with_current_frame (current_frame e + 1)%Z e in
  with_performance_metrics
    (od_set (current_frame e)
       {| m_frame_time := frame_duration;
          m_fps := if gtb frame_duration 0 then 1 / frame_duration else 0;
          m_frame_number := current_frame e |}
       (performance_metrics e))
    e.

(** One iteration of the [while] of [_main_loop]: a frame when running, a
    short sleep when paused; the loop has ended when stopped. *)
Definition _main_loop_iteration (f : Frame) (e : GameEngine) : GameEngine :=
  match state e with
  | RUNNING => run_frame f e
  | _ => e
  end.

(** What happens to an engine: an iteration of its loop thread, or a call
    of its control methods from another thread between two iterations. *)
Inductive Event :=
| Iteration (f : Frame)
| CallStart (now : Q)
| CallStop
| CallPause
| CallResume (now : Q).

Definition step (e : GameEngine) (ev : Event) : GameEngine :=
  match ev with
  | Iteration f => _main_loop_iteration f e
  | CallStart now => start now e
  | CallStop => stop e
  | CallPause => pause e
  | CallResume now => resume now e
  end.

Definition run (evs : list Event) (e : GameEngine) : GameEngine :=
  fold_left step evs e.

(** The dictionary returned by [get_performance_stats]; [None] is the empty
    dictionary.  [recent_frames] is not empty where it is divided by. *)
Record PerformanceStats := {
  average_frame_time : Q;
  average_fps : Q;
  ps_current_frame : Z;
  engine_state : EngineState
}.

Definition get_performance_stats (e : GameEngine) : option PerformanceStats :=
  match performance_metrics e with
  | [] => None
  | _ =>
      let recent := recent_frames e in
      Some {| average_frame_time := sum (map m_frame_time recent) / flen recent;
              average_fps := sum (map m_fps recent) / flen recent;
              ps_current_frame := current_frame e;
              engine_state := state e |}
  end.

(** The body of the loop of [initialize_systems]; [raises n] tells whether
    the [initialize] of the system registered as [n] raises. *)
Definition initialize_system (raises : string -> bool) (e : GameEngine)
    (item : string * SystemObject) : GameEngine :=
  let '(name, system) := item in
  if has_initialize system then
    if raises name
    then with_system_info
           (alter (set_status "error") name (system_info e)) e
    else with_system_info
           (alter (set_status "initialized") name (system_info e)) e
  else with_system_info
         (alter (set_status "ready") name (system_info e)) e.

(** [initialize_systems] *)
Definition initialize_systems (raises : string -> bool) (e : GameEngine)
  : GameEngine :=
  fold_left (initialize_system raises) (systems e) e.

(** [get_system_info]: a copy of the dictionary. *)
Definition get_system_info (e : GameEngine) : gmap string SystemInfo :=
  system_info e.

End EngineCore.

(** ** Sequences of calls *)

Module Trace.
Import Py SelfImprovement.

Local Open Scope Q_scope.

(** The arguments of one call of [record_performance_metric], with the
    clock it reads. *)
Record RecordCall := {
  rc_now : Q;
  rc_system : string;
  rc_metric : string;
  rc_value : Q;
  rc_target : Q;
  rc_weight : Q
}.

(** The metric object such a call builds. *)
Definition metric_of (c : RecordCall) : PerformanceMetric :=
  {| timestamp := rc_now c; system_name := rc_system c;
     metric_name := rc_metric c; value := rc_value c;
     target := rc_target c; weight := rc_weight c |}.

Definition record (c : RecordCall) (s : System) : System :=
  record_performance_metric (rc_now c) (rc_system c) (rc_metric c)
    (rc_value c) (rc_target c) (rc_weight c) s.

Definition record_all (cs : list RecordCall) (s : System) : System :=
  fold_left (λ s c, record c s) cs s.

(** The effectiveness of the strategy object at the address [i], before
    the first and after each of a sequence of application attempts. *)
Fixpoint effectiveness_trajectory (i : nat) (attempts : list Attempt)
    (s : System) : list (option Q) :=
  (effectiveness <$> strategy_objects s !! i) ::
  match attempts with
  | [] => []
  | a :: rest =>
      effectiveness_trajectory i rest
        (fst (_apply_optimization_strategy i a s))
  end.

Definition unit_interval (e : Q) : Prop := 0 <= e /\ e <= 1.

(** The strategy object at the address [i] given the effectiveness [e]. *)
Definition reset_effectiveness (i : nat) (e : Q) (s : System) : System :=
  with_objects
    (alter (set_effectiveness e) i (strategy_objects s)) s.

Definition close_to (o : option Q) (q : Q) : Prop :=
  exists e, o = Some e /\ e == q.

(** Successive calls of [update]; a call that raises leaves the state it
    reached, and the next call starts from it. *)
Definition run_updates (delta_time : Q) (ticks : list Tick) (s : System)
  : System :=
  fold_left (λ s t, state_of (update delta_time t s)) ticks s.

(** Successive calls of [_process_optimization_queue], each with its
    attempt and its clock. *)
Definition drain (steps : list (Attempt * Q)) (s : System) : System :=
  fold_left (λ s '(a, now), _process_optimization_queue a now s) steps s.

(** No request is queued during the ticks: the adaptation step of each
    returns with the queue it found. *)
Fixpoint quiet (delta_time : Q) (ticks : list Tick) (s : System) : Prop :=
  match ticks with
  | [] => True
  | t :: rest =>
      (exists s', update_adaptation t s = Done s' /\
                  optimization_queue s' = optimization_queue s) /\
      quiet delta_time rest (state_of (update delta_time t s))
  end.

(** Recordings and adaptation cycles, in any order. *)
Inductive Op := OpRecord (c : RecordCall) | OpAdapt (now : Q).

Definition exec_op (s : System) (o : Op) : System :=
  match o with
  | OpRecord c => record c s
  | OpAdapt now => state_of (_perform_adaptation now s)
  end.

Definition exec_ops (ops : list Op) (s : System) : System :=
  fold_left exec_op ops s.

(** The ratio of a metric is defined. *)
Definition nonzero_target (m : PerformanceMetric) : Prop := ~ target m == 0.

(** The ratio of a metric is defined and at least 0.8. *)
Definition healthy (m : PerformanceMetric) : Prop :=
  ~ target m == 0 /\ 0.8 <= value m / target m.

Definition healthy_op (o : Op) : Prop :=
  match o with
  | OpRecord c => healthy (metric_of c)
  | OpAdapt _ => True
  end.

(** [n] adaptation cycles in a row. *)
Definition adaptation_cycles (nows : list Q) (s : System) : System :=
  fold_left (λ s now, state_of (_perform_adaptation now s)) nows s.

(** The baseline of a metric of a subsystem, when there is one:
    [baselines[system][metric]]. *)
Definition at_key (system metric : string)
    (baselines : gmap string (gmap string Q)) : option Q :=
  baselines !! system ≫= λ of_system, of_system !! metric.

Definition baseline (s : System) (system metric : string) : option Q :=
  at_key system metric (system_baselines s).

(** The metric belongs to the given subsystem and has the given name. *)
Definition tracks (system metric : string) (m : PerformanceMetric) : Prop :=
  system_name m = system /\ metric_name m = metric.

#[global] Instance tracks_dec (system metric : string)
    (m : PerformanceMetric) : Decision (tracks system metric m).
Proof. unfold tracks. apply _. Defined.

(** One update of a baseline by a metric: weight 0.9 on the old baseline
    (the target of the metric when there is none yet), 0.1 on the value. *)
Definition ema (old : option Q) (m : PerformanceMetric) : option Q :=
  Some (default (target m) old * 0.9 + value m * 0.1).

(** [0.9 ^ n] *)
Fixpoint decay (n : nat) : Q :=
  match n with
  | O => 1
  | S n => 0.9 * decay n
  end.

(** The metrics of the window that feed the baseline. *)
Definition feeding (system metric : string) (s : System)
  : list PerformanceMetric :=
  filter (tracks system metric) (last_n 100 (performance_history s)).

(** Where the baseline starts from: its value, or the target of the first
    feeding metric when there is none yet. *)
Definition starting_point (system metric : string) (s : System) : Q :=
  default (default 0 (target <$> head (feeding system metric s)))
          (baseline s system metric).

(** A window of a hundred samples in which the metrics that feed the
    baseline all carry the value [V], and there is one at least. *)
Definition steady (system metric : string) (V : Q) (s : System) : Prop :=
  (100 <= length (performance_history s))%nat /\
  Forall (λ m, value m == V) (feeding system metric s) /\
  feeding system metric s <> [].

(** [n] calls of [_update_baselines] in a row. *)
Fixpoint baseline_updates (n : nat) (s : System) : System :=
  match n with
  | O => s
  | S n => baseline_updates n (_update_baselines s)
  end.

(** What a baseline update on a hundred samples or more does to a system:
    the history stays, and the loop body runs over the window. *)
Definition updated (s s' : System) : Prop :=
  performance_history s' = performance_history s /\
  system_baselines s' =
    fold_left baseline_step (last_n 100 (performance_history s))
      (system_baselines s).

Inductive updated_times : nat -> System -> System -> Prop :=
| updated_0 (s : System) : updated_times 0 s s
| updated_S (n : nat) (s s1 s2 : System) :
    updated s s1 -> updated_times n s1 s2 -> updated_times (S n) s s2.

(** A number of adaptation cycles from which the bound holds. *)
Definition cycles_for (distance eps : Q) : nat :=
  S (Z.to_nat (Qceiling (9 * distance / eps))).

End Trace.

(** ** The analysis as the specification words it *)

Module AnalyzerSpec.
Import Py SelfImprovement.

Local Open Scope Q_scope.

(** The performance ratio of a metric: observed value over target. *)
Definition performance_ratio (m : PerformanceMetric) : Q :=
  value m / target m.

(** The subsystems that report in a window, in order of first appearance. *)
Definition subsystems (w : list PerformanceMetric) : list string :=
  fold_left
    (λ seen m, if decide (system_name m ∈ seen) then seen
               else seen ++ [system_name m])
    w [].

(** The ratios of the metrics of one subsystem in the window. *)
Definition ratios_of (w : list PerformanceMetric) (system : string) : list Q :=
  map performance_ratio (filter (λ m, system_name m = system) w).

Definition mean (l : list Q) : Q := sum l / flen l.

(** Per-subsystem mean performance ratio. *)
Definition mean_ratio (w : list PerformanceMetric) (system : string) : Q :=
  mean (ratios_of w system).

(** A subsystem is a bottleneck if its mean ratio is below 0.7. *)
Definition is_bottleneck (w : list PerformanceMetric) (system : string)
  : bool :=
  if Qlt_le_dec (mean_ratio w system) 0.7 then true else false.

(** Severity is high if the ratio is below 0.5, else medium. *)
Definition severity_of (r : Q) : Severity :=
  if Qlt_le_dec r 0.5 then high else medium.

Definition bottleneck_of (w : list PerformanceMetric) (system : string)
  : Bottleneck :=
  {| b_system := system; b_performance := mean_ratio w system;
     b_severity := severity_of (mean_ratio w system) |}.

Definition bottlenecks_of (w : list PerformanceMetric) : list Bottleneck :=
  map (bottleneck_of w) (filter (λ system, is_bottleneck w system) (subsystems w)).

(** Overall performance: the mean of the per-subsystem means. *)
Definition overall_of (w : list PerformanceMetric) : Q :=
  mean (map (mean_ratio w) (subsystems w)).

(** The mean over the individual samples, which the overall performance is
    not. *)
Definition sample_mean (w : list PerformanceMetric) : Q :=
  mean (map performance_ratio w).

(** The grouping dictionary after the metrics [p]. *)
Definition table (p : list PerformanceMetric) : list (string * list Q) :=
  map (λ system, (system, ratios_of p system)) (subsystems p).

Definition analysis_of (w : list PerformanceMetric) : Analysis :=
  {| overall_performance := overall_of w;
     system_performance :=
       Some (map (λ system, (system, mean_ratio w system)) (subsystems w));
     bottlenecks := bottlenecks_of w |}.

(** The rating as the interface words it: 1.0 without metrics, otherwise
    the mean ratio of the most recent fifty, clamped into [0,1]. *)
Definition rating_of (history : list PerformanceMetric) : Q :=
  match history with
  | [] => 1
  | _ => max 0 (min 1 (sample_mean (last_n 50 history)))
  end.

End AnalyzerSpec.

(** ** Concrete runs *)

Module Scenario.
Import Py SelfImprovement Trace.

Local Open Scope Q_scope.

Definition call (system metric : string) (v t : Q) : RecordCall :=
  {| rc_now := 0; rc_system := system; rc_metric := metric;
     rc_value := v; rc_target := t; rc_weight := 1 |}.

(** Twenty samples of a renderer at 40% of its target. *)
Definition slow_renderer : System :=
  record_all (replicate 20 (call "renderer" "frame_time" 0.4 1)) __init__.

(** Two ticks more than an adaptation interval apart: the first draw is a
    success of the simulated push, the second a failure. *)
Definition tick_success : Tick :=
  {| current_time := 100; enqueue_time := 100; attempt := Drawn 0.9;
     applied_time := 101; suggestion_time := 102 |}.

Definition tick_failure : Tick :=
  {| current_time := 200; enqueue_time := 200; attempt := Drawn 0.2;
     applied_time := 201; suggestion_time := 202 |}.

Definition after_first_push : System :=
  run_updates 0.016 [tick_success] slow_renderer.

Definition after_failed_push : System :=
  run_updates 0.016 [tick_success; tick_failure] slow_renderer.

(** A tick inside the adaptation interval. *)
Definition tick_idle (now : Q) (a : Attempt) : Tick :=
  {| current_time := now; enqueue_time := now; attempt := a;
     applied_time := now; suggestion_time := now |}.

Definition request (i : nat) (system : string) : OptimizationRequest :=
  {| rq_strategy := i; rq_system := system; rq_severity := high;
     rq_timestamp := 0 |}.

(** Three requests waiting in the queue of the initial system. *)
Definition three_requests : System :=
  with_queue [request 0 "renderer"; request 1 "physics";
              request 0 "renderer"] __init__.

(** Nine samples of a renderer at 10% of its target. *)
Definition nine_samples : System :=
  record_all (replicate 9 (call "renderer" "frame_time" 0.1 1)) __init__.

(** One sample of a renderer at 20% of its target, then nine samples of a
    physics system on target. *)
Definition skewed : System :=
  record_all (call "renderer" "frame_time" 0.2 1 ::
              replicate 9 (call "physics" "step_time" 1 1)) __init__.

(** Twenty samples of a renderer at 90% of its target, and a run of
    adaptation cycles and further such recordings. *)
Definition healthy_renderer : System :=
  record_all (replicate 20 (call "renderer" "frame_time" 0.9 1)) __init__.

Definition healthy_run : list Op :=
  [OpAdapt 11; OpRecord (call "renderer" "frame_time" 0.85 1);
   OpAdapt 22; OpAdapt 33].

(** 101 samples of a renderer at 0.02 s against a target of 0.0167 s. *)
Definition constant_feed : System :=
  record_all (replicate 101 (call "renderer" "frame_time" 0.02 0.0167)) __init__.

(** A system whose history keeps two entries. *)
Definition small_store : System := {|
  settings := {| learning_rate := 0.01; adaptation_interval := 10;
                 performance_history_size := 2;
                 optimization_threshold := 0.8;
                 enable_autonomous_optimization := true;
                 enable_predictive_optimization := true;
                 max_optimization_attempts := 10 |};
  stats := default_stats;
  performance_history := [];
  system_baselines := ∅;
  performance_trends := [];
  strategy_objects := _initialize_optimization_strategies;
  optimization_strategies :=
    seq 0 (length _initialize_optimization_strategies);
  last_adaptation_time := 0;
  improvement_suggestions := [];
  optimization_queue := []
|}.

Definition three_calls : list RecordCall :=
  [call "a" "m" 1 1; call "b" "m" 2 1; call "c" "m" 3 1].

(** One metric whose target is zero. *)
Definition zero_target : System :=
  record (call "renderer" "frame_time" 1 0) __init__.

End Scenario.

Module EngineScenario.
Import Py EngineCore.

Local Open Scope Q_scope.

(** The keys of the history after [n] frames. *)
Definition frames_upto (n : nat) : list Z := map Z.of_nat (seq 1 n).

(** The engine of the example at the end of [engine_core.py]: a renderer
    and a physics system, both with [initialize] and [update]. *)
Definition example_engine : GameEngine :=
  register_system "physics"
    {| has_initialize := true; has_update := true |} "1.0"
    (register_system "renderer"
       {| has_initialize := true; has_update := true |} "1.0" __init__).

(** A frame of three milliseconds in which no system raises. *)
Definition calm_frame : Frame :=
  {| start_time := 0; end_time := 0.003; raises := λ _, false |}.

(** The engine after it was started and its loop ran 301 frames. *)
Definition after_301_frames : GameEngine :=
  run (replicate 301 (Iteration calm_frame)) (start 0 example_engine).

End EngineScenario.

(** ** Calls of the public methods, and what they keep *)

Module Invariants.
Import Py SelfImprovement Trace.

Local Open Scope Q_scope.

(** The ratio of the metric is not defined. *)
Definition zero_target (m : PerformanceMetric) : Prop := target m == 0.

(** The request that [_apply_optimizations] queues for a bottleneck, when
    a strategy is mapped to its subsystem. *)
Definition request_of (now : Q) (s : System) (b : Bottleneck)
  : option OptimizationRequest :=
  (λ strategy, {| rq_strategy := strategy; rq_system := b_system b;
                  rq_severity := b_severity b; rq_timestamp := now |})
    <$> _select_optimization_strategy (b_system b) (b_severity b) s.

(** A request refers to a strategy object that is in the registry, one
    that carries the name mapped to the subsystem of the request. *)
Definition wf_request (s : System) (rq : OptimizationRequest) : Prop :=
  rq_strategy rq ∈ optimization_strategies s /\
  exists st, strategy_objects s !! rq_strategy rq = Some st /\
             strategy_mapping !! rq_system rq = Some (name st).

Definition queue_wf (s : System) : Prop :=
  Forall (wf_request s) (optimization_queue s).

(** Every reference of the registry refers to an object: what the
    language guarantees of a list of objects. *)
Definition refs_valid (s : System) : Prop :=
  Forall (λ a, (a < length (strategy_objects s))%nat)
         (optimization_strategies s).

(** The strategies that a loop over the registry meets, in order. *)
Definition registered (s : System) : list OptimizationStrategy :=
  omap (λ a, strategy_objects s !! a) (optimization_strategies s).

(** No trend sequence holds more than a hundred ratios. *)
Definition trends_bounded (s : System) : Prop :=
  Forall (λ item : string * list Q, (length (snd item) <= 100)%nat)
         (performance_trends s).

(** The effectiveness of every strategy object lies in [0,1]. *)
Definition effectiveness_bounded (s : System) : Prop :=
  Forall (λ st, unit_interval (effectiveness st)) (strategy_objects s).

(** The applications recorded by the strategy objects, each object
    counted once. *)
Definition total_applications (s : System) : Z :=
  fold_right (λ st acc, (application_count st + acc)%Z) 0%Z
             (strategy_objects s).

(** What a caller passes to [add_optimization_strategy]: an object it has
    just built, or the object at a position of the registry
    ([system.optimization_strategies[i]]). *)
Inductive Argument :=
| NewObject (st : OptimizationStrategy)
| Registered (i : nat).

(** A call of a public method of the system. *)
Inductive Call :=
| CallRecord (c : RecordCall)
| CallUpdate (delta_time : Q) (t : Tick)
| CallAdd (strategy : Argument)
| CallClear.

(** A position out of the range of the registry is an [IndexError] in the
    caller: the call does not take place. *)
Definition exec_call (s : System) (c : Call) : System :=
  match c with
  | CallRecord c => record c s
  | CallUpdate delta_time t => state_of (update delta_time t s)
  | CallAdd (NewObject st) =>
      let '(strategy, s) := new_strategy st s in
      add_optimization_strategy strategy s
  | CallAdd (Registered i) =>
      match optimization_strategies s !! i with
      | Some strategy => add_optimization_strategy strategy s
      | None => s
      end
  | CallClear => clear_performance_history s
  end.

Definition exec_calls (cs : list Call) (s : System) : System :=
  fold_left exec_call cs s.

(** The new objects that the calls register start in [0,1]. *)
Definition adds_bounded (c : Call) : Prop :=
  match c with
  | CallAdd (NewObject st) => unit_interval (effectiveness st)
  | _ => True
  end.

(** The new objects that the calls register have not been applied yet. *)
Definition adds_fresh (c : Call) : Prop :=
  match c with
  | CallAdd (NewObject st) => application_count st = 0%Z
  | _ => True
  end.

(** The names that the calls append to the names [names] of the registry,
    in order: the name of a new object, or the name at the position that
    is registered again. *)
Fixpoint added_names (names : list string) (cs : list Call) : list string :=
  match cs with
  | [] => []
  | CallAdd (NewObject st) :: cs =>
      name st :: added_names (names ++ [name st]) cs
  | CallAdd (Registered i) :: cs =>
      match names !! i with
      | Some n => n :: added_names (names ++ [n]) cs
      | None => added_names names cs
      end
  | _ :: cs => added_names names cs
  end.

(** The adaptation is due at the tick. *)
Definition due (t : Tick) (s : System) : Prop :=
  adaptation_interval (settings s) < current_time t - last_adaptation_time s.

(** The history is within a capacity that is not negative. *)
Definition history_bounded (s : System) : Prop :=
  (0 <= performance_history_size (settings s))%Z /\
  (Z.of_nat (length (performance_history s))
     <= performance_history_size (settings s))%Z.

(** The success counter agrees with the applications that the strategies
    record, up to the offset [k]. *)
Definition accounted (k : Z) (s : System) : Prop :=
  queue_wf s /\
  (total_applications s - optimizations_applied (stats s) = k)%Z.

(** The suggestion that [_generate_improvement_suggestions] emits for an
    entry of the trends, when it emits one. *)
Definition suggestion_for (now : Q) (item : string * list Q)
  : option Suggestion :=
  let '(system, trends) := item in
  if (length trends <? 10)%nat then None
  else
    let recent_trend := sum (last_n 5 trends) / 5 in
    let older_trend := sum (take 5 (last_n 10 trends)) / 5 in
    if ltb recent_trend (older_trend * 0.9)
    then Some {| sg_system := system;
                 sg_type := "performance_decline";
                 sg_severity := if ltb recent_trend 0.5 then high else medium;
                 sg_recommendation :=
                   String.app "Investigate performance issues in "
                     (String.app system " system");
                 sg_timestamp := now |}
    else None.

(** A sequence of at least ten ratios declines: the mean of the last five
    is below 0.9 times the mean of the five before. *)
Definition declining (trends : list Q) : Prop :=
  (10 <= length trends)%nat /\
  sum (last_n 5 trends) / 5 < sum (take 5 (last_n 10 trends)) / 5 * 0.9.

End Invariants.

Module Session.
Import Py SelfImprovement Trace Invariants.

Local Open Scope Q_scope.

(** A strategy that an operator registers. *)
Definition custom_strategy : OptimizationStrategy :=
  mk_strategy "rendering_quality_adjustment" "A second renderer strategy"
    [("target_fps", 30)].

(** A session: sixty samples of a slow renderer, a due tick, the
    registration of a new object and of the renderer strategy a second
    time, a due tick, a clearing and an idle tick. *)
Definition calls : list Call :=
  replicate 60 (CallRecord (Scenario.call "renderer" "frame_time" 0.4 1)) ++
  [CallUpdate 0.016 Scenario.tick_success;
   CallAdd (NewObject custom_strategy);
   CallAdd (Registered 0);
   CallUpdate 0.016 Scenario.tick_failure;
   CallClear;
   CallUpdate 0.016 (Scenario.tick_idle 201 Faulted)].

(** Three queued requests, and twenty samples of which the first has a
    zero target. *)
Definition poisoned : System :=
  record_all (Scenario.call "renderer" "frame_time" 1 0 ::
              replicate 19 (Scenario.call "renderer" "frame_time" 0.4 1))
    Scenario.three_requests.

(** A session of public calls that ends with requests waiting and a zero
    target in the window: twenty samples each of a slow renderer, a slow
    physics system and a slow behaviour system, a due tick that queues
    three requests and applies the first, and one sample with a zero
    target. *)
Definition stalled : System :=
  record (Scenario.call "renderer" "frame_time" 1 0)
    (run_updates 0.016 [Scenario.tick_success]
       (record_all
          (replicate 20 (Scenario.call "renderer" "frame_time" 0.4 1) ++
           replicate 20 (Scenario.call "physics" "step_time" 0.4 1) ++
           replicate 20 (Scenario.call "ai_behavior" "response_time" 0.4 1))
          SelfImprovement.__init__)).

(** Two later ticks, at each of which the adaptation is due. *)
Definition stalled_ticks : list Tick :=
  [Scenario.tick_failure; Scenario.tick_idle 300 (Drawn 0.9)].

(** 101 samples of a renderer at 0.02 s whose target is zero. *)
Definition zero_target_feed : System :=
  record_all (replicate 101 (Scenario.call "renderer" "frame_time" 0.02 0))
    SelfImprovement.__init__.

End Session.

Module EngineInvariants.
Import Py EngineCore.

Local Open Scope Q_scope.

(** The entry that a frame stores under the frame number [k]. *)
Definition frame_entry (f : Frame) (k : Z) : FrameMetrics :=
  {| m_frame_time := end_time f - start_time f;
     m_fps := if gtb (end_time f - start_time f) 0
              then 1 / (end_time f - start_time f) else 0;
     m_frame_number := k |}.

(** An entry is stored under its own frame number, and its rate is the
    inverse of a positive duration, zero otherwise. *)
Definition entry_ok (item : Z * FrameMetrics) : Prop :=
  m_frame_number (snd item) = fst item /\
  0 <= m_fps (snd item) /\
  (0 < m_frame_time (snd item) ->
   m_fps (snd item) * m_frame_time (snd item) == 1) /\
  (m_frame_time (snd item) <= 0 -> m_fps (snd item) == 0).

Definition entries_ok (e : GameEngine) : Prop :=
  Forall entry_ok (performance_metrics e).

(** Every registered system has its record of information. *)
Definition infos_present (e : GameEngine) : Prop :=
  Forall (λ n, is_Some (system_info e !! n)) (od_keys (systems e)).

(** What a program does with an engine: it registers systems, initializes
    them, and lets the loop and the control methods run. *)
Inductive Action :=
| Register (name : string) (system : SystemObject) (version : string)
| Initialize (raises : string -> bool)
| Happen (ev : Event).

Definition act (e : GameEngine) (a : Action) : GameEngine :=
  match a with
  | Register name system version => register_system name system version e
  | Initialize raises => initialize_systems raises e
  | Happen ev => step e ev
  end.

Definition perform (acts : list Action) (e : GameEngine) : GameEngine :=
  fold_left act acts e.

(** The status that [initialize_systems] gives a system. *)
Definition initial_status (raises : string -> bool) (name : string)
    (system : SystemObject) : string :=
  if has_initialize system
  then if raises name then "error" else "initialized"
  else "ready".

(** What [_update_systems] does to the record of a system, in an engine
    of frame time [ft]. *)
Definition updated_info (ft : Q) (raises : string -> bool) (name : string)
    (system : SystemObject) (i : SystemInfo) : SystemInfo :=
  if has_update system then
    if raises name then set_status "error" i
    else match div 1 (ft * 0.9) with
         | Some q => set_performance (min 1 q) i
         | None => set_status "error" i
         end
  else i.

(** What [initialize_systems] does to the record of a system. *)
Definition initialized_info (raises : string -> bool) (name : string)
    (system : SystemObject) (i : SystemInfo) : SystemInfo :=
  set_status (initial_status raises name system) i.

(** The record of the system is there and says "error". *)
Definition in_error (n : string) (e : GameEngine) : Prop :=
  exists i, system_info e !! n = Some i /\ status i = "error".

(** A frame in which the renderer raises. *)
Definition renderer_fails : Frame :=
  {| start_time := 0; end_time := 0.003;
     raises := λ n, if decide (n = "renderer") then true else false |}.

(** The example engine: started, a frame in which the renderer raises, then
    calm frames with a pause in between. *)
Definition troubled_run : list Event :=
  [Iteration renderer_fails; Iteration EngineScenario.calm_frame;
   CallPause; Iteration EngineScenario.calm_frame; CallResume 1;
   Iteration EngineScenario.calm_frame].

(** The example engine with a renderer that lags at 0.3. *)
Definition lagging_engine : GameEngine :=
  with_system_info
    (alter (set_performance 0.3) "renderer"
           (system_info EngineScenario.example_engine))
    EngineScenario.example_engine.

(** The program at the end of [engine_core.py], with a troubled run. *)
Definition example_program : list Action :=
  [Register "renderer" {| has_initialize := true; has_update := true |} "1.0";
   Register "physics" {| has_initialize := true; has_update := true |} "1.0";
   Initialize (λ _, false);
   Happen (CallStart 0)] ++ map Happen troubled_run ++ [Happen CallStop].

End EngineInvariants.

(** ** Facts about the Python primitives *)

Module PyFacts.
Import Py.

Local Open Scope Q_scope.

Lemma ltb_lt (a b : Q) : ltb a b = true <-> a < b.
Proof.
  unfold ltb. rewrite negb_true_iff, <- not_true_iff_false, Qle_bool_iff.
  split; [apply Qnot_le_lt | apply Qlt_not_le].
Qed.

Lemma ltb_ge (a b : Q) : ltb a b = false <-> b <= a.
Proof.
  unfold ltb. rewrite negb_false_iff. apply Qle_bool_iff.
Qed.

Lemma ltb_dec (a b : Q) : ltb a b = if Qlt_le_dec a b then true else false.
Proof.
  destruct (Qlt_le_dec a b) as [H | H].
  - now apply ltb_lt.
  - now apply ltb_ge.
Qed.

Lemma min_le_l (a b : Q) : min a b <= a.
Proof.
  unfold min. destruct (ltb b a) eqn:E.
  - apply ltb_lt in E. lra.
  - lra.
Qed.

Lemma min_le_r (a b : Q) : min a b <= b.
Proof.
  unfold min. destruct (ltb b a) eqn:E.
  - lra.
  - now apply ltb_ge in E.
Qed.

Lemma min_glb (a b c : Q) : c <= a -> c <= b -> c <= min a b.
Proof. intros. unfold min. now destruct (ltb b a). Qed.

Lemma max_ge_l (a b : Q) : a <= max a b.
Proof.
  unfold max, gtb. destruct (ltb a b) eqn:E.
  - apply ltb_lt in E. lra.
  - lra.
Qed.

Lemma max_ge_r (a b : Q) : b <= max a b.
Proof.
  unfold max, gtb. destruct (ltb a b) eqn:E.
  - lra.
  - now apply ltb_ge in E.
Qed.

Lemma max_lub (a b c : Q) : a <= c -> b <= c -> max a b <= c.
Proof. intros. unfold max. now destruct (gtb b a). Qed.

Lemma fold_sum (l : list Q) (a : Q) : fold_left Qplus l a == a + sum l.
Proof.
  unfold sum. revert a. induction l as [| x l IH]; intros a; simpl.
  - lra.
  - rewrite IH, (IH (0 + x)). lra.
Qed.

Lemma sum_cons (x : Q) (l : list Q) : sum (x :: l) == x + sum l.
Proof. unfold sum at 1. simpl. rewrite fold_sum. lra. Qed.

Lemma sum_snoc (l : list Q) (x : Q) : sum (l ++ [x]) = sum l + x.
Proof. unfold sum. now rewrite fold_left_app. Qed.

Lemma flen_cons {A} (x : A) (l : list A) : flen (x :: l) == flen l + 1.
Proof.
  unfold flen. cbn [length]. rewrite Nat2Z.inj_succ, <- Z.add_1_r, inject_Z_plus.
  reflexivity.
Qed.

Lemma flen_nonneg {A} (l : list A) : 0 <= flen l.
Proof.
  unfold flen. change 0 with (inject_Z 0). rewrite <- Zle_Qle. lia.
Qed.

Lemma flen_pos {A} (l : list A) : l <> [] -> 0 < flen l.
Proof.
  destruct l as [| x l]; [congruence | intros _].
  rewrite flen_cons. pose proof (flen_nonneg l). lra.
Qed.

Lemma div_Some (a b : Q) : ~ b == 0 -> div a b = Some (a / b).
Proof.
  intros H. unfold div. destruct (Qeq_bool b 0) eqn:E; [| reflexivity].
  now apply Qeq_bool_iff in E.
Qed.

Lemma div_None (a b : Q) : b == 0 -> div a b = None.
Proof.
  intros H. unfold div. apply Qeq_bool_iff in H. now rewrite H.
Qed.

Lemma div_flen {A} (a : Q) (l : list A) :
  l <> [] -> div a (flen l) = Some (a / flen l).
Proof. intros H. apply div_Some. pose proof (flen_pos l H). lra. Qed.

(** The mean of a non-empty list lies above any lower bound of its
    elements. *)
Lemma sum_lower (c : Q) (l : list Q) :
  Forall (λ x, c <= x) l -> c * flen l <= sum l.
Proof.
  induction 1 as [| x l Hx _ IH].
  - change (c * 0 <= 0). lra.
  - rewrite sum_cons, flen_cons. lra.
Qed.

Lemma mean_lower (c : Q) (l : list Q) :
  l <> [] -> Forall (λ x, c <= x) l -> c <= sum l / flen l.
Proof.
  intros Hne Hall. pose proof (flen_pos l Hne) as Hpos.
  apply Qle_shift_div_l; [assumption |]. now apply sum_lower.
Qed.

Lemma length_last_n {A} (n : nat) (l : list A) :
  length (last_n n l) = Nat.min n (length l).
Proof. unfold last_n. rewrite length_drop. lia. Qed.

Lemma last_n_all {A} (n : nat) (l : list A) :
  (length l <= n)%nat -> last_n n l = l.
Proof.
  intros H. unfold last_n. replace (length l - n)%nat with 0%nat by lia.
  reflexivity.
Qed.

Lemma last_n_Forall {A} (P : A -> Prop) (n : nat) (l : list A) :
  Forall P l -> Forall P (last_n n l).
Proof. intros H. unfold last_n. now apply Forall_drop. Qed.

Lemma last_n_nil_inv {A} (n : nat) (l : list A) :
  (0 < n)%nat -> last_n n l = [] -> l = [].
Proof.
  intros Hn H. apply (f_equal length) in H. rewrite length_last_n in H.
  destruct l; [reflexivity | simpl in H; lia].
Qed.

Section odict_facts.
Context {K V : Type} `{EqDecision K}.
Implicit Types (d : list (K * V)) (k : K) (v : V).

Lemma od_set_length d k v :
  length (od_set k v d) =
    if od_mem k d then length d else S (length d).
Proof.
  unfold od_mem. induction d as [| [k' v'] d IH]; simpl; [reflexivity |].
  destruct (decide (k = k')); simpl; [reflexivity |].
  rewrite IH. now destruct (od_get k d).
Qed.

Lemma od_mem_keys d k : od_mem k d = true <-> k ∈ od_keys d.
Proof.
  unfold od_mem, od_keys. induction d as [| [k' v'] d IH]; simpl.
  - split; [discriminate | intros H; inversion H].
  - rewrite elem_of_cons. destruct (decide (k = k')); simpl.
    + tauto.
    + rewrite IH. tauto.
Qed.

Lemma od_mem_false d k : od_mem k d = false <-> k ∉ od_keys d.
Proof. rewrite <- od_mem_keys. now destruct (od_mem k d). Qed.

Lemma od_set_keys d k v :
  od_keys (od_set k v d) =
    if od_mem k d then od_keys d else od_keys d ++ [k].
Proof.
  unfold od_mem, od_keys. induction d as [| [k' v'] d IH]; simpl;
    [reflexivity |].
  destruct (decide (k = k')) as [-> |]; simpl; [reflexivity |].
  rewrite IH. now destruct (od_get k d).
Qed.

(** A dictionary tabulated from a function over distinct keys. *)
Lemma od_get_table (f : K -> V) (l : list K) k :
  od_get k (map (λ x, (x, f x)) l) =
    if decide (k ∈ l) then Some (f k) else None.
Proof.
  induction l as [| x l IH]; simpl.
  - destruct (decide (k ∈ [])) as [H |]; [inversion H | reflexivity].
  - destruct (decide (k = x)) as [-> |].
    + destruct (decide (x ∈ x :: l)) as [| H]; [reflexivity |].
      exfalso. apply H. left.
    + rewrite IH.
      destruct (decide (k ∈ l)) as [H1 | H1],
               (decide (k ∈ x :: l)) as [H2 | H2];
        try reflexivity; exfalso; rewrite elem_of_cons in H2; tauto.
Qed.

Lemma od_set_table_new (f : K -> V) (l : list K) k v :
  k ∉ l ->
  od_set k v (map (λ x, (x, f x)) l) = map (λ x, (x, f x)) l ++ [(k, v)].
Proof.
  induction l as [| x l IH]; intros Hk; simpl; [reflexivity |].
  destruct (decide (k = x)) as [-> |]; [exfalso; apply Hk; left |].
  rewrite IH; [reflexivity |].
  intros H. apply Hk. now right.
Qed.

Lemma od_set_table_old (f : K -> V) (l : list K) k v :
  k ∈ l -> NoDup l ->
  od_set k v (map (λ x, (x, f x)) l) =
    map (λ x, (x, if decide (x = k) then v else f x)) l.
Proof.
  induction l as [| x l IH]; intros Hk Hnd; simpl; [inversion Hk |].
  apply NoDup_cons in Hnd as [Hx Hnd].
  destruct (decide (k = x)) as [-> |].
  - destruct (decide (x = x)); [| congruence]. f_equal.
    apply map_ext_in. intros y Hy. apply list_elem_of_In in Hy.
    destruct (decide (y = x)) as [-> |]; [contradiction | reflexivity].
  - destruct (decide (x = k)); [congruence |]. f_equal.
    apply IH; [| assumption].
    apply elem_of_cons in Hk as [Hk | Hk]; [congruence | assumption].
Qed.
Lemma od_get_absent d k : k ∉ od_keys d -> od_get k d = None.
Proof.
  intros H. apply od_mem_false in H. unfold od_mem in H.
  now destruct (od_get k d).
Qed.

Lemma od_get_elem d k v : od_get k d = Some v -> (k, v) ∈ d.
Proof.
  induction d as [| [k' v'] d IH]; simpl; [discriminate |].
  destruct (decide (k = k')) as [-> |].
  - intros [= ->]. left.
  - intros H. right. now apply IH.
Qed.

Lemma od_set_Forall (P : K * V -> Prop) d k v :
  P (k, v) -> Forall P d -> Forall P (od_set k v d).
Proof.
  intros Hv. induction 1 as [| [k' v'] d Hx Hd IH]; simpl.
  - now apply Forall_singleton.
  - destruct (decide (k = k')); apply Forall_cons_2; assumption.
Qed.

Lemma od_get_set_eq d k v : od_get k (od_set k v d) = Some v.
Proof.
  induction d as [| [k' v'] d IH]; simpl.
  - now rewrite decide_True.
  - destruct (decide (k = k')) as [E | N]; simpl.
    + now rewrite decide_True.
    + now rewrite decide_False.
Qed.

Lemma od_get_set_ne d k k' v :
  k <> k' -> od_get k' (od_set k v d) = od_get k' d.
Proof.
  intros Hne. induction d as [| [k0 v0] d IH]; simpl.
  - now rewrite decide_False by congruence.
  - destruct (decide (k = k0)) as [E | N]; simpl.
    + subst k0. now rewrite !decide_False by congruence.
    + destruct (decide (k' = k0)); [reflexivity | exact IH].
Qed.

End odict_facts.

End PyFacts.

(** ** The metric store, the queue and the strategies *)

Module SelfImprovementFacts.
Import Py PyFacts SelfImprovement Trace.

Local Open Scope Q_scope.

(** *** The metric store *)

Lemma last_n_app_last_n {A} (n : nat) (a b : list A) :
  last_n n (last_n n a ++ b) = last_n n (a ++ b).
Proof.
  unfold last_n. rewrite !length_app, length_drop.
  destruct (decide (length a <= n)%nat) as [Hle | Hgt].
  - replace (length a - n)%nat with 0%nat by lia. simpl.
    f_equal. lia.
  - replace (length a - (length a - n) + length b - n)%nat
      with (length b) by lia.
    replace (length a + length b - n)%nat
      with ((length a - n) + length b)%nat by lia.
    rewrite <- drop_drop. f_equal.
    rewrite drop_app_le by lia. reflexivity.
Qed.

Lemma record_history (c : RecordCall) (s : System) :
  (0 <= performance_history_size (settings s))%Z ->
  (Z.of_nat (length (performance_history s))
     <= performance_history_size (settings s))%Z ->
  performance_history (record c s) =
    last_n (Z.to_nat (performance_history_size (settings s)))
           (performance_history s ++ [metric_of c]).
Proof.
  intros Hsize Hlen. unfold record, record_performance_metric.
  fold (metric_of c). unfold last_n. rewrite length_app. simpl length.
  destruct (Z.gtb_spec
              (Z.of_nat (length (performance_history s) + 1))
              (performance_history_size (settings s))) as [Hgt | Hle];
    simpl.
  - replace (length (performance_history s) + 1
               - Z.to_nat (performance_history_size (settings s)))%nat
      with 1%nat by lia.
    reflexivity.
  - replace (length (performance_history s) + 1
               - Z.to_nat (performance_history_size (settings s)))%nat
      with 0%nat by lia.
    reflexivity.
Qed.

Lemma record_settings (c : RecordCall) (s : System) :
  settings (record c s) = settings s.
Proof.
  unfold record, record_performance_metric.
  now destruct (_ >? _)%Z.
Qed.

Lemma record_all_history (cs : list RecordCall) (s : System) :
  (0 <= performance_history_size (settings s))%Z ->
  (Z.of_nat (length (performance_history s))
     <= performance_history_size (settings s))%Z ->
  settings (record_all cs s) = settings s /\
  performance_history (record_all cs s) =
    last_n (Z.to_nat (performance_history_size (settings s)))
           (performance_history s ++ map metric_of cs).
Proof.
  revert s. induction cs as [| c cs IH]; intros s Hsize Hlen.
  - simpl. rewrite app_nil_r, last_n_all by lia. auto.
  - change (record_all (c :: cs) s) with (record_all cs (record c s)).
    pose proof (record_history c s Hsize Hlen) as Hh.
    pose proof (record_settings c s) as Hs.
    destruct (IH (record c s)) as [IHs IHh].
    + now rewrite Hs.
    + rewrite Hs, Hh, length_last_n. lia.
    + split; [congruence |].
      rewrite IHh, Hs, Hh, last_n_app_last_n, <- app_assoc. reflexivity.
Qed.

(** C7. After any sequence of [record_performance_metric] calls the
    history holds at most [performance_history_size] entries, and it is
    made of the most recent entries in the order they were recorded: the
    evicted ones are the oldest. *)
Theorem C7_history_bounded_fifo (cs : list RecordCall) (s : System) :
  (0 <= performance_history_size (settings s))%Z ->
  (Z.of_nat (length (performance_history s))
     <= performance_history_size (settings s))%Z ->
  (Z.of_nat (length (performance_history (record_all cs s)))
     <= performance_history_size (settings s))%Z /\
  performance_history (record_all cs s) =
    last_n (Z.to_nat (performance_history_size (settings s)))
           (performance_history s ++ map metric_of cs).
Proof.
  intros Hsize Hlen.
  destruct (record_all_history cs s Hsize Hlen) as [_ Hh].
  split; [| exact Hh].
  rewrite Hh, length_last_n. lia.
Qed.

(** C7 on a store of capacity two: of three recordings the last two
    survive, in the order they came. *)
Lemma C7_history_bounded_fifo_witness :
  (0 <= performance_history_size (settings Scenario.small_store))%Z /\
  (Z.of_nat (length (performance_history Scenario.small_store))
     <= performance_history_size (settings Scenario.small_store))%Z /\
  (Z.of_nat (length (performance_history
                       (record_all Scenario.three_calls Scenario.small_store)))
     <= 2)%Z /\
  performance_history (record_all Scenario.three_calls Scenario.small_store) =
    [metric_of (Scenario.call "b" "m" 2 1);
     metric_of (Scenario.call "c" "m" 3 1)].
Proof.
  split; [simpl; lia |]. split; [simpl; lia |].
  apply (C7_history_bounded_fifo Scenario.three_calls Scenario.small_store);
    simpl; lia.
Defined.

(** *** Strategy application *)

Lemma success_in_unit (e : Q) : unit_interval e -> unit_interval (min 1 (e + 0.1)).
Proof.
  intros [H0 H1]. split.
  - apply min_glb; lra.
  - apply min_le_l.
Qed.

Lemma failure_in_unit (e : Q) :
  unit_interval e -> unit_interval (max 0 (e - 0.05)).
Proof.
  intros [H0 H1]. split.
  - apply max_ge_l.
  - apply max_lub; lra.
Qed.

Lemma success_value (e : Q) : e <= 0.9 -> min 1 (e + 0.1) == e + 0.1.
Proof.
  intros H. unfold min. destruct (ltb (e + 0.1) 1) eqn:E; [reflexivity |].
  apply ltb_ge in E. lra.
Qed.

Lemma failure_value (e : Q) : 0.05 <= e -> max 0 (e - 0.05) == e - 0.05.
Proof.
  intros H. unfold max, gtb. destruct (ltb 0 (e - 0.05)) eqn:E; [reflexivity |].
  apply ltb_ge in E. lra.
Qed.

(** The strategy object that an attempt leaves at the address [i]. *)
Lemma apply_lookup (i : nat) (a : Attempt) (s : System)
    (st : OptimizationStrategy) :
  strategy_objects s !! i = Some st ->
  strategy_objects (fst (_apply_optimization_strategy i a s)) !! i =
    Some match a with
         | Drawn r =>
             set_effectiveness
               (if gtb r 0.3 then min 1 (effectiveness st + 0.1)
                else max 0 (effectiveness st - 0.05)) st
         | Faulted => st
         end.
Proof.
  intros H. destruct a as [r |]; simpl; [| exact H].
  rewrite list_lookup_alter_eq, H. reflexivity.
Qed.

Lemma apply_keeps_unit (i : nat) (a : Attempt) (s : System)
    (st : OptimizationStrategy) :
  strategy_objects s !! i = Some st ->
  unit_interval (effectiveness st) ->
  exists st',
    strategy_objects (fst (_apply_optimization_strategy i a s)) !! i
      = Some st' /\
    unit_interval (effectiveness st').
Proof.
  intros H Hu. eexists. split; [apply (apply_lookup i a s st H) |].
  destruct a as [r |]; simpl; [| exact Hu].
  destruct (gtb r 0.3); [now apply success_in_unit | now apply failure_in_unit].
Qed.

Lemma trajectory_in_unit (i : nat) (attempts : list Attempt) :
  forall (s : System) (st : OptimizationStrategy),
    strategy_objects s !! i = Some st ->
    unit_interval (effectiveness st) ->
    Forall (λ o, exists e, o = Some e /\ unit_interval e)
           (effectiveness_trajectory i attempts s).
Proof.
  induction attempts as [| a rest IH]; intros s st H Hu; simpl.
  - rewrite H. repeat constructor. now exists (effectiveness st).
  - constructor.
    + rewrite H. now exists (effectiveness st).
    + destruct (apply_keeps_unit i a s st H Hu) as (st' & H' & Hu').
      now apply (IH _ st').
Qed.

(** The attempt made with a freshly drawn number. *)
Lemma apply_success (i : nat) (r : Q) (s : System)
    (st : OptimizationStrategy) :
  strategy_objects s !! i = Some st ->
  0.3 < r ->
  exists st',
    strategy_objects (fst (_apply_optimization_strategy i (Drawn r) s))
      !! i = Some st' /\
    effectiveness st' = min 1 (effectiveness st + 0.1).
Proof.
  intros H Hr. eexists. split; [apply (apply_lookup i _ s st H) |].
  simpl. unfold gtb. apply ltb_lt in Hr. now rewrite Hr.
Qed.

Lemma apply_failure (i : nat) (r : Q) (s : System)
    (st : OptimizationStrategy) :
  strategy_objects s !! i = Some st ->
  r <= 0.3 ->
  exists st',
    strategy_objects (fst (_apply_optimization_strategy i (Drawn r) s))
      !! i = Some st' /\
    effectiveness st' = max 0 (effectiveness st - 0.05).
Proof.
  intros H Hr. eexists. split; [apply (apply_lookup i _ s st H) |].
  simpl. unfold gtb. apply ltb_ge in Hr. now rewrite Hr.
Qed.

Lemma five_step_trajectory (i : nat) (s : System) (st : OptimizationStrategy)
    (r1 r2 r3 r4 r5 : Q) :
  strategy_objects s !! i = Some st ->
  effectiveness st == 0 ->
  0.3 < r1 -> 0.3 < r2 -> r3 <= 0.3 -> 0.3 < r4 -> 0.3 < r5 ->
  Forall2 close_to
    (effectiveness_trajectory i
       [Drawn r1; Drawn r2; Drawn r3; Drawn r4; Drawn r5] s)
    [0; 0.1; 0.2; 0.15; 0.25; 0.35].
Proof.
  intros H0 E0 H1 H2 H3 H4 H5. unfold close_to. cbn [effectiveness_trajectory].
  destruct (apply_success i r1 s st H0 H1) as (st1 & L1 & E1).
  set (s1 := fst (_apply_optimization_strategy i (Drawn r1) s)) in *.
  destruct (apply_success i r2 s1 st1 L1 H2) as (st2 & L2 & E2).
  set (s2 := fst (_apply_optimization_strategy i (Drawn r2) s1)) in *.
  destruct (apply_failure i r3 s2 st2 L2 H3) as (st3 & L3 & E3).
  set (s3 := fst (_apply_optimization_strategy i (Drawn r3) s2)) in *.
  destruct (apply_success i r4 s3 st3 L3 H4) as (st4 & L4 & E4).
  set (s4 := fst (_apply_optimization_strategy i (Drawn r4) s3)) in *.
  destruct (apply_success i r5 s4 st4 L4 H5) as (st5 & L5 & E5).
  set (s5 := fst (_apply_optimization_strategy i (Drawn r5) s4)) in *.
  rewrite H0, L1, L2, L3, L4, L5. simpl.
  assert (V1 : effectiveness st1 == 0.1).
  { rewrite E1, success_value; lra. }
  assert (V2 : effectiveness st2 == 0.2).
  { rewrite E2, success_value; lra. }
  assert (V3 : effectiveness st3 == 0.15).
  { rewrite E3, failure_value; lra. }
  assert (V4 : effectiveness st4 == 0.25).
  { rewrite E4, success_value; lra. }
  assert (V5 : effectiveness st5 == 0.35).
  { rewrite E5, success_value; lra. }
  repeat (constructor; [eexists; split; [reflexivity | assumption] |]).
  constructor.
Qed.

(** C4. Whatever the attempts, the effectiveness of a strategy that starts
    in [0,1] is in [0,1] before the first and after each of them; and from
    0 the attempts success, success, failure, success, success give
    0, 0.1, 0.2, 0.15, 0.25, 0.35. *)
Theorem C4_effectiveness_in_unit_interval (i : nat) (s : System)
    (st : OptimizationStrategy) (attempts : list Attempt)
    (r1 r2 r3 r4 r5 : Q) :
  strategy_objects s !! i = Some st ->
  0 <= effectiveness st /\ effectiveness st <= 1 ->
  0.3 < r1 -> 0.3 < r2 -> r3 <= 0.3 -> 0.3 < r4 -> 0.3 < r5 ->
  Forall (λ o, exists e, o = Some e /\ 0 <= e /\ e <= 1)
         (effectiveness_trajectory i attempts s) /\
  Forall2 (λ o q, exists e, o = Some e /\ e == q)
    (effectiveness_trajectory i
       [Drawn r1; Drawn r2; Drawn r3; Drawn r4; Drawn r5]
       (reset_effectiveness i 0 s))
    [0; 0.1; 0.2; 0.15; 0.25; 0.35].
Proof.
  intros H Hu H1 H2 H3 H4 H5. split.
  - exact (trajectory_in_unit i attempts s st H Hu).
  - apply (five_step_trajectory i _ (set_effectiveness 0 st)); try assumption.
    + unfold reset_effectiveness. simpl. now rewrite list_lookup_alter_eq, H.
    + reflexivity.
Qed.

(** C4 on the rendering strategy of the initial registry. *)
Lemma C4_effectiveness_in_unit_interval_witness :
  Forall (λ o, exists e, o = Some e /\ 0 <= e /\ e <= 1)
         (effectiveness_trajectory 0
            [Drawn 0.9; Drawn 0.1; Faulted; Drawn 0.2]
            SelfImprovement.__init__) /\
  Forall2 (λ o q, exists e, o = Some e /\ e == q)
    (effectiveness_trajectory 0
       [Drawn 0.9; Drawn 0.5; Drawn 0.3; Drawn 1; Drawn 0.31]
       (reset_effectiveness 0 0 SelfImprovement.__init__))
    [0; 0.1; 0.2; 0.15; 0.25; 0.35].
Proof.
  apply (C4_effectiveness_in_unit_interval 0 SelfImprovement.__init__
           (mk_strategy "rendering_quality_adjustment"
              "Dynamically adjust rendering quality based on performance"
              [("target_fps", 60); ("quality_step", 0.1);
               ("min_quality", 0.5); ("max_quality", 1.5)])
           [Drawn 0.9; Drawn 0.1; Faulted; Drawn 0.2] 0.9 0.5 0.3 1 0.31);
    try reflexivity; simpl; lra.
Defined.

(** *** The optimization queue *)

(** What [_process_optimization_queue] does when the attempt reaches the
    draw: whatever the draw, the request counts as applied. *)
Lemma process_drawn (r now : Q) (s : System) (rq : OptimizationRequest)
    (rest : list OptimizationRequest) (st : OptimizationStrategy) :
  optimization_queue s = rq :: rest ->
  strategy_objects s !! rq_strategy rq = Some st ->
  let s' := _process_optimization_queue (Drawn r) now s in
  optimization_queue s' = rest /\
  optimizations_applied (stats s') = (optimizations_applied (stats s) + 1)%Z /\
  failed_optimizations (stats s') = failed_optimizations (stats s) /\
  strategy_objects s' !! rq_strategy rq =
    Some (mark_applied now
            (set_effectiveness
               (if gtb r 0.3 then min 1 (effectiveness st + 0.1)
                else max 0 (effectiveness st - 0.05)) st)).
Proof.
  intros Hq Hst. unfold _process_optimization_queue. rewrite Hq. simpl.
  repeat split. rewrite !list_lookup_alter_eq, Hst. reflexivity.
Qed.

(** What it does when the attempt raises. *)
Lemma process_faulted (now : Q) (s : System) (rq : OptimizationRequest)
    (rest : list OptimizationRequest) :
  optimization_queue s = rq :: rest ->
  let s' := _process_optimization_queue Faulted now s in
  optimization_queue s' = rest /\
  optimizations_applied (stats s') = optimizations_applied (stats s) /\
  failed_optimizations (stats s') = (failed_optimizations (stats s) + 1)%Z /\
  strategy_objects s' = strategy_objects s.
Proof.
  intros Hq. unfold _process_optimization_queue. rewrite Hq. simpl.
  repeat split.
Qed.

Lemma process_queue (a : Attempt) (now : Q) (s : System) :
  optimization_queue (_process_optimization_queue a now s) =
    tail (optimization_queue s).
Proof.
  unfold _process_optimization_queue.
  destruct (optimization_queue s) as [| rq rest] eqn:E; [now rewrite E |].
  destruct a; reflexivity.
Qed.

Lemma trends_queue (s : System) :
  optimization_queue (state_of (_update_performance_trends s)) =
    optimization_queue s.
Proof.
  unfold _update_performance_trends.
  destruct (_ <? _)%nat; [reflexivity |].
  destruct (trends_loop _ _) as [t []]; reflexivity.
Qed.

Lemma update_queue (dt : Q) (t : Tick) (s s' : System) :
  update_adaptation t s = Done s' ->
  optimization_queue (state_of (update dt t s)) =
    tail (optimization_queue s').
Proof.
  intros H. unfold update. rewrite H. cbn [bind].
  set (s1 := _process_optimization_queue _ _ s').
  rewrite <- (process_queue (attempt t) (applied_time t) s'). fold s1.
  rewrite <- (trends_queue s1).
  destruct (_update_performance_trends s1) as [s2 | s2]; cbn [bind state_of];
    [| reflexivity].
  now destruct (enable_autonomous_optimization (settings s2)).
Qed.

Lemma quiet_drain (dt : Q) (ticks : list Tick) :
  forall s : System,
    quiet dt ticks s ->
    optimization_queue (run_updates dt ticks s) =
      drop (length ticks) (optimization_queue s).
Proof.
  induction ticks as [| t rest IH]; intros s Hq; [reflexivity |].
  destruct Hq as [(s' & Had & Hsame) Hrest].
  change (run_updates dt (t :: rest) s)
    with (run_updates dt rest (state_of (update dt t s))).
  rewrite (IH _ Hrest), (update_queue dt t s s' Had), Hsame.
  cbn [length]. destruct (optimization_queue s); [| reflexivity].
  simpl. now rewrite drop_nil.
Qed.

(** Ticks inside the adaptation interval queue nothing. *)
Lemma quiet_when_not_due (dt : Q) (ticks : list Tick) :
  forall s : System,
    Forall (λ t, current_time t - last_adaptation_time s
                   <= adaptation_interval (settings s)) ticks ->
    quiet dt ticks s.
Proof.
  induction ticks as [| t rest IH]; intros s Hall; [exact I |].
  apply Forall_cons in Hall as [Ht Hall].
  assert (Had : update_adaptation t s = Done s).
  { unfold update_adaptation, gtb. apply ltb_ge in Ht. now rewrite Ht. }
  split; [now exists s |].
  apply IH. unfold update. rewrite Had. cbn [bind].
  set (s1 := _process_optimization_queue _ _ s).
  assert (H1 : last_adaptation_time s1 = last_adaptation_time s
               /\ settings s1 = settings s).
  { unfold s1, _process_optimization_queue.
    destruct (optimization_queue s); [now split |].
    destruct (attempt t); now split. }
  destruct H1 as [Hl Hs].
  unfold _update_performance_trends.
  destruct (_ <? _)%nat; cbn [bind state_of].
  - destruct (enable_autonomous_optimization (settings s1)); simpl;
      rewrite Hl, Hs; exact Hall.
  - destruct (trends_loop _ _) as [tr []]; cbn [bind state_of]; simpl.
    + rewrite Hl, Hs; exact Hall.
    + destruct (enable_autonomous_optimization (settings s1)); simpl;
        rewrite Hl, Hs; exact Hall.
Qed.

Lemma drain_queue (steps : list (Attempt * Q)) :
  forall s : System,
    optimization_queue (drain steps s) =
      drop (length steps) (optimization_queue s).
Proof.
  induction steps as [| [a now] steps IH]; intros s; [reflexivity |].
  change (drain ((a, now) :: steps) s)
    with (drain steps (_process_optimization_queue a now s)).
  rewrite IH, process_queue. cbn [length].
  destruct (optimization_queue s); [| reflexivity].
  simpl. now rewrite drop_nil.
Qed.

(** C5, amended. Each call of [_process_optimization_queue] removes the
    request at the head of the queue and no other; and over calls of
    [update] whose adaptation step returns and queues nothing, the queue
    after the ticks is the old one without its first [length ticks]
    requests, so it is empty exactly when there were at least as many
    ticks as requests. *)
Theorem C5_one_request_per_tick (dt : Q) (ticks : list Tick) (s : System) :
  quiet dt ticks s ->
  (forall steps : list (Attempt * Q),
     optimization_queue (drain steps s) =
       drop (length steps) (optimization_queue s)) /\
  optimization_queue (run_updates dt ticks s) =
    drop (length ticks) (optimization_queue s) /\
  (optimization_queue (run_updates dt ticks s) = [] <->
   (length (optimization_queue s) <= length ticks)%nat).
Proof.
  intros Hq. pose proof (quiet_drain dt ticks s Hq) as H.
  split; [intros steps; apply drain_queue |].
  split; [exact H |].
  rewrite H. split.
  - intros E. apply (f_equal length) in E. rewrite length_drop in E.
    simpl in E. lia.
  - intros Hle. now apply drop_ge.
Qed.

(** C5 on three queued requests: two ticks leave the third request. *)
Lemma C5_one_request_per_tick_witness :
  quiet 0.016
    [Scenario.tick_idle 1 (Drawn 0.9); Scenario.tick_idle 2 Faulted]
    Scenario.three_requests /\
  optimization_queue
    (run_updates 0.016
       [Scenario.tick_idle 1 (Drawn 0.9); Scenario.tick_idle 2 Faulted]
       Scenario.three_requests) =
    [Scenario.request 0 "renderer"].
Proof.
  assert (H : quiet 0.016
                [Scenario.tick_idle 1 (Drawn 0.9);
                 Scenario.tick_idle 2 Faulted]
                Scenario.three_requests).
  { split; [eexists; split; reflexivity |].
    split; [eexists; split; reflexivity |]. exact I. }
  split; [exact H |].
  apply (C5_one_request_per_tick 0.016
           [Scenario.tick_idle 1 (Drawn 0.9); Scenario.tick_idle 2 Faulted]
           Scenario.three_requests H).
Defined.

(** C5 as the specification words it fails when the adaptation step
    raises. [Session.stalled] is reached by public calls and holds two
    requests; one of its samples has a zero target. At each of the two
    ticks that follow the adaptation is due: it queues nothing, and it
    raises before the queue is processed. After the two ticks, and after
    any part of them, the two requests are still queued. *)
Theorem C5_raising_ticks_dequeue_nothing :
  length (optimization_queue Session.stalled) = length Session.stalled_ticks /\
  (forall n : nat,
     optimization_queue
       (run_updates 0.016 (take n Session.stalled_ticks) Session.stalled)
       = optimization_queue Session.stalled) /\
  (exists s1,
     update 0.016 Scenario.tick_failure Session.stalled = Raised s1) /\
  (exists s2,
     update 0.016 (Scenario.tick_idle 300 (Drawn 0.9))
       (state_of (update 0.016 Scenario.tick_failure Session.stalled))
       = Raised s2) /\
  optimization_queue (run_updates 0.016 Session.stalled_ticks Session.stalled)
    <> [].
Proof.
  split; [vm_compute; reflexivity |]. split; [| split; [| split]].
  - intros [| [| [| n]]]; vm_compute; reflexivity.
  - destruct (update 0.016 Scenario.tick_failure Session.stalled)
      as [s1 | s1] eqn:E; [vm_compute in E; discriminate | now exists s1].
  - destruct (update 0.016 (Scenario.tick_idle 300 (Drawn 0.9))
                (state_of (update 0.016 Scenario.tick_failure
                             Session.stalled)))
      as [s2 | s2] eqn:E; [vm_compute in E; discriminate | now exists s2].
  - vm_compute. discriminate.
Qed.

(** C1, on the run [Scenario.after_failed_push]. After the first tick
    (draw 0.9) the rendering strategy has effectiveness 0.1 and one
    application. The second tick draws 0.2: the simulated push fails and the
    effectiveness falls to 0.05, yet the request is counted as applied (two
    applied, none failed) and the strategy records a second application at
    the clock of that tick. *)
Theorem C1_failed_push_counted_as_applied :
  (optimizations_applied (stats Scenario.after_first_push) = 1%Z /\
   failed_optimizations (stats Scenario.after_first_push) = 0%Z /\
   exists st,
     strategy_objects Scenario.after_first_push !! 0%nat = Some st /\
     effectiveness st == 0.1 /\
     application_count st = 1%Z /\
     last_applied st = 101) /\
  (optimizations_applied (stats Scenario.after_failed_push) = 2%Z /\
   failed_optimizations (stats Scenario.after_failed_push) = 0%Z /\
   exists st,
     strategy_objects Scenario.after_failed_push !! 0%nat = Some st /\
     effectiveness st == 0.05 /\
     application_count st = 2%Z /\
     last_applied st = 201).
Proof.
  split.
  - split; [vm_compute; reflexivity |].
    split; [vm_compute; reflexivity |].
    eexists. split; [vm_compute; reflexivity |].
    repeat split.
  - split; [vm_compute; reflexivity |].
    split; [vm_compute; reflexivity |].
    eexists. split; [vm_compute; reflexivity |].
    repeat split.
Qed.

(** *** The analysis *)

(** C8. With fewer than ten samples the analysis reports an overall
    performance of exactly 1.0 and no bottleneck, and does not raise. *)
Theorem C8_insufficient_data_is_healthy (s : System) :
  (length (performance_history s) < 10)%nat ->
  exists a,
    _analyze_performance s = Some a /\
    overall_performance a = 1 /\
    bottlenecks a = [].
Proof.
  intros H. unfold _analyze_performance.
  apply Nat.ltb_lt in H. rewrite H. eexists. repeat split.
Qed.

(** C8 on nine samples of a renderer far below its target. *)
Lemma C8_insufficient_data_is_healthy_witness :
  (length (performance_history Scenario.nine_samples) < 10)%nat /\
  exists a,
    _analyze_performance Scenario.nine_samples = Some a /\
    overall_performance a = 1 /\
    bottlenecks a = [].
Proof.
  split; [vm_compute; lia |].
  apply (C8_insufficient_data_is_healthy Scenario.nine_samples).
  vm_compute; lia.
Defined.

End SelfImprovementFacts.

(** ** The bottleneck analysis *)

Module AnalyzerFacts.
Import Py PyFacts SelfImprovement Trace AnalyzerSpec.

Local Open Scope Q_scope.

Lemma ratio_Some (m : PerformanceMetric) :
  nonzero_target m -> ratio m = Some (performance_ratio m).
Proof. intros H. now apply div_Some. Qed.

Lemma subsystems_snoc (p : list PerformanceMetric) (m : PerformanceMetric) :
  subsystems (p ++ [m]) =
    if decide (system_name m ∈ subsystems p) then subsystems p
    else subsystems p ++ [system_name m].
Proof. unfold subsystems. now rewrite fold_left_app. Qed.

Lemma subsystems_NoDup (p : list PerformanceMetric) : NoDup (subsystems p).
Proof.
  induction p as [| m p IH] using rev_ind; [constructor |].
  rewrite subsystems_snoc. case_decide; [assumption |].
  apply NoDup_app. split; [assumption |]. split.
  - intros x Hx Hx'. apply list_elem_of_singleton in Hx'. now subst.
  - apply NoDup_singleton.
Qed.

Lemma elem_of_subsystems (p : list PerformanceMetric) (system : string) :
  system ∈ subsystems p <-> exists m, m ∈ p /\ system_name m = system.
Proof.
  induction p as [| m p IH] using rev_ind.
  - split; [intros H; inversion H | intros (m & H & _); inversion H].
  - rewrite subsystems_snoc.
    assert (Hsnoc : (exists m0, m0 ∈ p ++ [m] /\ system_name m0 = system) <->
                    (exists m0, m0 ∈ p /\ system_name m0 = system) \/
                    system_name m = system).
    { split.
      - intros (m0 & Hin & Hn). apply elem_of_app in Hin as [Hin | Hin].
        + left. now exists m0.
        + apply list_elem_of_singleton in Hin. subst. now right.
      - intros [(m0 & Hin & Hn) | Hn].
        + exists m0. split; [apply elem_of_app; now left | assumption].
        + exists m. split; [apply elem_of_app; right; now left | assumption]. }
    rewrite Hsnoc, <- IH. case_decide as Hd.
    + split; [now left | intros [H | <-]; assumption].
    + rewrite elem_of_app, list_elem_of_singleton. intuition congruence.
Qed.

Lemma ratios_of_snoc (p : list PerformanceMetric) (m : PerformanceMetric)
    (system : string) :
  ratios_of (p ++ [m]) system =
    ratios_of p system ++
    (if decide (system_name m = system) then [performance_ratio m] else []).
Proof.
  unfold ratios_of. rewrite filter_app, map_app. f_equal.
  rewrite filter_cons, filter_nil. now case_decide.
Qed.

Lemma ratios_of_absent (p : list PerformanceMetric) (system : string) :
  system ∉ subsystems p -> ratios_of p system = [].
Proof.
  rewrite elem_of_subsystems. intros H. unfold ratios_of.
  induction p as [| m p IH]; [reflexivity |].
  rewrite filter_cons. case_decide as Hd.
  - exfalso. apply H. exists m. split; [left | assumption].
  - apply IH. intros (m0 & Hin & Hn). apply H. exists m0.
    split; [now right | assumption].
Qed.

Lemma ratios_of_present (p : list PerformanceMetric) (system : string) :
  system ∈ subsystems p -> ratios_of p system <> [].
Proof.
  rewrite elem_of_subsystems. intros (m & Hin & Hn). unfold ratios_of.
  induction p as [| m0 p IH]; [inversion Hin |].
  rewrite filter_cons. case_decide as Hd; [discriminate |].
  apply IH. apply elem_of_cons in Hin as [-> | Hin]; [contradiction | assumption].
Qed.

Lemma collect_step (p : list PerformanceMetric) (m : PerformanceMetric) :
  let d := if od_mem (system_name m) (table p) then table p
           else od_set (system_name m) [] (table p) in
  od_set (system_name m)
    (default [] (od_get (system_name m) d) ++ [performance_ratio m]) d =
  table (p ++ [m]).
Proof.
  unfold table. rewrite subsystems_snoc.
  destruct (od_mem (system_name m) _) eqn:Hmem.
  - apply od_mem_keys in Hmem. unfold od_keys in Hmem.
    rewrite map_map, map_id in Hmem. cbn zeta.
    rewrite decide_True by assumption.
    rewrite od_get_table, decide_True by assumption. cbn [default].
    rewrite od_set_table_old by (assumption || apply subsystems_NoDup).
    apply map_ext. intros x. rewrite ratios_of_snoc.
    destruct (decide (x = system_name m)) as [-> | Hne].
    + now rewrite decide_True.
    + rewrite decide_False by congruence. now rewrite app_nil_r.
  - apply od_mem_false in Hmem. unfold od_keys in Hmem.
    rewrite map_map, map_id in Hmem. cbn zeta.
    rewrite decide_False by assumption.
    rewrite od_set_table_new by assumption.
    assert (Hget : od_get (system_name m)
                     (map (λ system, (system, ratios_of p system)) (subsystems p)
                      ++ [(system_name m, [])]) = Some []).
    { clear - Hmem. induction (subsystems p) as [| x l IH]; simpl.
      - now rewrite decide_True.
      - rewrite decide_False by set_solver. apply IH. set_solver. }
    rewrite Hget. cbn [default app].
    assert (Hset : forall (l : list string) (f : string -> list Q) v,
               system_name m ∉ l ->
               od_set (system_name m) v
                 (map (λ x, (x, f x)) l ++ [(system_name m, [])]) =
               map (λ x, (x, f x)) l ++ [(system_name m, v)]).
    { clear. intros l f v Hl. induction l as [| x l IH]; simpl.
      - now rewrite decide_True.
      - rewrite decide_False by set_solver. f_equal. apply IH. set_solver. }
    rewrite Hset by assumption. rewrite map_app. cbn [map]. f_equal.
    + apply map_ext_in. intros x Hx. apply list_elem_of_In in Hx.
      rewrite ratios_of_snoc, decide_False, app_nil_r; [reflexivity |].
      intros E. apply Hmem. now rewrite E.
    + rewrite ratios_of_snoc, decide_True by reflexivity.
      now rewrite (ratios_of_absent p _ Hmem).
Qed.

Lemma collect_ratios_table (w : list PerformanceMetric) :
  forall p : list PerformanceMetric,
    Forall nonzero_target w ->
    collect_ratios w (table p) = Some (table (p ++ w)).
Proof.
  induction w as [| m w IH]; intros p Hnz.
  - now rewrite app_nil_r.
  - apply Forall_cons in Hnz as [Hm Hnz]. cbn [collect_ratios].
    rewrite (ratio_Some m Hm). cbn [mbind option_bind].
    rewrite (collect_step p m), (IH _ Hnz), <- app_assoc. reflexivity.
Qed.

Lemma is_bottleneck_ltb (w : list PerformanceMetric) (system : string) :
  ltb (mean_ratio w system) 0.7 = is_bottleneck w system.
Proof. unfold is_bottleneck. apply ltb_dec. Qed.

Lemma severity_of_ltb (r : Q) :
  (if ltb r 0.5 then high else medium) = severity_of r.
Proof. unfold severity_of. rewrite ltb_dec. now destruct (Qlt_le_dec r 0.5). Qed.

Lemma average_systems_table (w : list PerformanceMetric) (l : list string) :
  forall (l0 : list string) (bs : list Bottleneck),
    NoDup (l0 ++ l) ->
    (forall system, system ∈ l -> ratios_of w system <> []) ->
    average_systems
      (map (λ system, (system, ratios_of w system)) l)
      (map (λ system, (system, mean_ratio w system)) l0) bs =
    Some (map (λ system, (system, mean_ratio w system)) (l0 ++ l),
          bs ++ map (bottleneck_of w)
                    (filter (λ system, is_bottleneck w system) l)).
Proof.
  induction l as [| x l IH]; intros l0 bs Hnd Hne.
  - simpl. now rewrite !app_nil_r.
  - cbn [map average_systems].
    rewrite div_flen by (apply Hne; left).
    cbn [mbind option_bind]. fold (mean (ratios_of w x)).
    fold (mean_ratio w x).
    assert (Hx : x ∉ l0).
    { apply NoDup_app in Hnd as (_ & Hd & _). intros Hx.
      apply (Hd x Hx). left. }
    rewrite (od_set_table_new (λ system, mean_ratio w system) l0 x _ Hx).
    change (map (λ system, (system, mean_ratio w system)) l0
            ++ [(x, mean_ratio w x)])
      with (map (λ system, (system, mean_ratio w system)) l0
            ++ map (λ system, (system, mean_ratio w system)) [x]).
    rewrite <- map_app, IH.
    + rewrite <- app_assoc. cbn [app]. f_equal. f_equal.
      rewrite is_bottleneck_ltb, severity_of_ltb, filter_cons.
      destruct (is_bottleneck w x); simpl.
      * now rewrite <- app_assoc.
      * reflexivity.
    + now rewrite <- app_assoc.
    + intros system Hin. apply Hne. now right.
Qed.

(** The analysis of a window of at least ten samples with non-zero targets
    is the one the specification describes. *)
Lemma analyze_window (s : System) :
  (10 <= length (performance_history s))%nat ->
  Forall nonzero_target (last_n 100 (performance_history s)) ->
  _analyze_performance s =
    Some (analysis_of (last_n 100 (performance_history s))).
Proof.
  intros Hlen Hnz. unfold _analyze_performance.
  replace (length (performance_history s) <? 10)%nat with false
    by (symmetry; apply Nat.ltb_ge; exact Hlen).
  set (w := last_n 100 (performance_history s)) in *.
  change (@nil (string * list Q)) with (table []).
  rewrite (collect_ratios_table w [] Hnz). cbn [mbind option_bind app].
  unfold table.
  assert (Havg := average_systems_table w (subsystems w) [] []
                    (subsystems_NoDup w)
                    (λ system Hin, ratios_of_present w system Hin)).
  cbn [map app] in Havg. rewrite Havg. clear Havg.
  cbn [mbind option_bind].
  assert (Hw : w <> []).
  { intros E. apply (last_n_nil_inv 100) in E; [| lia].
    rewrite E in Hlen. simpl in Hlen. lia. }
  assert (Hsub : subsystems w <> []).
  { destruct w as [| m w']; [congruence |]. intros E.
    assert (Hin : system_name m ∈ subsystems (m :: w')).
    { apply elem_of_subsystems. exists m. split; [left | reflexivity]. }
    rewrite E in Hin. inversion Hin. }
  destruct (map (λ system, (system, mean_ratio w system)) (subsystems w))
    as [| e rest] eqn:Hmap.
  { destruct (subsystems w); [congruence | discriminate]. }
  rewrite <- Hmap. rewrite div_flen by (rewrite Hmap; discriminate).
  cbn [mbind option_bind]. unfold analysis_of, overall_of, mean.
  do 2 f_equal. unfold od_values, flen.
  rewrite map_map, !length_map. reflexivity.
Qed.

(** Who is in the list of bottlenecks. *)
Lemma elem_of_bottlenecks_of (w : list PerformanceMetric) (b : Bottleneck) :
  b ∈ bottlenecks_of w <->
  b_system b ∈ subsystems w /\
  mean_ratio w (b_system b) < 0.7 /\
  b = bottleneck_of w (b_system b).
Proof.
  unfold bottlenecks_of. rewrite list_elem_of_fmap. split.
  - intros (system & -> & Hin). apply list_elem_of_filter in Hin as [Hb Hin].
    simpl. repeat split; [assumption |].
    unfold is_bottleneck in Hb.
    destruct (Qlt_le_dec (mean_ratio w system) 0.7); [assumption | contradiction].
  - intros (Hin & Hlt & Hb). exists (b_system b). split; [assumption |].
    apply list_elem_of_filter. split; [| assumption].
    unfold is_bottleneck.
    destruct (Qlt_le_dec (mean_ratio w (b_system b)) 0.7); [exact I | lra].
Qed.

Lemma severity_of_high (r : Q) : severity_of r = high <-> r < 0.5.
Proof.
  unfold severity_of. destruct (Qlt_le_dec r 0.5); split; intros H;
    try assumption; try reflexivity; try discriminate; lra.
Qed.

(** C6. On a window whose targets are not zero, the analysis returns, for
    each subsystem of the window, the mean of value/target over the metrics
    of that subsystem; its bottlenecks are exactly the subsystems whose mean
    is below 0.7, each with that mean and with severity high when the mean
    is below 0.5 and medium otherwise; and its overall performance is the
    mean of the per-subsystem means. *)
Theorem C6_analysis_is_two_level_mean (s : System) :
  (10 <= length (performance_history s))%nat ->
  Forall (λ m, ~ target m == 0) (last_n 100 (performance_history s)) ->
  exists a,
    _analyze_performance s = Some a /\
    a = analysis_of (last_n 100 (performance_history s)) /\
    system_performance a =
      Some (map (λ system,
                   (system, mean_ratio (last_n 100 (performance_history s)) system))
                (subsystems (last_n 100 (performance_history s)))) /\
    (forall system,
       (exists b, b ∈ bottlenecks a /\ b_system b = system) <->
       system ∈ subsystems (last_n 100 (performance_history s)) /\
       mean_ratio (last_n 100 (performance_history s)) system < 0.7) /\
    (forall b,
       b ∈ bottlenecks a ->
       b_performance b =
         mean_ratio (last_n 100 (performance_history s)) (b_system b) /\
       (b_severity b = high <-> b_performance b < 0.5) /\
       (b_severity b = medium <-> 0.5 <= b_performance b)) /\
    overall_performance a =
      mean (map (mean_ratio (last_n 100 (performance_history s)))
                (subsystems (last_n 100 (performance_history s)))).
Proof.
  intros Hlen Hnz. exists (analysis_of (last_n 100 (performance_history s))).
  set (w := last_n 100 (performance_history s)) in *.
  split; [now apply analyze_window |].
  split; [reflexivity |]. split; [reflexivity |]. split; [| split].
  - intros system. cbn [bottlenecks analysis_of]. split.
    + intros (b & Hb & <-). apply elem_of_bottlenecks_of in Hb. tauto.
    + intros [Hin Hlt]. exists (bottleneck_of w system). split; [| reflexivity].
      apply elem_of_bottlenecks_of. auto.
  - intros b Hb. cbn [bottlenecks analysis_of] in Hb.
    apply elem_of_bottlenecks_of in Hb as (_ & _ & ->). cbn.
    split; [reflexivity |]. split; [apply severity_of_high |].
    unfold severity_of.
    destruct (Qlt_le_dec (mean_ratio w (b_system b)) 0.5); split; intros H;
      try assumption; try reflexivity; try discriminate; lra.
  - reflexivity.
Qed.

(** *** Healthy histories *)

Lemma mean_ratio_healthy (w : list PerformanceMetric) (system : string) :
  Forall healthy w -> system ∈ subsystems w -> 0.8 <= mean_ratio w system.
Proof.
  intros Hall Hin. unfold mean_ratio, mean.
  apply mean_lower; [now apply ratios_of_present |].
  unfold ratios_of. apply Forall_map.
  apply Forall_forall. intros m Hm.
  apply list_elem_of_filter in Hm as [_ Hm].
  rewrite Forall_forall in Hall. apply Hall in Hm.
  exact (proj2 Hm).
Qed.

Lemma bottlenecks_of_healthy (w : list PerformanceMetric) :
  Forall healthy w -> bottlenecks_of w = [].
Proof.
  intros Hall. destruct (bottlenecks_of w) as [| b l] eqn:E; [reflexivity |].
  assert (Hb : b ∈ bottlenecks_of w) by (rewrite E; left).
  apply elem_of_bottlenecks_of in Hb as (Hin & Hlt & _).
  pose proof (mean_ratio_healthy w _ Hall Hin). lra.
Qed.

Lemma analyze_healthy (s : System) :
  Forall healthy (performance_history s) ->
  exists a, _analyze_performance s = Some a /\ bottlenecks a = [].
Proof.
  intros Hall.
  destruct (Nat.lt_ge_cases (length (performance_history s)) 10) as [Hlt | Hge].
  - unfold _analyze_performance. apply Nat.ltb_lt in Hlt. rewrite Hlt.
    eexists. split; reflexivity.
  - exists (analysis_of (last_n 100 (performance_history s))). split.
    + apply analyze_window; [assumption |].
      apply last_n_Forall. eapply Forall_impl; [exact Hall |].
      intros m Hm. exact (proj1 Hm).
    + apply bottlenecks_of_healthy. now apply last_n_Forall.
Qed.

Lemma update_baselines_frame (s : System) :
  optimization_queue (_update_baselines s) = optimization_queue s /\
  performance_history (_update_baselines s) = performance_history s /\
  settings (_update_baselines s) = settings s /\
  optimization_strategies (_update_baselines s) = optimization_strategies s.
Proof.
  unfold _update_baselines. destruct (_ <? _)%nat; repeat split.
Qed.

Lemma perform_adaptation_healthy (now : Q) (s : System) :
  Forall healthy (performance_history s) ->
  exists s',
    _perform_adaptation now s = Done s' /\
    optimization_queue s' = optimization_queue s /\
    performance_history s' = performance_history s.
Proof.
  intros Hall. unfold _perform_adaptation.
  set (s1 := with_stats (count_cycle (stats s)) s).
  destruct (analyze_healthy s1 Hall) as (a & Ha & Hb). rewrite Ha.
  eexists. split; [reflexivity |].
  destruct (update_baselines_frame
              (if ltb (overall_performance a)
                      (optimization_threshold (settings s1))
               then _apply_optimizations now a s1 else s1)) as (Hq & Hh & _).
  rewrite Hq, Hh. unfold _apply_optimizations. rewrite Hb. simpl.
  now destruct (ltb _ _).
Qed.

Lemma record_healthy (c : RecordCall) (s : System) :
  healthy (metric_of c) ->
  Forall healthy (performance_history s) ->
  Forall healthy (performance_history (record c s)) /\
  optimization_queue (record c s) = optimization_queue s.
Proof.
  intros Hc Hall. unfold record, record_performance_metric.
  fold (metric_of c).
  assert (H : Forall healthy (performance_history s ++ [metric_of c])).
  { apply Forall_app. split; [assumption | now apply Forall_singleton]. }
  destruct (_ >? _)%Z; simpl; split; try reflexivity; [| assumption].
  unfold pop0. destruct (performance_history s ++ [metric_of c]);
    [constructor | now apply Forall_inv_tail in H].
Qed.

Lemma exec_ops_healthy (ops : list Op) :
  forall s : System,
    Forall healthy (performance_history s) ->
    Forall healthy_op ops ->
    Forall healthy (performance_history (exec_ops ops s)) /\
    optimization_queue (exec_ops ops s) = optimization_queue s.
Proof.
  induction ops as [| o ops IH]; intros s Hs Hops; [now split |].
  apply Forall_cons in Hops as [Ho Hops].
  change (exec_ops (o :: ops) s) with (exec_ops ops (exec_op s o)).
  assert (H : Forall healthy (performance_history (exec_op s o)) /\
              optimization_queue (exec_op s o) = optimization_queue s).
  { destruct o as [c | now]; cbn [exec_op].
    - now apply record_healthy.
    - destruct (perform_adaptation_healthy now s Hs) as (s' & -> & Hq & Hh).
      cbn [state_of]. now rewrite Hh. }
  destruct H as [Hh Hq]. destruct (IH _ Hh Hops) as [IHh IHq].
  split; [assumption | congruence].
Qed.

(** C3. While every metric of the history has a ratio of at least 0.8, any
    number of adaptation cycles, interleaved with recordings of such
    metrics, leaves the optimization queue as it was: nothing is appended. *)
Theorem C3_healthy_history_queues_nothing (ops : list Op) (s : System) :
  Forall healthy (performance_history s) ->
  Forall healthy_op ops ->
  optimization_queue (exec_ops ops s) = optimization_queue s.
Proof.
  intros Hs Hops. now apply exec_ops_healthy.
Qed.

(** Discharges [Forall P l] on a list that evaluates to its elements. *)
Ltac forall_by_evaluation tac :=
  vm_compute;
  repeat (apply Forall_cons_2; [tac |]);
  apply Forall_nil_2.

(** C3 on twenty samples at 90% of the target. *)
Lemma C3_healthy_history_queues_nothing_witness :
  Forall healthy (performance_history Scenario.healthy_renderer) /\
  Forall healthy_op Scenario.healthy_run /\
  optimization_queue (exec_ops Scenario.healthy_run Scenario.healthy_renderer)
    = optimization_queue Scenario.healthy_renderer.
Proof.
  assert (H1 : Forall healthy (performance_history Scenario.healthy_renderer)).
  { forall_by_evaluation ltac:(split; [discriminate | discriminate]). }
  assert (H2 : Forall healthy_op Scenario.healthy_run).
  { forall_by_evaluation
      ltac:(first [exact I | split; [discriminate | discriminate]]). }
  split; [exact H1 |]. split; [exact H2 |].
  exact (C3_healthy_history_queues_nothing
           Scenario.healthy_run Scenario.healthy_renderer H1 H2).
Defined.

(** C6 on [Scenario.skewed]: the renderer, with one sample at 0.2, weighs
    as much as the physics system with its nine samples at 1.0. *)
Lemma C6_analysis_is_two_level_mean_witness :
  (10 <= length (performance_history Scenario.skewed))%nat /\
  Forall (λ m, ~ target m == 0)
         (last_n 100 (performance_history Scenario.skewed)) /\
  exists a,
    _analyze_performance Scenario.skewed = Some a /\
    a = analysis_of (last_n 100 (performance_history Scenario.skewed)) /\
    overall_performance a =
      mean (map (mean_ratio (last_n 100 (performance_history Scenario.skewed)))
                (subsystems (last_n 100 (performance_history Scenario.skewed)))).
Proof.
  assert (H1 : (10 <= length (performance_history Scenario.skewed))%nat).
  { vm_compute. lia. }
  assert (H2 : Forall (λ m, ~ target m == 0)
                 (last_n 100 (performance_history Scenario.skewed))).
  { forall_by_evaluation ltac:(discriminate). }
  split; [exact H1 |]. split; [exact H2 |].
  destruct (C6_analysis_is_two_level_mean Scenario.skewed H1 H2)
    as (a & Ha & Hspec & _ & _ & _ & Ho).
  exists a. auto.
Defined.

(** On that window the overall performance is 0.6, the renderer is the one
    bottleneck, of high severity, and the mean over the ten samples would
    have been 0.92. *)
Example skewed_analysis :
  exists a,
    _analyze_performance Scenario.skewed = Some a /\
    overall_performance a == 0.6 /\
    map b_system (bottlenecks a) = ["renderer"] /\
    map b_severity (bottlenecks a) = [high] /\
    sample_mean (last_n 100 (performance_history Scenario.skewed)) == 0.92.
Proof.
  eexists. split; [vm_compute; reflexivity |]. repeat split.
Qed.

(** *** The rating *)

Lemma mapM_ratio (w : list PerformanceMetric) :
  Forall nonzero_target w -> mapM ratio w = Some (map performance_ratio w).
Proof.
  induction 1 as [| m w Hm _ IH]; [reflexivity |].
  cbn [mapM map]. rewrite (ratio_Some m Hm), IH. reflexivity.
Qed.

Lemma clamp_in_unit (x : Q) : 0 <= max 0 (min 1 x) /\ max 0 (min 1 x) <= 1.
Proof.
  split; [apply max_ge_l |].
  apply max_lub; [lra | apply min_le_l].
Qed.

Lemma rating_defined (s : System) :
  Forall nonzero_target (last_n 50 (performance_history s)) ->
  get_performance_rating s = Some (rating_of (performance_history s)).
Proof.
  intros Hnz. unfold get_performance_rating, rating_of.
  destruct (performance_history s) as [| m h] eqn:Hh; [reflexivity |].
  set (w := last_n 50 (m :: h)) in *.
  assert (Hw : w <> []).
  { intros E. apply (last_n_nil_inv 50) in E; [discriminate | lia]. }
  destruct w as [| m' w'] eqn:Ew; [congruence |]. rewrite <- Ew in *.
  rewrite (mapM_ratio w Hnz). cbn [mbind option_bind].
  rewrite div_flen by assumption. cbn [mbind option_bind].
  unfold sample_mean, mean, flen. now rewrite length_map.
Qed.

(** C10, amended. When none of the most recent fifty metrics has a zero
    target, the rating is returned and lies in [0,1]: it is exactly 1.0
    when no metric has been recorded, and otherwise the mean of
    value/target over the most recent (up to fifty) metrics, clamped into
    [0,1]. *)
Theorem C10_rating_in_unit_interval (s : System) :
  Forall (λ m, ~ target m == 0) (last_n 50 (performance_history s)) ->
  exists r,
    get_performance_rating s = Some r /\
    0 <= r /\ r <= 1 /\
    (performance_history s = [] -> r = 1) /\
    (performance_history s <> [] ->
     r = max 0 (min 1 (mean (map performance_ratio
                                 (last_n 50 (performance_history s)))))).
Proof.
  intros Hnz. exists (rating_of (performance_history s)).
  split; [now apply rating_defined |].
  unfold rating_of. destruct (performance_history s) as [| m h].
  - repeat split; [lra | lra | congruence].
  - destruct (clamp_in_unit (sample_mean (last_n 50 (m :: h)))) as [H0 H1].
    repeat split; [assumption | assumption | discriminate].
Qed.

(** C10 on twenty samples at 40% of the target: the rating is 0.4. *)
Lemma C10_rating_in_unit_interval_witness :
  Forall (λ m, ~ target m == 0)
         (last_n 50 (performance_history Scenario.slow_renderer)) /\
  exists r,
    get_performance_rating Scenario.slow_renderer = Some r /\
    0 <= r /\ r <= 1.
Proof.
  assert (H : Forall (λ m, ~ target m == 0)
                (last_n 50 (performance_history Scenario.slow_renderer))).
  { forall_by_evaluation ltac:(discriminate). }
  split; [exact H |].
  destruct (C10_rating_in_unit_interval Scenario.slow_renderer H)
    as (r & Hr & H0 & H1 & _).
  exists r. auto.
Defined.

(** C10 as stated fails: after one metric with target 0.0 the rating is
    not returned, the division raises. *)
Lemma C10_zero_target_raises :
  get_performance_rating Scenario.zero_target = None /\
  ~ (exists r, get_performance_rating Scenario.zero_target = Some r /\
               0 <= r /\ r <= 1).
Proof.
  assert (H : get_performance_rating Scenario.zero_target = None)
    by (vm_compute; reflexivity).
  split; [exact H |].
  intros (r & Hr & _). rewrite H in Hr. discriminate.
Qed.

End AnalyzerFacts.

(** ** The frame loop *)

Module EngineFacts.
Import Py PyFacts EngineCore EngineScenario.

Local Open Scope Q_scope.

(** What the first half of a frame leaves alone. *)
Lemma update_system_frame (raises : string -> bool) (e : GameEngine)
    (item : string * SystemObject) :
  state (update_system raises e item) = state e /\
  current_frame (update_system raises e item) = current_frame e /\
  performance_metrics (update_system raises e item) = performance_metrics e /\
  adaptation_enabled (update_system raises e item) = adaptation_enabled e.
Proof.
  destruct item as [n sys]. unfold update_system.
  destruct (has_update sys); [| easy].
  destruct (raises n); [easy |].
  destruct (div 1 (frame_time e * 0.9)); easy.
Qed.

Lemma update_systems_frame (raises : string -> bool) (e : GameEngine) :
  state (_update_systems raises e) = state e /\
  current_frame (_update_systems raises e) = current_frame e /\
  performance_metrics (_update_systems raises e) = performance_metrics e /\
  adaptation_enabled (_update_systems raises e) = adaptation_enabled e.
Proof.
  unfold _update_systems. generalize (systems e). intros l. revert e.
  induction l as [| item l IH]; intros e; [easy |].
  cbn [fold_left].
  destruct (update_system_frame raises e item) as (H1 & H2 & H3 & H4).
  destruct (IH (update_system raises e item)) as (I1 & I2 & I3 & I4).
  rewrite I1, I2, I3, I4. easy.
Qed.

Lemma adapt_and_improve_frame (e : GameEngine) :
  state (_adapt_and_improve e) = state e /\
  current_frame (_adapt_and_improve e) = current_frame e /\
  performance_metrics (_adapt_and_improve e) = performance_metrics e.
Proof.
  unfold _adapt_and_improve. now destruct (_ =? _)%Z.
Qed.

Lemma frames_upto_S (n : nat) :
  frames_upto (S n) = frames_upto n ++ [Z.of_nat (S n)].
Proof. unfold frames_upto. now rewrite seq_S, map_app. Qed.

Lemma frames_upto_fresh (n : nat) : Z.of_nat (S n) ∉ frames_upto n.
Proof.
  unfold frames_upto. intros H. apply list_elem_of_fmap in H as (k & Hk & Hin).
  apply list_elem_of_In, in_seq in Hin. lia.
Qed.

Lemma run_frame_keys (f : Frame) (e : GameEngine) (n : nat) :
  state e = RUNNING ->
  current_frame e = Z.of_nat n ->
  od_keys (performance_metrics e) = frames_upto n ->
  state (run_frame f e) = RUNNING /\
  current_frame (run_frame f e) = Z.of_nat (S n) /\
  od_keys (performance_metrics (run_frame f e)) = frames_upto (S n).
Proof.
  intros Hs Hc Hk. unfold run_frame.
  set (e1 := _update_systems (raises f) e).
  destruct (update_systems_frame (raises f) e) as (U1 & U2 & U3 & _).
  fold e1 in U1, U2, U3.
  set (e2 := if adaptation_enabled e1 then _adapt_and_improve e1 else e1).
  assert (H : state e2 = state e /\ current_frame e2 = current_frame e /\
              performance_metrics e2 = performance_metrics e).
  { unfold e2. destruct (adaptation_enabled e1).
    - destruct (adapt_and_improve_frame e1) as (A1 & A2 & A3).
      rewrite A1, A2, A3. easy.
    - easy. }
  destruct H as (H1 & H2 & H3).
  cbn [state current_frame performance_metrics
       with_performance_metrics with_current_frame].
  rewrite H1, H2, H3, Hc, od_set_keys.
  replace (Z.of_nat n + 1)%Z with (Z.of_nat (S n)) by lia.
  assert (Hf : od_mem (Z.of_nat (S n)) (performance_metrics e) = false).
  { apply od_mem_false. rewrite Hk. apply frames_upto_fresh. }
  rewrite Hf, Hk, frames_upto_S. easy.
Qed.

Lemma run_frames_keys (fs : list Frame) :
  forall (e : GameEngine) (n : nat),
    state e = RUNNING ->
    current_frame e = Z.of_nat n ->
    od_keys (performance_metrics e) = frames_upto n ->
    od_keys (performance_metrics (run (map Iteration fs) e)) =
      frames_upto (n + length fs).
Proof.
  induction fs as [| f fs IH]; intros e n Hs Hc Hk.
  - simpl. now rewrite Nat.add_0_r.
  - change (run (map Iteration (f :: fs)) e)
      with (run (map Iteration fs) (_main_loop_iteration f e)).
    unfold _main_loop_iteration. rewrite Hs.
    destruct (run_frame_keys f e n Hs Hc Hk) as (R1 & R2 & R3).
    rewrite (IH _ (S n) R1 R2 R3). f_equal. simpl. lia.
Qed.

Lemma frames_upto_length (n : nat) : length (frames_upto n) = n.
Proof. unfold frames_upto. now rewrite length_map, length_seq. Qed.

(** C2, amended. The frame-timing history is not trimmed: on an engine
    started with an empty history, each frame of the loop stores one entry
    under the next frame number, so after any number of frames the history
    holds exactly that many entries, keyed 1, 2, ... in order; the bound of
    300 is on the window that the readers take of it. *)
Theorem C2_frame_history_grows (now : Q) (fs : list Frame) (e : GameEngine) :
  state e = STOPPED ->
  performance_metrics e = [] ->
  length (performance_metrics (run (map Iteration fs) (start now e)))
    = length fs /\
  od_keys (performance_metrics (run (map Iteration fs) (start now e)))
    = map Z.of_nat (seq 1 (length fs)) /\
  (length (recent_frames (run (map Iteration fs) (start now e))) <= 300)%nat.
Proof.
  intros Hs Hm.
  assert (Hk : od_keys (performance_metrics
                          (run (map Iteration fs) (start now e)))
               = frames_upto (length fs)).
  { apply (run_frames_keys fs (start now e) 0);
      unfold start; rewrite Hs; simpl; [reflexivity | reflexivity |].
    now rewrite Hm. }
  split; [| split].
  - rewrite <- (frames_upto_length (length fs)), <- Hk.
    unfold od_keys. now rewrite length_map.
  - exact Hk.
  - unfold recent_frames. rewrite length_last_n. lia.
Qed.

(** C2 on the example engine and two frames. *)
Lemma C2_frame_history_grows_witness :
  state EngineScenario.example_engine = STOPPED /\
  performance_metrics EngineScenario.example_engine = [] /\
  length (performance_metrics
            (run (map Iteration
                    [EngineScenario.calm_frame; EngineScenario.calm_frame])
                 (start 0 EngineScenario.example_engine))) = 2%nat.
Proof.
  split; [reflexivity |]. split; [reflexivity |].
  apply (C2_frame_history_grows 0
           [EngineScenario.calm_frame; EngineScenario.calm_frame]
           EngineScenario.example_engine); reflexivity.
Defined.

(** C2 as stated fails: after 301 frames the history holds 301 entries. *)
Lemma C2_history_exceeds_300 :
  length (performance_metrics EngineScenario.after_301_frames) = 301%nat /\
  ~ (length (performance_metrics EngineScenario.after_301_frames) <= 300)%nat.
Proof.
  assert (H : length (performance_metrics EngineScenario.after_301_frames)
              = 301%nat) by (vm_compute; reflexivity).
  split; [exact H | rewrite H; lia].
Qed.

End EngineFacts.

(** ** The baselines *)

Module BaselineFacts.
Import Py PyFacts SelfImprovement Trace AnalyzerSpec AnalyzerFacts.

Local Open Scope Q_scope.

(** *** Powers of 0.9 *)

Lemma decay_pos (n : nat) : 0 < decay n.
Proof. induction n as [| n IH]; cbn [decay]; lra. Qed.

Lemma decay_le_1 (n : nat) : decay n <= 1.
Proof.
  induction n as [| n IH]; cbn [decay]; [lra |].
  pose proof (decay_pos n). lra.
Qed.

Lemma decay_add (a b : nat) : decay (a + b) == decay a * decay b.
Proof.
  induction a as [| a IH]; cbn [decay Nat.add]; [ring |].
  rewrite IH. ring.
Qed.

Lemma decay_antitone (n m : nat) : (n <= m)%nat -> decay m <= decay n.
Proof.
  intros H. replace m with ((m - n) + n)%nat by lia.
  rewrite decay_add. pose proof (decay_le_1 (m - n)).
  pose proof (decay_pos n). nra.
Qed.

Lemma decay_bound (n : nat) : decay n * (inject_Z (Z.of_nat n) + 9) <= 9.
Proof.
  induction n as [| n IH].
  - change (1 * (0 + 9) <= 9). lra.
  - rewrite Nat2Z.inj_succ, <- Z.add_1_r, inject_Z_plus. cbn [decay].
    change (inject_Z 1) with 1.
    pose proof (decay_le_1 n). pose proof (decay_pos n).
    set (d := decay n) in *. set (x := inject_Z (Z.of_nat n)) in *.
    assert (E : 0.9 * d * (x + 1 + 9) == 0.9 * (d * (x + 9)) + 0.9 * d)
      by ring.
    rewrite E. lra.
Qed.

(** Below any positive bound after enough steps. *)
Lemma decay_small (distance eps : Q) (n : nat) :
  0 <= distance -> 0 < eps ->
  (cycles_for distance eps <= n)%nat ->
  decay n * distance < eps.
Proof.
  intros Hd He Hn. unfold cycles_for in Hn.
  pose proof (Qle_ceiling (9 * distance / eps)) as Hc.
  set (z := Qceiling (9 * distance / eps)) in *.
  assert (Hz : inject_Z z + 1 <= inject_Z (Z.of_nat n)).
  { change 1 with (inject_Z 1). rewrite <- inject_Z_plus, <- Zle_Qle. lia. }
  set (x := inject_Z (Z.of_nat n)) in *.
  assert (H9 : 9 * distance <= inject_Z z * eps).
  { assert (E : 9 * distance == 9 * distance / eps * eps)
      by (field; lra).
    rewrite E. apply Qmult_le_compat_r; lra. }
  pose proof (decay_bound n) as Hb. fold x in Hb.
  pose proof (decay_pos n) as Hp.
  set (d := decay n) in *.
  assert (Hx : 0 < x + 9).
  { assert (0 <= x); [| lra].
    unfold x. change 0 with (inject_Z 0). rewrite <- Zle_Qle. lia. }
  apply (Qmult_lt_r _ _ (x + 9) Hx).
  assert (H1 : d * distance * (x + 9) <= 9 * distance).
  { assert (E : d * distance * (x + 9) == d * (x + 9) * distance) by ring.
    rewrite E. apply Qmult_le_compat_r; assumption. }
  assert (H2 : inject_Z z * eps < eps * (x + 9)) by nra.
  lra.
Qed.

Section one_metric.
Variables (system metric : string).

Lemma baseline_step_tracked (b : gmap string (gmap string Q))
    (m : PerformanceMetric) :
  tracks system metric m ->
  at_key system metric (baseline_step b m) = ema (at_key system metric b) m.
Proof.
  intros [<- <-]. unfold at_key, baseline_step, ema.
  rewrite lookup_insert_eq. cbn [mbind option_bind].
  rewrite lookup_insert_eq.
  destruct (b !! system_name m) as [of_system |] eqn:E.
  - rewrite E. cbn [default mbind option_bind]. reflexivity.
  - rewrite lookup_insert_eq. cbn [default mbind option_bind].
    unfold id. now rewrite lookup_empty.
Qed.

Lemma baseline_step_other (b : gmap string (gmap string Q))
    (m : PerformanceMetric) :
  ~ tracks system metric m ->
  at_key system metric (baseline_step b m) = at_key system metric b.
Proof.
  intros Hn. unfold at_key, baseline_step.
  destruct (decide (system_name m = system)) as [Es | Ns].
  - assert (Nm : metric_name m <> metric).
    { intros Em. apply Hn. now split. }
    rewrite Es, lookup_insert_eq. cbn [mbind option_bind].
    rewrite lookup_insert_ne by assumption.
    destruct (b !! system) as [of_system |] eqn:E.
    + rewrite E. reflexivity.
    + rewrite lookup_insert_eq. cbn [default mbind option_bind].
      unfold id. now rewrite lookup_empty.
  - rewrite lookup_insert_ne by assumption.
    destruct (b !! system_name m); [reflexivity |].
    now rewrite lookup_insert_ne.
Qed.

Lemma baseline_fold (w : list PerformanceMetric) :
  forall b : gmap string (gmap string Q),
    at_key system metric (fold_left baseline_step w b) =
      fold_left ema (filter (tracks system metric) w) (at_key system metric b).
Proof.
  induction w as [| m w IH]; intros b; [reflexivity |].
  cbn [fold_left]. rewrite IH, filter_cons.
  destruct (decide (tracks system metric m)) as [Ht | Hn].
  - cbn [fold_left]. now rewrite baseline_step_tracked.
  - now rewrite baseline_step_other.
Qed.

(** *** A constant value *)

Section constant_value.
Variable V : Q.

Lemma ema_constant (l : list PerformanceMetric) :
  Forall (λ m, value m == V) l ->
  forall x : Q,
    exists y, fold_left ema l (Some x) = Some y /\
              y - V == decay (length l) * (x - V).
Proof.
  induction 1 as [| m l Hm _ IH]; intros x.
  - exists x. split; [reflexivity |]. cbn [length decay]. ring.
  - cbn [fold_left ema default].
    destruct (IH (x * 0.9 + value m * 0.1)) as (y & Hy & Ey).
    exists y. split; [exact Hy |].
    rewrite Ey, Hm. cbn [length decay]. ring.
Qed.

(** The first update of a baseline starts from the target of the metric. *)
Lemma ema_first (l : list PerformanceMetric) (m0 : PerformanceMetric)
    (old : option Q) :
  fold_left ema (m0 :: l) old =
    fold_left ema (m0 :: l) (Some (default (target m0) old)).
Proof. reflexivity. Qed.

End constant_value.

End one_metric.

(** *** Adaptation cycles *)

Lemma apply_optimizations_frame (now : Q) (a : Analysis) (s : System) :
  performance_history (_apply_optimizations now a s) = performance_history s /\
  system_baselines (_apply_optimizations now a s) = system_baselines s.
Proof.
  unfold _apply_optimizations. generalize (bottlenecks a). intros l.
  revert s. induction l as [| b l IH]; intros s; [easy |].
  cbn [fold_left]. destruct (_select_optimization_strategy _ _ s).
  - destruct (IH (with_queue
                    (optimization_queue s ++
                       [{| rq_strategy := n; rq_system := b_system b;
                           rq_severity := b_severity b;
                           rq_timestamp := now |}]) s)) as [H1 H2].
    now rewrite H1, H2.
  - apply IH.
Qed.

(** Baselines are left alone below a hundred samples. *)
Lemma baselines_need_100 (now : Q) (s : System) :
  (length (performance_history s) < 100)%nat ->
  system_baselines (_update_baselines s) = system_baselines s /\
  system_baselines (state_of (_perform_adaptation now s)) = system_baselines s.
Proof.
  intros Hlen. apply Nat.ltb_lt in Hlen. split.
  { unfold _update_baselines. now rewrite Hlen. }
  unfold _perform_adaptation.
  set (s1 := with_stats (count_cycle (stats s)) s).
  destruct (_analyze_performance s1) as [a |]; [| reflexivity].
  cbn [state_of].
  set (s2 := if ltb _ _ then _ else s1).
  assert (H2 : performance_history s2 = performance_history s /\
               system_baselines s2 = system_baselines s).
  { unfold s2. destruct (ltb _ _); [| easy].
    apply (apply_optimizations_frame now a s1). }
  destruct H2 as [Hh Hb]. unfold _update_baselines. rewrite Hh.
  now rewrite Hlen.
Qed.

Lemma update_baselines_updated (s : System) :
  (100 <= length (performance_history s))%nat ->
  updated s (_update_baselines s).
Proof.
  intros Hlen. unfold updated, _update_baselines.
  replace (length (performance_history s) <? 100)%nat with false
    by (symmetry; apply Nat.ltb_ge; exact Hlen).
  split; reflexivity.
Qed.

(** One cycle on a hundred samples or more whose ratios are defined. *)
Lemma perform_adaptation_updated (now : Q) (s : System) :
  (100 <= length (performance_history s))%nat ->
  Forall nonzero_target (last_n 100 (performance_history s)) ->
  exists s', _perform_adaptation now s = Done s' /\ updated s s'.
Proof.
  intros Hlen Hnz. unfold _perform_adaptation.
  set (s1 := with_stats (count_cycle (stats s)) s).
  rewrite (analyze_window s1) by (simpl; (lia || assumption)).
  eexists. split; [reflexivity |].
  set (s2 := if ltb _ _ then _ else s1).
  assert (H2 : performance_history s2 = performance_history s /\
               system_baselines s2 = system_baselines s).
  { unfold s2. destruct (ltb _ _); [| easy].
    apply (apply_optimizations_frame now _ s1). }
  destruct H2 as [Hh Hb].
  destruct (update_baselines_updated s2) as [Uh Ub]; [now rewrite Hh |].
  split; [congruence |]. now rewrite Ub, Hh, Hb.
Qed.

Lemma baseline_updates_updated (n : nat) :
  forall s : System,
    (100 <= length (performance_history s))%nat ->
    updated_times n s (baseline_updates n s).
Proof.
  induction n as [| n IH]; intros s Hlen; [constructor |].
  cbn [baseline_updates].
  pose proof (update_baselines_updated s Hlen) as Hu.
  apply (updated_S n s (_update_baselines s)); [exact Hu |].
  apply IH. destruct Hu as [Hh _]. now rewrite Hh.
Qed.

Lemma adaptation_cycles_updated (nows : list Q) :
  forall s : System,
    (100 <= length (performance_history s))%nat ->
    Forall nonzero_target (last_n 100 (performance_history s)) ->
    updated_times (length nows) s (adaptation_cycles nows s).
Proof.
  induction nows as [| now rest IH]; intros s Hlen Hnz; [constructor |].
  change (adaptation_cycles (now :: rest) s)
    with (adaptation_cycles rest (state_of (_perform_adaptation now s))).
  destruct (perform_adaptation_updated now s Hlen Hnz) as (s' & -> & Hu).
  cbn [state_of length].
  apply (updated_S _ s s'); [exact Hu |].
  destruct Hu as [Hh _]. apply IH; now rewrite Hh.
Qed.

Section convergence.
Variables (system metric : string) (V : Q).

Lemma updated_steady (s s' : System) :
  steady system metric V s ->
  updated s s' ->
  steady system metric V s' /\
  feeding system metric s' = feeding system metric s /\
  exists y,
    baseline s' system metric = Some y /\
    y - V == decay (length (feeding system metric s))
             * (starting_point system metric s - V).
Proof.
  intros (Hlen & Hv & Hne) [Hh Hb].
  assert (Hf : feeding system metric s' = feeding system metric s)
    by (unfold feeding; now rewrite Hh).
  assert (Hfold : baseline s' system metric =
                  fold_left ema (feeding system metric s)
                    (baseline s system metric)).
  { unfold baseline. rewrite Hb. apply baseline_fold. }
  split; [unfold steady; rewrite Hf, Hh; easy |].
  split; [exact Hf |].
  unfold starting_point.
  destruct (feeding system metric s) as [| m0 l] eqn:El; [congruence |].
  rewrite ema_first in Hfold.
  destruct (ema_constant V (m0 :: l) Hv
              (default (target m0) (baseline s system metric)))
    as (y & Hy & Ey).
  exists y. split; [congruence |].
  rewrite Ey. cbn [head fmap option_fmap option_map default].
  now destruct (baseline s system metric).
Qed.

Lemma updated_times_steady (n : nat) (s s' : System) :
  steady system metric V s ->
  updated_times (S n) s s' ->
  exists y,
    baseline s' system metric = Some y /\
    y - V == decay (length (feeding system metric s) * S n)
             * (starting_point system metric s - V).
Proof.
  intros Hs Hu. remember (S n) as k eqn:Ek. revert n Ek Hs.
  induction Hu as [s | k s s1 s2 H1 Hrest IH]; intros n Ek Hs;
    [discriminate |].
  injection Ek as ->.
  destruct (updated_steady s s1 Hs H1) as (Hs1 & Hf & y & Hb & Ey).
  destruct n as [| n].
  - inversion Hrest; subst. exists y. split; [exact Hb |].
    now rewrite Nat.mul_1_r.
  - destruct (IH n eq_refl Hs1) as (y' & Hb' & Ey').
    exists y'. split; [exact Hb' |].
    rewrite Ey', Hf. unfold starting_point at 1. rewrite Hb. cbn [default].
    rewrite Ey.
    replace (length (feeding system metric s) * S (S n))%nat
      with (length (feeding system metric s) * S n
            + length (feeding system metric s))%nat by lia.
    rewrite decay_add. ring.
Qed.

Lemma updated_times_converge (s s' : System) (eps : Q) (n : nat) :
  steady system metric V s ->
  0 < eps ->
  (cycles_for (Qabs (starting_point system metric s - V)) eps <= n)%nat ->
  updated_times n s s' ->
  exists y,
    baseline s' system metric = Some y /\ Qabs (y - V) < eps.
Proof.
  intros Hs He Hn Hu.
  destruct n as [| n]; [unfold cycles_for in Hn; lia |].
  destruct (updated_times_steady n s s' Hs Hu) as (y & Hb & Ey).
  exists y. split; [exact Hb |].
  rewrite Ey, Qabs_Qmult.
  rewrite (Qabs_pos (decay _)) by (apply Qlt_le_weak, decay_pos).
  set (D := Qabs (starting_point system metric s - V)) in *.
  assert (HD : 0 <= D) by apply Qabs_nonneg.
  assert (Hc : (1 <= length (feeding system metric s))%nat).
  { destruct Hs as (_ & _ & Hf). destruct (feeding system metric s);
      [congruence | simpl; lia]. }
  apply Qle_lt_trans with (decay (S n) * D).
  - apply Qmult_le_compat_r; [| assumption].
    apply decay_antitone. nia.
  - now apply decay_small.
Qed.

End convergence.

(** C9, amended. Below a hundred samples neither [_update_baselines]
    nor a whole adaptation cycle changes a baseline. From a hundred
    samples on, one update runs the step that weighs the old baseline
    (the target of the metric when there is none yet) by 0.9 and the
    observed value by 0.1 once for every sample of the window of the last
    hundred that feeds the baseline, in order, not once per cycle: when
    these [c] samples all carry the value [V], one update multiplies the
    distance of the baseline to [V] by [0.9 ^ c], and so does one
    adaptation cycle provided that no target of the window is zero.
    Repeated baseline updates then bring the baseline within any
    [eps > 0] of [V] and keep it there, and so do repeated adaptation
    cycles provided that no target of the window is zero (with a zero
    target the analysis that precedes the update raises). *)
Theorem C9_baseline_ema_converges (s : System) (system metric : string)
    (V eps : Q) :
  (100 <= length (performance_history s))%nat ->
  Forall (λ m, value m == V)
         (filter (tracks system metric)
                 (last_n 100 (performance_history s))) ->
  Exists (tracks system metric) (last_n 100 (performance_history s)) ->
  0 < eps ->
  (forall (s' : System) (now : Q),
     (length (performance_history s') < 100)%nat ->
     system_baselines (_update_baselines s') = system_baselines s' /\
     system_baselines (state_of (_perform_adaptation now s'))
       = system_baselines s') /\
  (forall (b : gmap string (gmap string Q)) (m : PerformanceMetric),
     at_key (system_name m) (metric_name m) (baseline_step b m) =
       Some (default (target m) (at_key (system_name m) (metric_name m) b)
               * 0.9 + value m * 0.1)) /\
  (baseline (_update_baselines s) system metric =
     fold_left ema (feeding system metric s) (baseline s system metric) /\
   exists y,
     baseline (_update_baselines s) system metric = Some y /\
     y - V == decay (length (feeding system metric s))
              * (starting_point system metric s - V)) /\
  (Forall (λ m, ~ target m == 0) (last_n 100 (performance_history s)) ->
   forall now : Q,
   exists s' y,
     _perform_adaptation now s = Done s' /\
     baseline s' system metric = Some y /\
     y - V == decay (length (feeding system metric s))
              * (starting_point system metric s - V)) /\
  (exists K : nat,
     (forall n : nat,
        (K <= n)%nat ->
        exists y,
          baseline (baseline_updates n s) system metric = Some y /\
          Qabs (y - V) < eps) /\
     (Forall (λ m, ~ target m == 0) (last_n 100 (performance_history s)) ->
      forall nows : list Q,
        (K <= length nows)%nat ->
        exists y,
          baseline (adaptation_cycles nows s) system metric = Some y /\
          Qabs (y - V) < eps)).
Proof.
  intros Hlen Hv Hex He.
  assert (Hs : steady system metric V s).
  { repeat split; try assumption.
    unfold feeding. intros E.
    apply Exists_exists in Hex as (m & Hin & Hm).
    assert (Hf : m ∈ filter (tracks system metric)
                       (last_n 100 (performance_history s))).
    { apply list_elem_of_filter. now split. }
    rewrite E in Hf. inversion Hf. }
  split; [| split; [| split; [| split]]].
  - intros s' now Hs'. now apply baselines_need_100.
  - intros b m. now apply baseline_step_tracked.
  - pose proof (update_baselines_updated s Hlen) as Hu. split.
    + destruct Hu as [_ Hb]. unfold baseline. rewrite Hb.
      apply baseline_fold.
    + now destruct (updated_steady system metric V s _ Hs Hu)
        as (_ & _ & Hy).
  - intros Hnz now.
    destruct (perform_adaptation_updated now s Hlen Hnz) as (s' & Hd & Hu).
    destruct (updated_steady system metric V s s' Hs Hu)
      as (_ & _ & y & Hy & Ey).
    now exists s', y.
  - exists (cycles_for (Qabs (starting_point system metric s - V)) eps).
    split.
    + intros n Hn.
      apply (updated_times_converge system metric V s _ eps n Hs He Hn).
      now apply baseline_updates_updated.
    + intros Hnz nows Hn.
      apply (updated_times_converge system metric V s _ eps (length nows)
               Hs He Hn).
      now apply adaptation_cycles_updated.
Qed.

(** C9 on 101 samples of a renderer at 0.02 s against a target of
    0.0167 s, and a bound of one thousandth. *)
Lemma C9_baseline_ema_converges_witness :
  (100 <= length (performance_history Scenario.constant_feed))%nat /\
  Exists (tracks "renderer" "frame_time")
         (last_n 100 (performance_history Scenario.constant_feed)) /\
  exists K : nat,
    forall n : nat,
      (K <= n)%nat ->
      exists y,
        baseline (baseline_updates n Scenario.constant_feed)
                 "renderer" "frame_time" = Some y /\
        Qabs (y - 0.02) < 0.001.
Proof.
  assert (H1 : (100 <= length (performance_history Scenario.constant_feed))%nat).
  { vm_compute. lia. }
  assert (H3 : Forall (λ m, value m == 0.02)
                 (filter (tracks "renderer" "frame_time")
                    (last_n 100 (performance_history Scenario.constant_feed)))).
  { forall_by_evaluation ltac:(reflexivity). }
  assert (H4 : Exists (tracks "renderer" "frame_time")
                 (last_n 100 (performance_history Scenario.constant_feed))).
  { vm_compute. apply Exists_cons_hd. split; reflexivity. }
  split; [exact H1 |]. split; [exact H4 |].
  destruct (C9_baseline_ema_converges Scenario.constant_feed
              "renderer" "frame_time" 0.02 0.001 H1 H3 H4)
    as (_ & _ & _ & _ & K & HK & _); [reflexivity |].
  exists K. exact HK.
Defined.

(** *** A zero target *)

Lemma analysis_history (s s' : System) :
  performance_history s = performance_history s' ->
  _analyze_performance s = _analyze_performance s'.
Proof. intros H. unfold _analyze_performance. now rewrite H. Qed.

(** A cycle whose analysis raises is over before the baselines. *)
Lemma raising_cycles_keep_baselines (s0 : System) (nows : list Q) :
  _analyze_performance s0 = None ->
  forall s : System,
    performance_history s = performance_history s0 ->
    system_baselines (adaptation_cycles nows s) = system_baselines s.
Proof.
  intros Hnone. induction nows as [| now rest IH]; intros s Hh;
    [reflexivity |].
  change (adaptation_cycles (now :: rest) s)
    with (adaptation_cycles rest (state_of (_perform_adaptation now s))).
  assert (Hr : _perform_adaptation now s
               = Raised (with_stats (count_cycle (stats s)) s)).
  { unfold _perform_adaptation.
    now rewrite (analysis_history (with_stats (count_cycle (stats s)) s)
                   s0 Hh), Hnone. }
  rewrite Hr. cbn [state_of]. now rewrite IH.
Qed.

(** C9 as the specification words it fails in two ways. First, a metric
    whose target is zero never gets a baseline from adaptation cycles:
    after 101 samples of the value 0.02 with the target 0, however many
    cycles run, each raises in the analysis and there is no baseline at
    all. Second, one cycle is not one step of weight 0.9 and 0.1: after
    101 samples of the value 0.02 with the target 0.0167, the first cycle
    runs the step a hundred times and leaves the baseline at
    [0.02 + 0.9 ^ 100 * (0.0167 - 0.02)], not at
    [0.9 * 0.0167 + 0.1 * 0.02]. *)
Theorem C9_zero_target_feed_has_no_baseline :
  (100 < length (performance_history Session.zero_target_feed))%nat /\
  Forall (λ m, tracks "renderer" "frame_time" m /\ value m == 0.02)
         (performance_history Session.zero_target_feed) /\
  (forall nows : list Q,
     baseline (adaptation_cycles nows Session.zero_target_feed)
              "renderer" "frame_time" = None) /\
  (exists y,
     baseline (adaptation_cycles [5] Scenario.constant_feed)
              "renderer" "frame_time" = Some y /\
     y - 0.02 == decay 100 * (0.0167 - 0.02) /\
     ~ y == 0.0167 * 0.9 + 0.02 * 0.1).
Proof.
  split; [vm_compute; lia |]. split; [| split].
  - forall_by_evaluation ltac:(split; [split; reflexivity | reflexivity]).
  - intros nows. unfold baseline.
    rewrite (raising_cycles_keep_baselines Session.zero_target_feed nows);
      [reflexivity | vm_compute; reflexivity | reflexivity].
  - assert (E : match baseline (adaptation_cycles [5] Scenario.constant_feed)
                        "renderer" "frame_time" with
                | Some y =>
                    Qeq_bool (y - 0.02) (decay 100 * (0.0167 - 0.02))
                    && negb (Qeq_bool y (0.0167 * 0.9 + 0.02 * 0.1))
                | None => false
                end = true) by (vm_compute; reflexivity).
    destruct (baseline (adaptation_cycles [5] Scenario.constant_feed)
                "renderer" "frame_time") as [y |]; [| discriminate].
    exists y. split; [reflexivity |].
    apply andb_prop in E as [E1 E2]. split; [now apply Qeq_bool_iff |].
    intros H. apply Qeq_bool_iff in H. rewrite H in E2. discriminate.
Qed.

(** *** Feeding a constant value *)

Lemma last_n_last_n {A} (n m : nat) (l : list A) :
  (n <= m)%nat -> last_n n (last_n m l) = last_n n l.
Proof.
  intros H. unfold last_n. rewrite length_drop, drop_drop. f_equal. lia.
Qed.

Lemma last_n_replicate {A} (k n : nat) (h : list A) (x : A) :
  (k <= n)%nat -> last_n k (h ++ replicate n x) = replicate k x.
Proof.
  intros H. unfold last_n. rewrite length_app, length_replicate.
  rewrite drop_app_ge by lia. rewrite drop_replicate. f_equal. lia.
Qed.

(** After at least a hundred recordings of one call, into a store of a
    hundred entries or more, the window holds that metric only. *)
Lemma constant_feed_window (s0 : System) (c : RecordCall) (n : nat) :
  (100 <= performance_history_size (settings s0))%Z ->
  (Z.of_nat (length (performance_history s0))
     <= performance_history_size (settings s0))%Z ->
  (100 <= n)%nat ->
  last_n 100 (performance_history (record_all (replicate n c) s0)) =
    replicate 100 (metric_of c).
Proof.
  intros Hsize Hlen Hn.
  destruct (SelfImprovementFacts.record_all_history (replicate n c) s0)
    as [_ Hh]; [lia | assumption |].
  rewrite Hh, last_n_last_n by lia.
  change (map metric_of (replicate n c)) with (metric_of <$> replicate n c).
  rewrite fmap_replicate. now apply last_n_replicate.
Qed.

Lemma constant_feed_steady (s0 : System) (c : RecordCall) (n : nat) :
  (100 <= performance_history_size (settings s0))%Z ->
  (Z.of_nat (length (performance_history s0))
     <= performance_history_size (settings s0))%Z ->
  (100 <= n)%nat ->
  steady (rc_system c) (rc_metric c) (rc_value c)
         (record_all (replicate n c) s0).
Proof.
  intros Hsize Hlen Hn.
  pose proof (constant_feed_window s0 c n Hsize Hlen Hn) as Hw.
  unfold steady, feeding. rewrite Hw. repeat split.
  - apply (f_equal length) in Hw.
    rewrite length_last_n, length_replicate in Hw. lia.
  - apply Forall_forall. intros m Hm.
    apply list_elem_of_filter in Hm as [_ Hm].
    apply elem_of_replicate in Hm as [-> _]. reflexivity.
  - intros E.
    assert (Hin : metric_of c ∈ filter (tracks (rc_system c) (rc_metric c))
                                   (replicate 100 (metric_of c))).
    { apply list_elem_of_filter. split; [now split |].
      apply elem_of_replicate. split; [reflexivity | lia]. }
    rewrite E in Hin. inversion Hin.
Qed.

(** Feeding the constant value of one call, with a target that is not
    zero, for a hundred samples or more and then running adaptation cycles
    brings the baseline of that metric within any [eps > 0] of the value. *)
Lemma constant_feed_converges (s0 : System) (c : RecordCall) (n : nat)
    (eps : Q) :
  (100 <= performance_history_size (settings s0))%Z ->
  (Z.of_nat (length (performance_history s0))
     <= performance_history_size (settings s0))%Z ->
  (100 <= n)%nat ->
  ~ rc_target c == 0 ->
  0 < eps ->
  exists K : nat,
    forall nows : list Q,
      (K <= length nows)%nat ->
      exists y,
        baseline (adaptation_cycles nows (record_all (replicate n c) s0))
                 (rc_system c) (rc_metric c) = Some y /\
        Qabs (y - rc_value c) < eps.
Proof.
  intros Hsize Hlen Hn Ht He.
  pose proof (constant_feed_steady s0 c n Hsize Hlen Hn) as Hs.
  pose proof (constant_feed_window s0 c n Hsize Hlen Hn) as Hw.
  eexists. intros nows Hk.
  eapply updated_times_converge; [exact Hs | exact He | exact Hk |].
  apply adaptation_cycles_updated.
  - destruct Hs as (H & _). exact H.
  - rewrite Hw. apply Forall_replicate. exact Ht.
Qed.

End BaselineFacts.

(** ** Further properties of the adaptation system *)

Module SelfImprovementMore.
Import Py PyFacts SelfImprovement Trace AnalyzerSpec AnalyzerFacts Invariants.

Local Open Scope Q_scope.

(** *** When the divisions raise *)

Lemma zero_or_nonzero (l : list PerformanceMetric) :
  {Forall nonzero_target l} + {Exists zero_target l}.
Proof.
  apply Forall_Exists_dec. intros m. unfold nonzero_target, zero_target.
  destruct (Qeq_dec (target m) 0); [now right | now left].
Qed.

Lemma ratio_None (m : PerformanceMetric) : zero_target m -> ratio m = None.
Proof. intros H. now apply div_None. Qed.

Lemma collect_ratios_None (w : list PerformanceMetric) :
  Exists zero_target w ->
  forall d : list (string * list Q), collect_ratios w d = None.
Proof.
  induction 1 as [m w Hm | m w _ IH]; intros d; cbn [collect_ratios].
  - now rewrite (ratio_None m Hm).
  - destruct (ratio m); [apply IH | reflexivity].
Qed.

Lemma mapM_ratio_None (w : list PerformanceMetric) :
  Exists zero_target w -> mapM ratio w = None.
Proof.
  induction 1 as [m w Hm | m w _ IH]; cbn [mapM].
  - now rewrite (ratio_None m Hm).
  - rewrite IH. now destruct (ratio m).
Qed.

Lemma analysis_None (s : System) :
  _analyze_performance s = None <->
  (10 <= length (performance_history s))%nat /\
  Exists zero_target (last_n 100 (performance_history s)).
Proof.
  split.
  - intros H.
    destruct (Nat.lt_ge_cases (length (performance_history s)) 10)
      as [Hlt | Hge].
    + unfold _analyze_performance in H. apply Nat.ltb_lt in Hlt.
      rewrite Hlt in H. discriminate.
    + split; [assumption |].
      destruct (zero_or_nonzero (last_n 100 (performance_history s)))
        as [Hnz | Hz]; [| exact Hz].
      rewrite (analyze_window s Hge Hnz) in H. discriminate.
  - intros [Hge Hz]. unfold _analyze_performance.
    replace (length (performance_history s) <? 10)%nat with false
      by (symmetry; apply Nat.ltb_ge; exact Hge).
    now rewrite (collect_ratios_None _ Hz).
Qed.

(** X1. The analysis raises exactly when it has ten samples or more and
    one of the last hundred has a zero target. *)
Theorem analysis_raises_iff (s : System) :
  _analyze_performance s = None <->
  (10 <= length (performance_history s))%nat /\
  Exists (λ m, target m == 0) (last_n 100 (performance_history s)).
Proof. exact (analysis_None s). Qed.

(** X2. The rating raises exactly when one of the last fifty samples has a
    zero target. *)
Theorem rating_raises_iff (s : System) :
  get_performance_rating s = None <->
  Exists (λ m, target m == 0) (last_n 50 (performance_history s)).
Proof.
  split.
  - intros H.
    destruct (zero_or_nonzero (last_n 50 (performance_history s)))
      as [Hnz | Hz]; [| exact Hz].
    rewrite (rating_defined s Hnz) in H. discriminate.
  - intros Hz. unfold get_performance_rating.
    destruct (performance_history s) as [| m h] eqn:Hh.
    + inversion Hz.
    + destruct (last_n 50 (m :: h)) as [| m' w'] eqn:Ew; [inversion Hz |].
      now rewrite (mapM_ratio_None _ Hz).
Qed.

(** *** Selection and queueing *)

Lemma select_Some (system : string) (severity : Severity) (s : System)
    (a : nat) :
  _select_optimization_strategy system severity s = Some a ->
  exists n p,
    strategy_mapping !! system = Some n /\ n <> "" /\
    list_find (λ strategy, name <$> strategy_objects s !! strategy = Some n)
              (optimization_strategies s) = Some (p, a).
Proof.
  unfold _select_optimization_strategy. intros H.
  destruct (strategy_mapping !! system) as [n |]; [| discriminate].
  destruct (decide (n = "")); [discriminate |].
  apply fmap_Some in H as ([p a'] & Hfind & ->).
  exists n, p. auto.
Qed.

(** The selection reads the names of the objects behind the references of
    the registry, in order. *)
Lemma select_same (system : string) (severity severity' : Severity)
    (s s' : System) (a : nat) :
  _select_optimization_strategy system severity s = Some a ->
  (exists more,
     optimization_strategies s' = optimization_strategies s ++ more) ->
  Forall (λ b, name <$> strategy_objects s' !! b
               = name <$> strategy_objects s !! b)
         (optimization_strategies s) ->
  _select_optimization_strategy system severity' s' = Some a.
Proof.
  intros H (more & Hmore) Hsame.
  destruct (select_Some _ _ _ _ H) as (n & p & Hmap & Hn & Hfind).
  unfold _select_optimization_strategy. rewrite Hmap.
  destruct (decide (n = "")); [contradiction |].
  rewrite Hmore.
  apply list_find_Some in Hfind as (Hp & Ha & Hfirst).
  rewrite Forall_lookup in Hsame.
  erewrite list_find_app_l; [reflexivity |].
  apply list_find_Some. split; [exact Hp |]. split.
  - now rewrite (Hsame p a Hp).
  - intros j b Hj Hlt. rewrite (Hsame j b Hj). exact (Hfirst j b Hj Hlt).
Qed.

Lemma new_object_lookup (st : OptimizationStrategy) (s : System) (b : nat) :
  (b < length (strategy_objects s))%nat ->
  strategy_objects (snd (new_strategy st s)) !! b = strategy_objects s !! b.
Proof. intros Hb. cbn. now apply lookup_app_l. Qed.

(** X3. The strategy selected for a subsystem is the object behind the
    first reference of the registry whose object carries the name mapped
    to the subsystem, whatever the severity; and registering further
    strategies, new objects or objects that are registered already, even
    under the same name, does not change the selection. *)
Theorem select_first_mapped (system : string) (severity : Severity)
    (s : System) (a : nat) :
  refs_valid s ->
  _select_optimization_strategy system severity s = Some a ->
  (exists p st,
     optimization_strategies s !! p = Some a /\
     strategy_objects s !! a = Some st /\
     strategy_mapping !! system = Some (name st) /\
     forall j b st',
       (j < p)%nat ->
       optimization_strategies s !! j = Some b ->
       strategy_objects s !! b = Some st' ->
       name st' <> name st) /\
  (forall severity' strategy,
     _select_optimization_strategy system severity'
       (add_optimization_strategy strategy s) = Some a) /\
  (forall severity' argument,
     _select_optimization_strategy system severity'
       (exec_call s (CallAdd argument)) = Some a).
Proof.
  intros Hvalid H.
  destruct (select_Some _ _ _ _ H) as (n & p & Hmap & Hn & Hfind).
  split; [| split].
  - apply list_find_Some in Hfind as (Hp & Ha & Hfirst).
    apply fmap_Some in Ha as (st & Hst & ->).
    exists p, st. repeat split; try assumption.
    intros j b st' Hlt Hj Hb E. apply (Hfirst j b Hj Hlt).
    rewrite Hb. cbn. now rewrite E.
  - intros severity' strategy.
    apply (select_same system severity severity' s _ a H).
    + now exists [strategy].
    + now apply Forall_true.
  - intros severity' [st | i]; cbn [exec_call].
    + apply (select_same system severity severity' s _ a H).
      * now eexists.
      * eapply Forall_impl; [exact Hvalid |]. intros b Hb.
        cbn. now rewrite lookup_app_l.
    + destruct (optimization_strategies s !! i) as [strategy |];
        [| now apply (select_same system severity severity' s s a H);
             [exists []; rewrite app_nil_r | apply Forall_true]].
      apply (select_same system severity severity' s _ a H).
      * now exists [strategy].
      * now apply Forall_true.
Qed.

(** X3 on the initial registry: the renderer is served by the object at
    the address 0, also after a second renderer strategy is registered. *)
Lemma select_first_mapped_witness :
  _select_optimization_strategy "renderer" high SelfImprovement.__init__
    = Some 0%nat /\
  _select_optimization_strategy "renderer" medium
    (exec_call SelfImprovement.__init__
       (CallAdd (NewObject Session.custom_strategy))) = Some 0%nat.
Proof.
  assert (Hv : refs_valid SelfImprovement.__init__).
  { apply (bool_decide_unpack _). vm_compute. exact I. }
  assert (H : _select_optimization_strategy "renderer" high
                SelfImprovement.__init__ = Some 0%nat)
    by (vm_compute; reflexivity).
  split; [exact H |].
  apply (select_first_mapped "renderer" high SelfImprovement.__init__ 0
           Hv H).
Defined.

Lemma select_wf (system : string) (severity : Severity) (s : System)
    (a : nat) (now : Q) :
  _select_optimization_strategy system severity s = Some a ->
  wf_request s
    {| rq_strategy := a; rq_system := system; rq_severity := severity;
       rq_timestamp := now |}.
Proof.
  intros H. destruct (select_Some _ _ _ _ H) as (n & p & Hmap & _ & Hfind).
  apply list_find_Some in Hfind as (Hp & Ha & _).
  apply fmap_Some in Ha as (st & Hst & ->).
  split; [now apply (list_elem_of_lookup_2 _ p) |].
  now exists st.
Qed.

(** What [_apply_optimizations] does, in closed form. *)
Lemma apply_optimizations_closed (now : Q) (a : Analysis) (s : System) :
  optimization_queue (_apply_optimizations now a s) =
    optimization_queue s ++ omap (request_of now s) (bottlenecks a) /\
  optimization_strategies (_apply_optimizations now a s)
    = optimization_strategies s /\
  strategy_objects (_apply_optimizations now a s) = strategy_objects s /\
  stats (_apply_optimizations now a s) = stats s /\
  settings (_apply_optimizations now a s) = settings s /\
  last_adaptation_time (_apply_optimizations now a s)
    = last_adaptation_time s /\
  performance_trends (_apply_optimizations now a s) = performance_trends s /\
  improvement_suggestions (_apply_optimizations now a s)
    = improvement_suggestions s.
Proof.
  unfold _apply_optimizations. generalize (bottlenecks a).
  match goal with |- context [fold_left ?F _ _] => set (step := F) end.
  intros l. revert s. induction l as [| b l IH]; intros s.
  - simpl. now rewrite app_nil_r.
  - cbn [fold_left omap list_omap].
    destruct (IH (step s b)) as (Hq & Hs & Ho & Hst & Hse & Hl & Ht & Hsg).
    rewrite Hq, Hs, Ho, Hst, Hse, Hl, Ht, Hsg.
    clear Hq Hs Ho Hst Hse Hl Ht Hsg.
    assert (Hreq : omap (request_of now (step s b)) l
                   = omap (request_of now s) l).
    { unfold step, request_of, _select_optimization_strategy.
      now destruct (_ !! b_system b) as [n |];
        [destruct (decide (n = "")); [| destruct (snd <$> _)] |]. }
    rewrite Hreq. unfold step, request_of at 2.
    destruct (_select_optimization_strategy (b_system b) (b_severity b) s)
      as [i |]; cbn [fmap option_fmap option_map].
    + cbn [optimization_queue optimization_strategies strategy_objects
           stats settings last_adaptation_time performance_trends
           improvement_suggestions with_queue].
      rewrite <- app_assoc. repeat split.
    + repeat split.
Qed.

Lemma analysis_bottlenecks_NoDup (s : System) (a : Analysis) :
  _analyze_performance s = Some a -> NoDup (map b_system (bottlenecks a)).
Proof.
  intros H.
  destruct (Nat.lt_ge_cases (length (performance_history s)) 10)
    as [Hlt | Hge].
  - unfold _analyze_performance in H. apply Nat.ltb_lt in Hlt.
    rewrite Hlt in H. injection H as <-. constructor.
  - destruct (zero_or_nonzero (last_n 100 (performance_history s)))
      as [Hnz | Hz].
    + rewrite (analyze_window s Hge Hnz) in H. injection H as <-.
      cbn [bottlenecks analysis_of]. unfold bottlenecks_of.
      rewrite map_map. cbn [b_system bottleneck_of]. rewrite map_id.
      apply NoDup_filter, subsystems_NoDup.
    + assert (Hn : _analyze_performance s = None)
        by (apply analysis_None; now split).
      congruence.
Qed.

Lemma requests_systems (now : Q) (s : System) (l : list Bottleneck) :
  map rq_system (omap (request_of now s) l) `sublist_of` map b_system l.
Proof.
  induction l as [| b l IH]; [constructor |].
  cbn [omap list_omap map]. unfold request_of at 1.
  destruct (_select_optimization_strategy _ _ s); cbn.
  - now constructor.
  - now constructor.
Qed.

Lemma requests_wf (now : Q) (s : System) (l : list Bottleneck) :
  Forall (wf_request s) (omap (request_of now s) l).
Proof.
  apply Forall_forall. intros rq Hrq.
  apply list_elem_of_omap in Hrq as (b & _ & Hb). unfold request_of in Hb.
  apply fmap_Some in Hb as (i & Hsel & ->). now apply select_wf.
Qed.

Lemma mapped_systems (system name : string) :
  strategy_mapping !! system = Some name ->
  system ∈ ["renderer"; "physics"; "ai_behavior"; "content_generator";
            "networking"].
Proof.
  intros H. apply elem_of_list_to_map_2 in H.
  repeat (apply elem_of_cons in H as [H | H];
          [injection H as -> _; set_solver |]).
  inversion H.
Qed.

(** X4. An adaptation cycle, whether it returns or raises, only appends to
    the queue, behind the requests already there: at most one request per
    subsystem, each for a strategy of the registry mapped to that
    subsystem, hence at most five. *)
Theorem adaptation_appends_one_per_subsystem (now : Q) (s : System) :
  exists new,
    optimization_queue (state_of (_perform_adaptation now s)) =
      optimization_queue s ++ new /\
    NoDup (map rq_system new) /\
    Forall (wf_request s) new /\
    (length new <= 5)%nat.
Proof.
  assert (Hnew : exists new,
             optimization_queue (state_of (_perform_adaptation now s)) =
               optimization_queue s ++ new /\
             NoDup (map rq_system new) /\
             Forall (wf_request s) new).
  { unfold _perform_adaptation.
    set (s1 := with_stats (count_cycle (stats s)) s).
    destruct (_analyze_performance s1) as [a |] eqn:Ha.
    - cbn [state_of].
      destruct (update_baselines_frame
                  (if ltb (overall_performance a)
                          (optimization_threshold (settings s1))
                   then _apply_optimizations now a s1 else s1))
        as (Hq & _). rewrite Hq.
      destruct (ltb _ _).
      + destruct (apply_optimizations_closed now a s1) as (Hq1 & _).
        exists (omap (request_of now s1) (bottlenecks a)).
        split; [exact Hq1 |]. split.
        * apply (sublist_NoDup _ (map b_system (bottlenecks a)));
            [now apply (analysis_bottlenecks_NoDup s1) |].
          apply requests_systems.
        * apply (requests_wf now s1).
      + exists []. rewrite app_nil_r. repeat split; constructor.
    - exists []. cbn [state_of]. rewrite app_nil_r.
      repeat split; constructor. }
  destruct Hnew as (new & Hq & Hnd & Hwf). exists new.
  repeat split; try assumption.
  change 5%nat with (length ["renderer"; "physics"; "ai_behavior";
                             "content_generator"; "networking"]).
  rewrite <- (length_map rq_system new : length (map rq_system new) = _).
  apply submseteq_length, NoDup_submseteq; [assumption |].
  intros x Hx. apply list_elem_of_fmap in Hx as (rq & -> & Hrq).
  rewrite Forall_forall in Hwf.
  destruct (Hwf rq Hrq) as (_ & st & _ & Hmap).
  now apply (mapped_systems _ (name st)).
Qed.

(** *** How the phases of [update] compose *)

Section preservation.
Variable P : System -> Prop.
Variable ok : Call -> Prop.

Hypothesis P_count :
  forall s, P s -> P (with_stats (count_cycle (stats s)) s).
Hypothesis P_apply :
  forall now a s, P s -> P (_apply_optimizations now a s).
Hypothesis P_baselines : forall s, P s -> P (_update_baselines s).
Hypothesis P_last : forall x s, P s -> P (with_last_adaptation_time x s).
Hypothesis P_process :
  forall a now s, P s -> P (_process_optimization_queue a now s).
Hypothesis P_trends :
  forall s, P s -> P (state_of (_update_performance_trends s)).
Hypothesis P_suggestions :
  forall now s, P s -> P (_generate_improvement_suggestions now s).
Hypothesis P_record : forall c s, ok (CallRecord c) -> P s -> P (record c s).
Hypothesis P_add :
  forall strategy s,
    ok (CallAdd strategy) -> P s -> P (exec_call s (CallAdd strategy)).
Hypothesis P_clear : forall s, P s -> P (clear_performance_history s).

Lemma perform_adaptation_preserves (now : Q) (s : System) :
  P s -> P (state_of (_perform_adaptation now s)).
Proof.
  intros H. unfold _perform_adaptation.
  destruct (_analyze_performance _) as [a |]; cbn [state_of].
  - apply P_baselines. destruct (ltb _ _).
    + apply P_apply. now apply P_count.
    + now apply P_count.
  - now apply P_count.
Qed.

Lemma update_adaptation_preserves (t : Tick) (s : System) :
  P s -> P (state_of (update_adaptation t s)).
Proof.
  intros H. unfold update_adaptation. destruct (gtb _ _); [| exact H].
  pose proof (perform_adaptation_preserves (enqueue_time t) s H) as Hp.
  destruct (_perform_adaptation (enqueue_time t) s); cbn [bind state_of] in *.
  - now apply P_last.
  - exact Hp.
Qed.

Lemma update_preserves (dt : Q) (t : Tick) (s : System) :
  P s -> P (state_of (update dt t s)).
Proof.
  intros H. unfold update.
  pose proof (update_adaptation_preserves t s H) as Ha.
  destruct (update_adaptation t s) as [sa | sa]; cbn [bind state_of] in *;
    [| exact Ha].
  pose proof (P_process (attempt t) (applied_time t) sa Ha) as Hp.
  set (sp := _process_optimization_queue _ _ sa) in *.
  pose proof (P_trends sp Hp) as Ht.
  destruct (_update_performance_trends sp) as [st | st];
    cbn [bind state_of] in *; [| exact Ht].
  destruct (enable_autonomous_optimization _); [| exact Ht].
  now apply P_suggestions.
Qed.

Lemma exec_calls_preserves (cs : list Call) :
  forall s : System, Forall ok cs -> P s -> P (exec_calls cs s).
Proof.
  induction cs as [| c cs IH]; intros s Hok H; [exact H |].
  apply Forall_cons in Hok as [Hc Hok].
  change (exec_calls (c :: cs) s) with (exec_calls cs (exec_call s c)).
  apply IH; [exact Hok |].
  destruct c as [c | dt t | strategy |].
  - now apply P_record.
  - now apply update_preserves.
  - now apply P_add.
  - now apply P_clear.
Qed.

End preservation.

(** Closes a goal about a phase that does not touch the fields the
    property reads. *)
Ltac untouched :=
  intros; try assumption;
  match goal with Hyp : _ |- _ => revert Hyp end;
  try unfold _update_performance_trends; try unfold _update_baselines;
  try unfold record; try unfold record_performance_metric;
  try unfold clear_performance_history;
  try match goal with
      | |- context [exec_call _ (CallAdd ?x)] =>
          destruct x; cbn [exec_call new_strategy]
      end;
  cbv zeta;
  repeat match goal with
         | |- context [if ?b then _ else _] => destruct b
         | |- context [let '(_, _) := ?p in _] => destruct p
         | |- context [optimization_strategies ?s0 !! ?i] =>
             destruct (optimization_strategies s0 !! i)
         end;
  let Hyp := fresh in intros Hyp; exact Hyp.

Ltac untouched_at f :=
  unfold f; try unfold record_performance_metric; cbv zeta;
  repeat match goal with
         | |- context [if ?b then _ else _] => destruct b
         end;
  reflexivity.

(** *** The queue refers to the registry *)

Lemma process_names (a : Attempt) (now : Q) (s : System) :
  name <$> strategy_objects (_process_optimization_queue a now s) =
    name <$> strategy_objects s /\
  optimization_strategies (_process_optimization_queue a now s) =
    optimization_strategies s.
Proof.
  unfold _process_optimization_queue.
  destruct (optimization_queue s) as [| rq rest]; [easy |].
  destruct a as [r |]; cbn; [| easy].
  split; [| reflexivity].
  rewrite !(list_fmap_alter name _ id) by (apply Forall_true; reflexivity).
  now rewrite !list_alter_id.
Qed.

(** Objects whose names are kept stay where they are. *)
Lemma names_kept (l l' : list OptimizationStrategy) (more : list string) :
  name <$> l' = (name <$> l) ++ more ->
  forall b st,
    l !! b = Some st -> exists st', l' !! b = Some st' /\ name st' = name st.
Proof.
  intros Hn b st Hb.
  assert (H : (name <$> l') !! b = Some (name st)).
  { rewrite Hn. apply lookup_app_l_Some. now rewrite list_lookup_fmap, Hb. }
  rewrite list_lookup_fmap in H. apply fmap_Some in H as (st' & Hb' & E).
  exists st'. split; [exact Hb' | congruence].
Qed.

Lemma wf_request_kept (s s' : System) (more : list nat)
    (added : list string) (rq : OptimizationRequest) :
  optimization_strategies s' = optimization_strategies s ++ more ->
  name <$> strategy_objects s' = (name <$> strategy_objects s) ++ added ->
  wf_request s rq -> wf_request s' rq.
Proof.
  intros Hr Hn (Hin & st & Hb & Hmap). split.
  - rewrite Hr. apply elem_of_app. now left.
  - destruct (names_kept _ _ _ Hn _ _ Hb) as (st' & Hb' & E).
    exists st'. split; [exact Hb' | congruence].
Qed.

Lemma queue_wf_apply (now : Q) (a : Analysis) (s : System) :
  queue_wf s -> queue_wf (_apply_optimizations now a s).
Proof.
  intros H. unfold queue_wf.
  destruct (apply_optimizations_closed now a s) as (Hq & Hs & Ho & _).
  rewrite Hq.
  eapply Forall_impl;
    [apply Forall_app; split; [exact H | apply requests_wf] |].
  intros rq. apply (wf_request_kept s _ [] []); rewrite app_nil_r;
    [exact Hs | now rewrite Ho].
Qed.

Lemma queue_wf_process (a : Attempt) (now : Q) (s : System) :
  queue_wf s -> queue_wf (_process_optimization_queue a now s).
Proof.
  intros H. unfold queue_wf.
  rewrite SelfImprovementFacts.process_queue.
  destruct (process_names a now s) as [Hn Hr].
  eapply Forall_impl; [apply Forall_tail; exact H |].
  intros rq. apply (wf_request_kept s _ [] []); rewrite app_nil_r;
    assumption.
Qed.

Lemma queue_wf_add (strategy : Argument) (s : System) :
  queue_wf s -> queue_wf (exec_call s (CallAdd strategy)).
Proof.
  intros H. unfold queue_wf. destruct strategy as [st | i]; cbn [exec_call].
  - cbn. eapply Forall_impl; [exact H |]. intros rq.
    apply (wf_request_kept s _ [length (strategy_objects s)] [name st]);
      cbn; [reflexivity | now rewrite fmap_app].
  - destruct (optimization_strategies s !! i) as [a |]; [| exact H].
    cbn. eapply Forall_impl; [exact H |]. intros rq.
    apply (wf_request_kept s _ [a] []); cbn;
      [reflexivity | now rewrite app_nil_r].
Qed.

Lemma queue_wf_preserved (cs : list Call) (s : System) :
  queue_wf s -> queue_wf (exec_calls cs s).
Proof.
  intros H.
  apply (exec_calls_preserves queue_wf (λ _, True)); try untouched.
  - apply queue_wf_apply.
  - apply queue_wf_process.
  - intros strategy s0 _. apply queue_wf_add.
  - apply Forall_forall. auto.
Qed.

(** X5. In every state that calls of the public methods reach from one
    whose queued requests refer to the registry, each queued request still
    refers to a strategy object that is in the registry and carries the
    name mapped to the subsystem of the request: applying a request always
    finds its strategy. *)
Theorem queue_refers_to_registry (cs : list Call) (s : System) :
  queue_wf s ->
  Forall (λ rq,
            rq_strategy rq ∈ optimization_strategies (exec_calls cs s) /\
            exists st,
              strategy_objects (exec_calls cs s) !! rq_strategy rq
                = Some st /\
              strategy_mapping !! rq_system rq = Some (name st))
         (optimization_queue (exec_calls cs s)).
Proof. apply queue_wf_preserved. Qed.

(** X5 on a session from three queued requests. *)
Lemma queue_refers_to_registry_witness :
  queue_wf Scenario.three_requests /\
  Forall (wf_request (exec_calls Session.calls Scenario.three_requests))
         (optimization_queue
            (exec_calls Session.calls Scenario.three_requests)).
Proof.
  assert (H : queue_wf Scenario.three_requests).
  { repeat (apply Forall_cons_2;
            [split;
             [apply (bool_decide_unpack _); vm_compute; exact I
             | eexists; split; [reflexivity | vm_compute; reflexivity]] |]).
    apply Forall_nil_2. }
  split; [exact H |].
  exact (queue_refers_to_registry Session.calls Scenario.three_requests H).
Defined.

(** *** The registry only grows *)

Lemma update_names (dt : Q) (t : Tick) (s : System) :
  name <$> strategy_objects (state_of (update dt t s)) =
    name <$> strategy_objects s /\
  optimization_strategies (state_of (update dt t s)) =
    optimization_strategies s.
Proof.
  apply (update_preserves
           (λ s', name <$> strategy_objects s' = name <$> strategy_objects s
                  /\ optimization_strategies s' = optimization_strategies s));
    try untouched; try easy.
  - intros now a s0 [H1 H2].
    destruct (apply_optimizations_closed now a s0) as (_ & Hs & Ho & _).
    now rewrite Hs, Ho.
  - intros a now s0 [H1 H2].
    destruct (process_names a now s0) as [Hn Hr]. now rewrite Hn, Hr.
Qed.

(** With references that refer to objects, a loop over the registry meets
    an object at every position. *)
Lemma omap_lookup_valid (names : list string) (refs : list nat) :
  Forall (λ a, (a < length names)%nat) refs ->
  forall i : nat,
    omap (λ a, names !! a) refs !! i = refs !! i ≫= λ a, names !! a.
Proof.
  induction 1 as [| a refs Ha _ IH]; intros i; [reflexivity |].
  cbn [omap list_omap].
  destruct (names !! a) as [n |] eqn:E;
    [| apply lookup_ge_None in E; lia].
  destruct i as [| i]; cbn; [now rewrite E | apply IH].
Qed.

Lemma omap_lookup_more (names more : list string) (refs : list nat) :
  Forall (λ a, (a < length names)%nat) refs ->
  omap (λ a, (names ++ more) !! a) refs = omap (λ a, names !! a) refs.
Proof.
  induction 1 as [| a refs Ha _ IH]; [reflexivity |].
  cbn [omap list_omap]. rewrite IH, lookup_app_l by exact Ha. reflexivity.
Qed.

Lemma registered_names (s : System) :
  name <$> registered s =
    omap (λ a, (name <$> strategy_objects s) !! a)
         (optimization_strategies s).
Proof.
  unfold registered.
  induction (optimization_strategies s) as [| a l IH]; [reflexivity |].
  cbn [omap list_omap]. rewrite list_lookup_fmap.
  destruct (strategy_objects s !! a); cbn; [now rewrite IH | exact IH].
Qed.

Lemma added_names_cons (names : list string) (c : Call) (cs : list Call) :
  added_names names (c :: cs) =
    added_names names [c]
      ++ added_names (names ++ added_names names [c]) cs.
Proof.
  destruct c as [c | dt t | [st | i] |]; cbn [added_names];
    rewrite ?app_nil_r; try reflexivity.
  destruct (names !! i); cbn; now rewrite ?app_nil_r.
Qed.

(** What one call does to the registry. *)
Lemma exec_call_registry (c : Call) (s : System) :
  refs_valid s ->
  refs_valid (exec_call s c) /\
  name <$> registered (exec_call s c) =
    (name <$> registered s) ++ added_names (name <$> registered s) [c].
Proof.
  intros Hv.
  assert (Hsame : forall s' : System,
             name <$> strategy_objects s' = name <$> strategy_objects s ->
             optimization_strategies s' = optimization_strategies s ->
             refs_valid s' /\
             name <$> registered s' = (name <$> registered s) ++ []).
  { intros s' Hn Hr. split.
    - unfold refs_valid in *. rewrite Hr.
      apply (f_equal length) in Hn. rewrite !length_fmap in Hn.
      now rewrite Hn.
    - now rewrite app_nil_r, !registered_names, Hn, Hr. }
  assert (Hvn : Forall (λ a, (a < length (name <$> strategy_objects s))%nat)
                  (optimization_strategies s)).
  { unfold refs_valid in Hv. now rewrite length_fmap. }
  destruct c as [c | dt t | [st | i] |]; cbn [exec_call added_names].
  - apply Hsame; untouched_at record.
  - destruct (update_names dt t s). now apply Hsame.
  - split.
    + unfold refs_valid in *. cbn. rewrite length_app. cbn.
      apply Forall_app. split.
      * eapply Forall_impl; [exact Hv |]. intros a Ha. cbn in Ha. lia.
      * apply Forall_singleton. lia.
    + rewrite !registered_names. cbn. rewrite fmap_app, omap_app.
      rewrite (omap_lookup_more _ _ _ Hvn). f_equal.
      cbn [omap list_omap].
      rewrite lookup_app_r by (rewrite length_fmap; lia).
      rewrite length_fmap, Nat.sub_diag. reflexivity.
  - assert (Hi : (name <$> registered s) !! i =
                 optimization_strategies s !! i
                   ≫= λ a, (name <$> strategy_objects s) !! a).
    { rewrite registered_names. apply (omap_lookup_valid _ _ Hvn). }
    rewrite Hi. clear Hi.
    destruct (optimization_strategies s !! i) as [a |] eqn:Ei; cbn [mbind option_bind].
    + assert (Ha : (a < length (strategy_objects s))%nat).
      { unfold refs_valid in Hv. rewrite Forall_lookup in Hv.
        exact (Hv i a Ei). }
      destruct (strategy_objects s !! a) as [st |] eqn:Ea;
        [| apply lookup_ge_None in Ea; lia].
      rewrite list_lookup_fmap, Ea. cbn. split.
      * unfold refs_valid in *. cbn. apply Forall_app. split;
          [exact Hv | now apply Forall_singleton].
      * unfold registered. cbn. rewrite omap_app. cbn [omap list_omap].
        rewrite Ea, fmap_app. reflexivity.
    + split; [exact Hv | now rewrite app_nil_r].
  - apply Hsame; reflexivity.
Qed.

(** X6. From a registry whose references refer to objects, calls of the
    public methods never remove, reorder or rename a strategy of the
    registry: the names that a loop over the registry meets after the
    calls are the names before, followed by the names of the strategies
    registered, new or registered again, in order. *)
Theorem registry_append_only (cs : list Call) (s : System) :
  refs_valid s ->
  name <$> registered (exec_calls cs s) =
  (name <$> registered s) ++ added_names (name <$> registered s) cs.
Proof.
  revert s. induction cs as [| c cs IH]; intros s Hv.
  - simpl. now rewrite app_nil_r.
  - change (exec_calls (c :: cs) s) with (exec_calls cs (exec_call s c)).
    destruct (exec_call_registry c s Hv) as [Hv' Hn].
    rewrite (IH _ Hv'), Hn, (added_names_cons _ c cs), app_assoc.
    reflexivity.
Qed.

(** X6 on a session from the initial system: the renderer strategy is
    met a second and a third time. *)
Lemma registry_append_only_witness :
  refs_valid SelfImprovement.__init__ /\
  name <$> registered (exec_calls Session.calls SelfImprovement.__init__) =
    (name <$> registered SelfImprovement.__init__)
      ++ ["rendering_quality_adjustment"; "rendering_quality_adjustment"].
Proof.
  assert (Hv : refs_valid SelfImprovement.__init__).
  { apply (bool_decide_unpack _). vm_compute. exact I. }
  split; [exact Hv |].
  rewrite (registry_append_only Session.calls SelfImprovement.__init__ Hv).
  f_equal.
Defined.

(** *** Bounds kept by every call *)

Lemma length_pop0 {A} (l : list A) : length (pop0 l) = (length l - 1)%nat.
Proof. destruct l; simpl; lia. Qed.

Lemma trends_loop_bounded (w : list PerformanceMetric) :
  forall d : list (string * list Q),
    Forall (λ item, (length (snd item) <= 100)%nat) d ->
    Forall (λ item, (length (snd item) <= 100)%nat) (fst (trends_loop w d)).
Proof.
  induction w as [| m w IH]; intros d Hd; [exact Hd |].
  cbn [trends_loop].
  set (t := if od_mem (system_name m) d then d
            else od_set (system_name m) [] d).
  assert (Ht : Forall (λ item, (length (snd item) <= 100)%nat) t).
  { unfold t. destruct (od_mem _ _); [exact Hd |].
    apply od_set_Forall; [simpl; lia | exact Hd]. }
  destruct (ratio m) as [r |]; [| exact Ht].
  apply IH. apply od_set_Forall; [| exact Ht]. cbn [snd].
  assert (Hl : (length (default [] (od_get (system_name m) t)) <= 100)%nat).
  { destruct (od_get (system_name m) t) as [l |] eqn:E; [| simpl; lia].
    apply od_get_elem in E. rewrite Forall_forall in Ht.
    exact (Ht _ E). }
  destruct (100 <? _)%nat eqn:E.
  - rewrite length_pop0, length_app. simpl. lia.
  - apply Nat.ltb_ge in E. exact E.
Qed.

(** X7. No trend sequence ever holds more than a hundred ratios: the bound
    survives every call of the public methods, also the calls of [update]
    that raise in the middle of the trend loop. *)
Theorem trends_stay_bounded (cs : list Call) (s : System) :
  trends_bounded s -> trends_bounded (exec_calls cs s).
Proof.
  intros H.
  apply (exec_calls_preserves trends_bounded (λ _, True)); try untouched.
  - intros now a s0 H0. unfold trends_bounded.
    destruct (apply_optimizations_closed now a s0)
      as (_ & _ & _ & _ & _ & _ & Ht & _).
    now rewrite Ht.
  - intros a now s0 H0. unfold trends_bounded, _process_optimization_queue.
    destruct (optimization_queue s0); [exact H0 |].
    destruct a; exact H0.
  - intros s0 H0. unfold _update_performance_trends.
    destruct (_ <? _)%nat; [exact H0 |].
    pose proof (trends_loop_bounded
                  (last_n 50 (performance_history s0)) _ H0) as Hl.
    destruct (trends_loop _ _) as [tr []]; exact Hl.
  - intros s0 _. apply Forall_nil_2.
  - apply Forall_forall. auto.
Qed.

(** X7 on a session from the initial system. *)
Lemma trends_stay_bounded_witness :
  trends_bounded SelfImprovement.__init__ /\
  trends_bounded (exec_calls Session.calls SelfImprovement.__init__).
Proof.
  assert (H : trends_bounded SelfImprovement.__init__) by apply Forall_nil_2.
  split; [exact H |].
  exact (trends_stay_bounded Session.calls SelfImprovement.__init__ H).
Defined.

(** X8. When the strategy objects of the system and the new objects that
    get registered have an effectiveness in [0,1], every strategy object
    has one in [0,1] after any calls of the public methods, also when an
    object is registered a second time. *)
Theorem effectiveness_stays_bounded (cs : list Call) (s : System) :
  effectiveness_bounded s ->
  Forall adds_bounded cs ->
  effectiveness_bounded (exec_calls cs s).
Proof.
  intros H Hcs.
  apply (exec_calls_preserves effectiveness_bounded adds_bounded);
    try untouched.
  - intros now a s0 H0. unfold effectiveness_bounded.
    destruct (apply_optimizations_closed now a s0) as (_ & _ & Ho & _).
    now rewrite Ho.
  - intros a now s0 H0. unfold effectiveness_bounded,
      _process_optimization_queue.
    destruct (optimization_queue s0) as [| rq rest]; [exact H0 |].
    destruct a as [r |]; [| exact H0]. cbn.
    apply Forall_alter; [apply Forall_alter; [exact H0 |] |].
    + intros st _ Hst. cbn.
      destruct (gtb r 0.3);
        [now apply SelfImprovementFacts.success_in_unit
        | now apply SelfImprovementFacts.failure_in_unit].
    + intros st _ Hst. exact Hst.
  - intros [st | i] s0 Hst H0; unfold effectiveness_bounded;
      cbn [exec_call].
    + cbn. apply Forall_app. split; [exact H0 | now apply Forall_singleton].
    + now destruct (optimization_strategies s0 !! i).
Qed.

(** X8 on a session from the initial system. *)
Lemma effectiveness_stays_bounded_witness :
  effectiveness_bounded SelfImprovement.__init__ /\
  Forall adds_bounded Session.calls /\
  effectiveness_bounded (exec_calls Session.calls SelfImprovement.__init__).
Proof.
  assert (H : effectiveness_bounded SelfImprovement.__init__).
  { repeat (apply Forall_cons_2; [split; discriminate |]).
    apply Forall_nil_2. }
  assert (Hcs : Forall adds_bounded Session.calls).
  { apply Forall_app. split.
    - apply Forall_replicate. exact I.
    - repeat (apply Forall_cons_2;
              [first [exact I | split; discriminate] |]).
      apply Forall_nil_2. }
  split; [exact H |]. split; [exact Hcs |].
  exact (effectiveness_stays_bounded Session.calls
           SelfImprovement.__init__ H Hcs).
Defined.

(** X9. The history stays within its capacity under every call of the
    public methods, not only under recordings. *)
Theorem history_stays_bounded (cs : list Call) (s : System) :
  history_bounded s -> history_bounded (exec_calls cs s).
Proof.
  intros H.
  apply (exec_calls_preserves history_bounded (λ _, True)); try untouched.
  - intros now a s0 [H1 H2]. unfold history_bounded.
    destruct (apply_optimizations_closed now a s0)
      as (_ & _ & _ & _ & Hse & _).
    destruct (BaselineFacts.apply_optimizations_frame now a s0) as [Hh _].
    now rewrite Hse, Hh.
  - intros a now s0 H0. unfold history_bounded, _process_optimization_queue.
    destruct (optimization_queue s0); [exact H0 |].
    destruct a; exact H0.
  - intros c s0 _ [H1 H2]. unfold history_bounded.
    rewrite SelfImprovementFacts.record_settings,
      (SelfImprovementFacts.record_history c s0 H1 H2), length_last_n.
    split; [assumption | lia].
  - intros s0 [H1 H2]. split; [exact H1 | simpl; lia].
  - apply Forall_forall. auto.
Qed.

(** X9 on a session from the initial system. *)
Lemma history_stays_bounded_witness :
  history_bounded SelfImprovement.__init__ /\
  history_bounded (exec_calls Session.calls SelfImprovement.__init__).
Proof.
  assert (H : history_bounded SelfImprovement.__init__)
    by (split; simpl; lia).
  split; [exact H |].
  exact (history_stays_bounded Session.calls SelfImprovement.__init__ H).
Defined.

(** *** The counters *)

Lemma applications_alter (f : OptimizationStrategy -> OptimizationStrategy)
    (l : list OptimizationStrategy) :
  forall (i : nat) (st : OptimizationStrategy),
    l !! i = Some st ->
    (fold_right (λ st acc, application_count st + acc) 0 (alter f i l) =
     fold_right (λ st acc, application_count st + acc) 0 l
       - application_count st + application_count (f st))%Z.
Proof.
  induction l as [| x l IH]; intros [| i] st H; try discriminate.
  - injection H as ->. cbn. lia.
  - cbn in *. rewrite (IH i st H). lia.
Qed.

Lemma accounted_process (k : Z) (a : Attempt) (now : Q) (s : System) :
  accounted k s -> accounted k (_process_optimization_queue a now s).
Proof.
  intros [Hwf Hk]. split; [now apply queue_wf_process |].
  unfold total_applications in *. unfold _process_optimization_queue.
  destruct (optimization_queue s) as [| rq rest] eqn:Hq; [exact Hk |].
  unfold queue_wf in Hwf. rewrite Hq in Hwf.
  apply Forall_cons in Hwf as [(_ & st & Hi & _) _].
  destruct a as [r |]; cbn; [| exact Hk].
  set (f := λ st0 : OptimizationStrategy, set_effectiveness _ st0).
  rewrite (applications_alter (mark_applied now) _ _ (f st))
    by (rewrite list_lookup_alter_eq, Hi; reflexivity).
  rewrite (applications_alter f _ _ st Hi). cbn. lia.
Qed.

(** X10. From a state whose queue refers to the registry, and as long as
    the new objects that get registered have not been applied yet, the
    difference between the applications that the strategy objects record,
    each object counted once, and the counter [optimizations_applied]
    never changes, also when an object is registered a second time; from
    the initial system the two are equal. *)
Theorem applications_accounted (cs : list Call) (s : System) :
  queue_wf s ->
  Forall adds_fresh cs ->
  (total_applications (exec_calls cs s)
     - optimizations_applied (stats (exec_calls cs s)) =
   total_applications s - optimizations_applied (stats s))%Z.
Proof.
  intros Hwf Hcs.
  apply (exec_calls_preserves
           (accounted (total_applications s
                         - optimizations_applied (stats s))) adds_fresh);
    try untouched.
  - intros now a s0 [H1 H2]. split; [now apply queue_wf_apply |].
    unfold total_applications in *.
    destruct (apply_optimizations_closed now a s0) as (_ & _ & Ho & Hst & _).
    now rewrite Ho, Hst.
  - apply accounted_process.
  - intros strategy s0 Hst [H1 H2]. split; [now apply queue_wf_add |].
    destruct strategy as [st | i]; cbn [exec_call].
    + unfold total_applications in *. cbn in *.
      rewrite fold_right_app. cbn. rewrite Hst.
      rewrite <- H2. f_equal.
    + now destruct (optimization_strategies s0 !! i).
  - now split.
Qed.

(** X10 on a session from the initial system, in which the renderer
    strategy is registered a second time and then applied: the counter
    equals the sum of the applications. *)
Lemma applications_accounted_witness :
  queue_wf SelfImprovement.__init__ /\
  Forall adds_fresh Session.calls /\
  optimization_strategies
    (exec_calls Session.calls SelfImprovement.__init__)
    = [0; 1; 2; 3; 4; 5; 0]%nat /\
  optimizations_applied
    (stats (exec_calls Session.calls SelfImprovement.__init__)) = 2%Z /\
  total_applications (exec_calls Session.calls SelfImprovement.__init__) =
  optimizations_applied
    (stats (exec_calls Session.calls SelfImprovement.__init__)).
Proof.
  assert (H : queue_wf SelfImprovement.__init__) by apply Forall_nil_2.
  assert (Hcs : Forall adds_fresh Session.calls).
  { apply Forall_app. split.
    - apply Forall_replicate. exact I.
    - repeat (apply Forall_cons_2; [first [exact I | reflexivity] |]).
      apply Forall_nil_2. }
  split; [exact H |]. split; [exact Hcs |].
  split; [vm_compute; reflexivity |]. split; [vm_compute; reflexivity |].
  pose proof (applications_accounted Session.calls
                SelfImprovement.__init__ H Hcs) as E.
  change (total_applications SelfImprovement.__init__) with 0%Z in E.
  change (optimizations_applied (stats SelfImprovement.__init__))
    with 0%Z in E.
  lia.
Defined.

(** *** When [update] raises *)

Lemma perform_adaptation_raises (now : Q) (s : System) :
  (10 <= length (performance_history s))%nat ->
  Exists zero_target (last_n 100 (performance_history s)) ->
  _perform_adaptation now s = Raised (with_stats (count_cycle (stats s)) s).
Proof.
  intros Hlen Hz. unfold _perform_adaptation.
  assert (H : _analyze_performance (with_stats (count_cycle (stats s)) s)
              = None) by (apply analysis_None; now split).
  now rewrite H.
Qed.

Lemma update_raises (dt : Q) (t : Tick) (s : System) :
  (10 <= length (performance_history s))%nat ->
  Exists zero_target (last_n 100 (performance_history s)) ->
  due t s ->
  update dt t s = Raised (with_stats (count_cycle (stats s)) s).
Proof.
  intros Hlen Hz Hdue. unfold update, update_adaptation, gtb.
  apply ltb_lt in Hdue. rewrite Hdue.
  now rewrite (perform_adaptation_raises _ s Hlen Hz).
Qed.

(** X11. With ten samples or more and a zero target among the last
    hundred, every call of [update] at which the adaptation is due raises
    before the queue is processed and before the time of the last
    adaptation is stored: over any number of such calls the queue, the
    counters of applied and failed optimizations and the history stay as
    they are, and only the count of learning cycles grows. *)
Theorem zero_target_stalls_updates (dt : Q) (ticks : list Tick) (s : System) :
  (10 <= length (performance_history s))%nat ->
  Exists (λ m, target m == 0) (last_n 100 (performance_history s)) ->
  Forall (λ t, adaptation_interval (settings s)
               < current_time t - last_adaptation_time s) ticks ->
  optimization_queue (run_updates dt ticks s) = optimization_queue s /\
  optimizations_applied (stats (run_updates dt ticks s))
    = optimizations_applied (stats s) /\
  failed_optimizations (stats (run_updates dt ticks s))
    = failed_optimizations (stats s) /\
  learning_cycles (stats (run_updates dt ticks s))
    = (learning_cycles (stats s) + Z.of_nat (length ticks))%Z /\
  last_adaptation_time (run_updates dt ticks s) = last_adaptation_time s /\
  performance_history (run_updates dt ticks s) = performance_history s /\
  Forall (λ t, exists s', update dt t s = Raised s') ticks.
Proof.
  intros Hlen Hz Hdue.
  assert (Hraise : Forall (λ t, exists s', update dt t s = Raised s') ticks).
  { eapply Forall_impl; [exact Hdue |]. intros t Ht. eexists.
    now apply update_raises. }
  revert s Hlen Hz Hdue Hraise.
  induction ticks as [| t rest IH]; intros s Hlen Hz Hdue Hraise.
  - cbn. repeat split; [lia | constructor].
  - apply Forall_cons in Hdue as [Ht Hdue].
    change (run_updates dt (t :: rest) s)
      with (run_updates dt rest (state_of (update dt t s))).
    rewrite (update_raises dt t s Hlen Hz Ht). cbn [state_of].
    set (s1 := with_stats (count_cycle (stats s)) s) in *.
    assert (Hraise1 : Forall (λ t, exists s', update dt t s1 = Raised s')
                        rest).
    { eapply Forall_impl; [exact Hdue |]. intros t0 Ht0. eexists.
      now apply (update_raises dt t0 s1). }
    destruct (IH s1 Hlen Hz Hdue Hraise1)
      as (H1 & H2 & H3 & H4 & H5 & H6 & _).
    rewrite H1, H2, H3, H4, H5, H6. cbn.
    repeat split; [lia | exact Hraise].
Qed.

(** X11 on twenty samples, the last with a zero target, and two due
    ticks. *)
Lemma zero_target_stalls_updates_witness :
  (10 <= length (performance_history Session.poisoned))%nat /\
  Exists (λ m, target m == 0)
         (last_n 100 (performance_history Session.poisoned)) /\
  optimization_queue
    (run_updates 0.016 [Scenario.tick_success; Scenario.tick_failure]
       Session.poisoned) = optimization_queue Session.poisoned /\
  learning_cycles
    (stats (run_updates 0.016 [Scenario.tick_success; Scenario.tick_failure]
              Session.poisoned)) = 2%Z.
Proof.
  assert (H1 : (10 <= length (performance_history Session.poisoned))%nat)
    by (vm_compute; lia).
  assert (H2 : Exists (λ m, target m == 0)
                 (last_n 100 (performance_history Session.poisoned))).
  { vm_compute. apply Exists_cons_hd. reflexivity. }
  assert (H3 : Forall (λ t, adaptation_interval (settings Session.poisoned)
                            < current_time t
                              - last_adaptation_time Session.poisoned)
                 [Scenario.tick_success; Scenario.tick_failure]).
  { repeat (apply Forall_cons_2; [reflexivity |]). apply Forall_nil_2. }
  split; [exact H1 |]. split; [exact H2 |].
  destruct (zero_target_stalls_updates 0.016
              [Scenario.tick_success; Scenario.tick_failure]
              Session.poisoned H1 H2 H3) as (Hq & _ & _ & Hc & _).
  split; [exact Hq | exact Hc].
Defined.

Lemma trends_loop_returns (w : list PerformanceMetric) :
  Forall nonzero_target w ->
  forall d : list (string * list Q), snd (trends_loop w d) = false.
Proof.
  induction 1 as [| m w Hm _ IH]; intros d; [reflexivity |].
  cbn [trends_loop]. rewrite (ratio_Some m Hm). apply IH.
Qed.

Lemma process_history (a : Attempt) (now : Q) (s : System) :
  performance_history (_process_optimization_queue a now s)
    = performance_history s.
Proof.
  unfold _process_optimization_queue.
  destruct (optimization_queue s); [reflexivity |]. now destruct a.
Qed.

Lemma update_history (dt : Q) (t : Tick) (s : System) :
  performance_history (state_of (update dt t s)) = performance_history s.
Proof.
  apply (update_preserves
           (λ s', performance_history s' = performance_history s));
    try untouched; try reflexivity.
  - intros now a s0 H0.
    destruct (BaselineFacts.apply_optimizations_frame now a s0) as [Hh _].
    congruence.
  - intros a now s0 H0. now rewrite process_history.
Qed.

Lemma adaptation_history (t : Tick) (s : System) :
  performance_history (state_of (update_adaptation t s))
    = performance_history s.
Proof.
  apply (update_adaptation_preserves
           (λ s', performance_history s' = performance_history s));
    try untouched; try reflexivity.
  intros now a s0 H0.
  destruct (BaselineFacts.apply_optimizations_frame now a s0) as [Hh _].
  congruence.
Qed.

Lemma zero_and_nonzero (l : list PerformanceMetric) :
  Forall nonzero_target l -> Exists zero_target l -> False.
Proof.
  intros Hnz Hz. induction Hz as [m w Hm | m w _ IH].
  - apply Forall_cons in Hnz as [Hm' _]. now apply Hm'.
  - apply Forall_cons in Hnz as [_ Hnz]. now apply IH.
Qed.

Lemma adaptation_returns (t : Tick) (s : System) :
  Forall nonzero_target (last_n 100 (performance_history s)) ->
  exists sa, update_adaptation t s = Done sa.
Proof.
  intros Hnz. unfold update_adaptation. destruct (gtb _ _); [| now exists s].
  unfold _perform_adaptation.
  destruct (_analyze_performance _) as [a |] eqn:Han.
  - cbn [bind]. eexists. reflexivity.
  - apply analysis_None in Han as [_ Hz]. exfalso.
    exact (zero_and_nonzero _ Hnz Hz).
Qed.

(** X12. A call of [update] raises only when one of the last hundred
    samples has a zero target; in particular the first call after
    [clear_performance_history] returns, and the rating is then 1.0. *)
Theorem update_raises_only_on_zero_target (dt : Q) (t : Tick) (s : System) :
  (forall s', update dt t s = Raised s' ->
     Exists (λ m, target m == 0) (last_n 100 (performance_history s))) /\
  (exists s', update dt t (clear_performance_history s) = Done s') /\
  get_performance_rating (clear_performance_history s) = Some 1.
Proof.
  assert (Hret : forall s0 : System,
             Forall nonzero_target (last_n 100 (performance_history s0)) ->
             exists s', update dt t s0 = Done s').
  { intros s0 Hnz. unfold update.
    assert (Ha : exists sa, update_adaptation t s0 = Done sa /\
                            performance_history sa = performance_history s0).
    { pose proof (adaptation_history t s0) as Hh.
      destruct (adaptation_returns t s0 Hnz) as (sa & Ha).
      rewrite Ha in Hh. now exists sa. }
    destruct Ha as (sa & -> & Hh). cbn [bind].
    set (sp := _process_optimization_queue _ _ sa).
    assert (Hp : performance_history sp = performance_history s0).
    { unfold sp. now rewrite process_history. }
    unfold _update_performance_trends.
    destruct (_ <? _)%nat; cbn [bind]; [eexists; reflexivity |].
    assert (Hl : snd (trends_loop (last_n 50 (performance_history sp))
                        (performance_trends sp)) = false).
    { apply trends_loop_returns. rewrite Hp.
      rewrite <- (BaselineFacts.last_n_last_n 50 100) by lia.
      now apply last_n_Forall. }
    destruct (trends_loop _ _) as [tr raised]. cbn in Hl. subst raised.
    cbn [bind]. eexists. reflexivity. }
  split; [| split].
  - intros s' Hr.
    destruct (zero_or_nonzero (last_n 100 (performance_history s)))
      as [Hnz | Hz]; [| exact Hz].
    destruct (Hret s Hnz) as (s'' & Hd). congruence.
  - apply Hret. apply Forall_nil_2.
  - reflexivity.
Qed.

(** *** One adaptation per interval *)

Lemma update_settings (dt : Q) (t : Tick) (s : System) :
  settings (state_of (update dt t s)) = settings s.
Proof.
  apply (update_preserves (λ s', settings s' = settings s));
    try untouched; try reflexivity.
  - intros now a s0 H0.
    destruct (apply_optimizations_closed now a s0)
      as (_ & _ & _ & _ & Hse & _).
    congruence.
  - intros a now s0 H0. unfold _process_optimization_queue.
    destruct (optimization_queue s0); [exact H0 |]. now destruct a.
Qed.

Lemma update_tail_frame (dt : Q) (t : Tick) (s sa : System) :
  update_adaptation t s = Done sa ->
  last_adaptation_time (state_of (update dt t s)) = last_adaptation_time sa /\
  learning_cycles (stats (state_of (update dt t s)))
    = learning_cycles (stats sa).
Proof.
  intros Ha. unfold update. rewrite Ha. cbn [bind].
  set (sp := _process_optimization_queue _ _ sa).
  assert (Hp : last_adaptation_time sp = last_adaptation_time sa /\
               learning_cycles (stats sp) = learning_cycles (stats sa)).
  { unfold sp, _process_optimization_queue.
    destruct (optimization_queue sa); [now split |].
    destruct (attempt t); now split. }
  unfold _update_performance_trends.
  destruct (_ <? _)%nat; cbn [bind state_of].
  - now destruct (enable_autonomous_optimization _).
  - destruct (trends_loop _ _) as [tr []]; cbn [bind state_of];
      [exact Hp |].
    now destruct (enable_autonomous_optimization _).
Qed.

(** X13. After a call of [update] that ran the adaptation and returned,
    a call within one adaptation interval of it runs no adaptation: the
    count of learning cycles stays, and the queue only loses its head. *)
Theorem one_adaptation_per_interval (dt dt' : Q) (t t' : Tick)
    (s s1 : System) :
  update dt t s = Done s1 ->
  adaptation_interval (settings s)
    < current_time t - last_adaptation_time s ->
  current_time t' - current_time t <= adaptation_interval (settings s) ->
  last_adaptation_time s1 = current_time t /\
  learning_cycles (stats (state_of (update dt' t' s1)))
    = learning_cycles (stats s1) /\
  optimization_queue (state_of (update dt' t' s1))
    = tail (optimization_queue s1).
Proof.
  intros Hd Hdue Hnear.
  assert (Hs : settings s1 = settings s).
  { change s1 with (state_of (Done s1)). rewrite <- Hd.
    apply update_settings. }
  assert (Hl : last_adaptation_time s1 = current_time t).
  { assert (Ha : exists sa, update_adaptation t s = Done sa /\
                            last_adaptation_time sa = current_time t).
    { unfold update in Hd. unfold update_adaptation in *.
      apply ltb_lt in Hdue. unfold gtb in *. rewrite Hdue in *.
      destruct (_perform_adaptation (enqueue_time t) s) as [sp | sp];
        cbn [bind] in *; [| discriminate].
      eexists. split; reflexivity. }
    destruct Ha as (sa & Ha & Hsa).
    destruct (update_tail_frame dt t s sa Ha) as [Hlast _].
    rewrite Hd in Hlast. cbn in Hlast. congruence. }
  split; [exact Hl |].
  assert (Ha' : update_adaptation t' s1 = Done s1).
  { unfold update_adaptation, gtb. rewrite Hl, Hs.
    apply ltb_ge in Hnear. now rewrite Hnear. }
  split.
  - now destruct (update_tail_frame dt' t' s1 s1 Ha').
  - now apply SelfImprovementFacts.update_queue.
Qed.

(** X13 on the slow renderer: an adaptation at time 100, and a tick at time
    101. *)
Lemma one_adaptation_per_interval_witness :
  (exists s1,
     update 0.016 Scenario.tick_success Scenario.slow_renderer = Done s1) /\
  learning_cycles
    (stats (run_updates 0.016
              [Scenario.tick_success; Scenario.tick_idle 101 Faulted]
              Scenario.slow_renderer)) = 1%Z.
Proof.
  destruct (update 0.016 Scenario.tick_success Scenario.slow_renderer)
    as [s1 | s1] eqn:Hd; [| vm_compute in Hd; discriminate].
  split; [now exists s1 |].
  assert (H2 : adaptation_interval (settings Scenario.slow_renderer)
                < current_time Scenario.tick_success
                  - last_adaptation_time Scenario.slow_renderer)
    by (vm_compute; reflexivity).
  assert (H3 : current_time (Scenario.tick_idle 101 Faulted)
                 - current_time Scenario.tick_success
               <= adaptation_interval (settings Scenario.slow_renderer))
    by (vm_compute; discriminate).
  destruct (one_adaptation_per_interval 0.016 0.016 Scenario.tick_success
              (Scenario.tick_idle 101 Faulted) Scenario.slow_renderer s1 Hd
              H2 H3)
    as (_ & Hc & _).
  change (run_updates 0.016
            [Scenario.tick_success; Scenario.tick_idle 101 Faulted]
            Scenario.slow_renderer)
    with (state_of (update 0.016 (Scenario.tick_idle 101 Faulted)
                      (state_of (update 0.016 Scenario.tick_success
                                   Scenario.slow_renderer)))).
  rewrite Hd. cbn [state_of]. rewrite Hc.
  assert (E : Done s1 = update 0.016 Scenario.tick_success
                          Scenario.slow_renderer) by (symmetry; exact Hd).
  apply (f_equal (λ r, learning_cycles (stats (state_of r)))) in E.
  cbn [state_of] in E. rewrite E. vm_compute. reflexivity.
Defined.

(** *** The baselines *)

Lemma ema_fold_Some (l : list PerformanceMetric) :
  forall x : Q, is_Some (fold_left ema l (Some x)).
Proof.
  induction l as [| m l IH]; intros x; [now exists x | apply IH].
Qed.

Lemma update_baselines_at_key (system metric : string) (s : System) :
  baseline (_update_baselines s) system metric =
    if (length (performance_history s) <? 100)%nat
    then baseline s system metric
    else fold_left ema (feeding system metric s) (baseline s system metric).
Proof.
  unfold _update_baselines, baseline.
  destruct (_ <? _)%nat; [reflexivity |]. apply BaselineFacts.baseline_fold.
Qed.

Lemma process_baselines (a : Attempt) (now : Q) (s : System) :
  system_baselines (_process_optimization_queue a now s) = system_baselines s.
Proof.
  unfold _process_optimization_queue.
  destruct (optimization_queue s); [reflexivity |]. now destruct a.
Qed.

(** X14. A baseline, once there, is never removed: it is still there
    after any calls of the public methods. *)
Theorem baselines_never_removed (cs : list Call) (s : System)
    (system metric : string) :
  is_Some (baseline s system metric) ->
  is_Some (baseline (exec_calls cs s) system metric).
Proof.
  intros H.
  apply (exec_calls_preserves
           (λ s', is_Some (baseline s' system metric)) (λ _, True));
    try untouched.
  - intros now a s0 H0. unfold baseline.
    destruct (BaselineFacts.apply_optimizations_frame now a s0) as [_ Hb].
    now rewrite Hb.
  - intros s0 [x Hx]. rewrite update_baselines_at_key, Hx.
    destruct (_ <? _)%nat; [now exists x | apply ema_fold_Some].
  - intros a now s0 H0. unfold baseline. now rewrite process_baselines.
  - apply Forall_forall. auto.
Qed.

(** X14 on 101 constant samples: the baseline made by a first due tick
    survives a session. *)
Lemma baselines_never_removed_witness :
  is_Some (baseline (exec_calls [CallUpdate 0.016 Scenario.tick_success]
                       Scenario.constant_feed) "renderer" "frame_time") /\
  is_Some (baseline
             (exec_calls Session.calls
                (exec_calls [CallUpdate 0.016 Scenario.tick_success]
                   Scenario.constant_feed)) "renderer" "frame_time").
Proof.
  assert (H : is_Some (baseline
                         (exec_calls [CallUpdate 0.016 Scenario.tick_success]
                            Scenario.constant_feed) "renderer" "frame_time")).
  { vm_compute. eexists. reflexivity. }
  split; [exact H |].
  exact (baselines_never_removed Session.calls _ "renderer" "frame_time" H).
Defined.

(** X15. An adaptation cycle, whether it returns or raises, changes only
    the baselines of the pairs of subsystem and metric that occur among
    the last hundred samples. *)
Theorem cycle_leaves_other_baselines (now : Q) (s : System)
    (system metric : string) :
  Forall (λ m, ~ (system_name m = system /\ metric_name m = metric))
         (last_n 100 (performance_history s)) ->
  baseline (state_of (_perform_adaptation now s)) system metric
    = baseline s system metric.
Proof.
  intros Hno.
  assert (Hf : feeding system metric s = []).
  { unfold feeding. induction (last_n 100 (performance_history s))
      as [| m w IH]; [reflexivity |].
    apply Forall_cons in Hno as [Hm Hw]. rewrite filter_cons.
    destruct (decide (tracks system metric m)) as [Ht | _];
      [contradiction | now apply IH]. }
  apply (perform_adaptation_preserves
           (λ s', feeding system metric s' = [] /\
                  baseline s' system metric = baseline s system metric));
    try untouched; try (now split).
  - intros now0 a s0 [H1 H2]. unfold feeding, baseline in *.
    destruct (BaselineFacts.apply_optimizations_frame now0 a s0) as [Hh Hb].
    now rewrite Hh, Hb.
  - intros s0 [H1 H2]. split.
    + unfold feeding in *.
      now destruct (update_baselines_frame s0) as (_ & -> & _).
    + rewrite update_baselines_at_key, H1.
      now destruct (_ <? _)%nat.
Qed.

(** X15 on 101 samples of the renderer: the baseline of a physics metric,
    absent from the window, is what it was. *)
Lemma cycle_leaves_other_baselines_witness :
  baseline (state_of (_perform_adaptation 5 Scenario.constant_feed))
           "physics" "step_time"
    = baseline Scenario.constant_feed "physics" "step_time".
Proof.
  apply (cycle_leaves_other_baselines 5 Scenario.constant_feed).
  forall_by_evaluation ltac:(intros [E _]; discriminate E).
Defined.

Lemma ema_fold_range (lo hi : Q) (l : list PerformanceMetric) :
  Forall (λ m, lo <= value m /\ value m <= hi) l ->
  forall x : Q,
    lo <= x /\ x <= hi ->
    exists y, fold_left ema l (Some x) = Some y /\ lo <= y /\ y <= hi.
Proof.
  induction 1 as [| m l [Hm1 Hm2] _ IH]; intros x [Hx1 Hx2].
  - now exists x.
  - cbn [fold_left]. apply IH. unfold from_option, id. split; lra.
Qed.

(** X16. A baseline update never overshoots: when the baseline and the
    values of the metrics that feed it lie between two bounds, the updated
    baseline lies between them as well. *)
Theorem baseline_stays_in_range (s : System) (system metric : string)
    (x lo hi : Q) :
  baseline s system metric = Some x ->
  lo <= x /\ x <= hi ->
  Forall (λ m, lo <= value m /\ value m <= hi)
         (filter (tracks system metric)
                 (last_n 100 (performance_history s))) ->
  exists y,
    baseline (_update_baselines s) system metric = Some y /\
    lo <= y /\ y <= hi.
Proof.
  intros Hb Hx Hv. rewrite update_baselines_at_key, Hb.
  destruct (_ <? _)%nat; [now exists x |].
  now apply ema_fold_range.
Qed.

(** X16 on the baseline that a first update makes of 101 samples at
    0.02 s with a target of 0.0167 s. *)
Lemma baseline_stays_in_range_witness :
  exists x y,
    baseline (_update_baselines Scenario.constant_feed)
             "renderer" "frame_time" = Some x /\
    baseline (_update_baselines (_update_baselines Scenario.constant_feed))
             "renderer" "frame_time" = Some y /\
    0.0167 <= y /\ y <= 0.02.
Proof.
  destruct (baseline (_update_baselines Scenario.constant_feed)
              "renderer" "frame_time") as [x |] eqn:Hb;
    [| vm_compute in Hb; discriminate].
  assert (Hx : 0.0167 <= x /\ x <= 0.02).
  { assert (E : match baseline (_update_baselines Scenario.constant_feed)
                        "renderer" "frame_time" with
                | Some q => Qle_bool 0.0167 q && Qle_bool q 0.02
                | None => false
                end = true) by (vm_compute; reflexivity).
    rewrite Hb in E. apply andb_prop in E as [E1 E2].
    split; now apply Qle_bool_iff. }
  destruct (baseline_stays_in_range
              (_update_baselines Scenario.constant_feed)
              "renderer" "frame_time" x 0.0167 0.02 Hb Hx)
    as (y & Hy & Hr).
  { forall_by_evaluation ltac:(split; discriminate). }
  exists x, y. auto.
Defined.

(** *** The newest sample *)

(** X17. With room for one sample at least, a recording always leaves the
    metric it recorded as the last entry of the history. *)
Theorem newest_sample_is_kept (c : RecordCall) (s : System) :
  (1 <= performance_history_size (settings s))%Z ->
  last (performance_history (record c s)) = Some (metric_of c).
Proof.
  intros Hsize. unfold record, record_performance_metric.
  fold (metric_of c).
  destruct (_ >? _)%Z eqn:E; cbn [performance_history with_history].
  - destruct (performance_history s) as [| m h] eqn:Hh.
    + cbn in E. apply Z.gtb_lt in E. lia.
    + cbn [app pop0 tail]. apply last_snoc.
  - apply last_snoc.
Qed.

(** X17 on the store that keeps two entries, when it is full. *)
Lemma newest_sample_is_kept_witness :
  last (performance_history
          (record (Scenario.call "d" "m" 4 1)
             (record_all Scenario.three_calls Scenario.small_store)))
    = Some (metric_of (Scenario.call "d" "m" 4 1)).
Proof.
  apply (newest_sample_is_kept (Scenario.call "d" "m" 4 1)
           (record_all Scenario.three_calls Scenario.small_store)).
  vm_compute. discriminate.
Defined.

(** *** The suggestions *)

Lemma suggestions_closed (now : Q) (s : System) :
  improvement_suggestions (_generate_improvement_suggestions now s) =
    omap (suggestion_for now) (performance_trends s).
Proof.
  unfold _generate_improvement_suggestions.
  cbn [improvement_suggestions with_suggestions].
  match goal with |- context [fold_left ?F _ _] => set (step := F) end.
  rewrite <- (app_nil_l (omap _ _)). generalize (@nil Suggestion).
  induction (performance_trends s) as [| [system trends] d IH]; intros acc.
  - simpl. now rewrite app_nil_r.
  - cbn [fold_left omap list_omap]. rewrite IH.
    unfold step, suggestion_for. cbv zeta.
    destruct (length trends <? 10)%nat; [reflexivity |].
    destruct (ltb _ _); [| reflexivity].
    now rewrite <- app_assoc.
Qed.

(** X18. The suggestions are made anew by every call: whatever was
    suggested before, the new list has at most one suggestion per
    subsystem of the trends, in the order of the trends, and each is a
    performance decline of a subsystem whose ten ratios or more decline,
    of severity high exactly when the mean of the last five is below
    0.5. *)
Theorem suggestions_are_replaced (now : Q) (old : list Suggestion)
    (s : System) :
  improvement_suggestions
    (_generate_improvement_suggestions now (with_suggestions old s))
    = improvement_suggestions (_generate_improvement_suggestions now s) /\
  map sg_system
      (improvement_suggestions (_generate_improvement_suggestions now s))
    `sublist_of` od_keys (performance_trends s) /\
  Forall (λ sg,
            sg_type sg = "performance_decline" /\
            exists trends,
              (sg_system sg, trends) ∈ performance_trends s /\
              declining trends /\
              (sg_severity sg = high <-> sum (last_n 5 trends) / 5 < 0.5))
         (improvement_suggestions (_generate_improvement_suggestions now s)).
Proof.
  split; [reflexivity |]. rewrite suggestions_closed. split.
  - unfold od_keys. induction (performance_trends s) as [| item d IH];
      [constructor |].
    cbn [omap list_omap map].
    destruct (suggestion_for now item) as [sg |] eqn:E.
    + cbn [map]. destruct item as [system trends].
      unfold suggestion_for in E. cbv zeta in E.
      destruct (_ <? _)%nat; [discriminate |].
      destruct (ltb _ _); [| discriminate]. injection E as <-. cbn.
      now constructor.
    + now constructor.
  - apply Forall_forall. intros sg Hsg.
    apply list_elem_of_omap in Hsg as ([system trends] & Hin & E).
    unfold suggestion_for in E. cbv zeta in E.
    destruct (length trends <? 10)%nat eqn:Hlen; [discriminate |].
    destruct (ltb _ (_ * 0.9)) eqn:Hdec; [| discriminate].
    injection E as <-. cbn. split; [reflexivity |].
    exists trends. split; [exact Hin |]. split.
    + split; [now apply Nat.ltb_ge | now apply ltb_lt].
    + destruct (ltb (sum (last_n 5 trends) / 5) 0.5) eqn:Hsev.
      * apply ltb_lt in Hsev. tauto.
      * apply ltb_ge in Hsev. split; [discriminate | lra].
Qed.

End SelfImprovementMore.

(** ** Further properties of the engine *)

Module EngineMore.
Import Py PyFacts EngineCore EngineScenario EngineFacts EngineInvariants.

Local Open Scope Q_scope.

(** Every system of a given engine has its record. *)
Local Ltac records_present :=
  unfold infos_present; apply (bool_decide_unpack _); vm_compute; exact I.

(** *** What a frame touches *)

Lemma run_frame_state (f : Frame) (e : GameEngine) :
  state (run_frame f e) = state e /\
  current_frame (run_frame f e) = (current_frame e + 1)%Z /\
  performance_metrics (run_frame f e) =
    od_set (current_frame e + 1)%Z (frame_entry f (current_frame e + 1)%Z)
           (performance_metrics e).
Proof.
  unfold run_frame.
  set (e1 := _update_systems (raises f) e).
  destruct (update_systems_frame (raises f) e) as (U1 & U2 & U3 & _).
  fold e1 in U1, U2, U3.
  set (e2 := if adaptation_enabled e1 then _adapt_and_improve e1 else e1).
  assert (H : state e2 = state e /\ current_frame e2 = current_frame e /\
              performance_metrics e2 = performance_metrics e).
  { unfold e2. destruct (adaptation_enabled e1).
    - destruct (adapt_and_improve_frame e1) as (A1 & A2 & A3).
      rewrite A1, A2, A3. easy.
    - easy. }
  destruct H as (H1 & H2 & H3).
  cbn [state current_frame performance_metrics
       with_performance_metrics with_current_frame].
  now rewrite H1, H2, H3.
Qed.

(** X19. No iteration of the loop and no control method puts the engine
    in the state [ERROR]: an engine that is not in it never gets there. *)
Theorem engine_never_enters_error (evs : list Event) (e : GameEngine) :
  state e <> ERROR -> state (run evs e) <> ERROR.
Proof.
  revert e. induction evs as [| ev evs IH]; intros e H; [exact H |].
  change (run (ev :: evs) e) with (run evs (step e ev)). apply IH.
  destruct ev as [f | now | | | now]; cbn [step].
  - unfold _main_loop_iteration.
    destruct (state e) eqn:E; rewrite ?E; try exact H.
    destruct (run_frame_state f e) as (Hs & _). rewrite Hs, E. exact H.
  - unfold start. destruct (state e) eqn:E; rewrite ?E; try exact H.
    discriminate.
  - discriminate.
  - unfold pause. destruct (state e) eqn:E; rewrite ?E; try exact H.
    discriminate.
  - unfold resume. destruct (state e) eqn:E; rewrite ?E; try exact H.
    discriminate.
Qed.

(** X19 on the example engine. *)
Lemma engine_never_enters_error_witness :
  state (start 0 example_engine) <> ERROR /\
  state (run troubled_run (start 0 example_engine)) <> ERROR.
Proof.
  assert (H : state (start 0 example_engine) <> ERROR) by discriminate.
  split; [exact H |].
  exact (engine_never_enters_error troubled_run _ H).
Defined.

Lemma idle_iterations (fs : list Frame) (e : GameEngine) :
  state e <> RUNNING -> run (map Iteration fs) e = e.
Proof.
  intros H. induction fs as [| f fs IH]; [reflexivity |].
  change (run (map Iteration (f :: fs)) e)
    with (run (map Iteration fs) (_main_loop_iteration f e)).
  unfold _main_loop_iteration. destruct (state e); try exact IH.
  congruence.
Qed.

(** X20. While the engine is paused its loop records nothing: pausing a
    running engine, letting the loop iterate any number of times and
    resuming leaves the engine as it was, but for the time of the last
    frame, which the resume sets. *)
Theorem pause_leaves_no_trace (fs : list Frame) (now : Q) (e : GameEngine) :
  state e = RUNNING ->
  run (CallPause :: map Iteration fs ++ [CallResume now]) e =
    with_last_frame_time now e.
Proof.
  intros H.
  change (run (CallPause :: map Iteration fs ++ [CallResume now]) e)
    with (run (map Iteration fs ++ [CallResume now]) (pause e)).
  unfold run. rewrite fold_left_app.
  fold (run (map Iteration fs) (pause e)).
  rewrite idle_iterations.
  - cbn [fold_left step]. unfold pause, resume. rewrite H.
    destruct e; cbn in *. now subst.
  - unfold pause. rewrite H. discriminate.
Qed.

(** X20 on the example engine and three iterations. *)
Lemma pause_leaves_no_trace_witness :
  run (CallPause :: map Iteration [calm_frame; renderer_fails; calm_frame]
         ++ [CallResume 7]) (start 0 example_engine) =
    with_last_frame_time 7 (start 0 example_engine).
Proof.
  apply (pause_leaves_no_trace [calm_frame; renderer_fails; calm_frame] 7
           (start 0 example_engine)).
  reflexivity.
Defined.

(** *** Frames and their numbers *)

Lemma run_frames_state (fs : list Frame) :
  forall e : GameEngine,
    state e = RUNNING ->
    state (run (map Iteration fs) e) = RUNNING /\
    current_frame (run (map Iteration fs) e)
      = (current_frame e + Z.of_nat (length fs))%Z.
Proof.
  induction fs as [| f fs IH]; intros e H.
  - cbn. split; [exact H | lia].
  - change (run (map Iteration (f :: fs)) e)
      with (run (map Iteration fs) (_main_loop_iteration f e)).
    unfold _main_loop_iteration. rewrite H.
    destruct (run_frame_state f e) as (Hs & Hc & _).
    destruct (IH (run_frame f e)) as [I1 I2]; [congruence |].
    rewrite I1, I2, Hc. cbn [length]. split; [reflexivity | lia].
Qed.

Lemma run_frames_get_old (fs : list Frame) :
  forall (e : GameEngine) (k : Z),
    state e = RUNNING ->
    (k <= current_frame e)%Z ->
    od_get k (performance_metrics (run (map Iteration fs) e))
      = od_get k (performance_metrics e).
Proof.
  induction fs as [| f fs IH]; intros e k H Hk; [reflexivity |].
  change (run (map Iteration (f :: fs)) e)
    with (run (map Iteration fs) (_main_loop_iteration f e)).
  unfold _main_loop_iteration. rewrite H.
  destruct (run_frame_state f e) as (Hs & Hc & Hm).
  rewrite IH by (rewrite ?Hs, ?Hc; (assumption || lia)).
  rewrite Hm. apply od_get_set_ne. lia.
Qed.

Lemma run_frames_get_new (fs : list Frame) (e : GameEngine)
    (j : nat) (f : Frame) :
  state e = RUNNING ->
  fs !! j = Some f ->
  od_get (current_frame e + Z.of_nat (S j))%Z
         (performance_metrics (run (map Iteration fs) e)) =
    Some (frame_entry f (current_frame e + Z.of_nat (S j))%Z).
Proof.
  revert e j. induction fs as [| f0 fs IH]; intros e j H Hj;
    [discriminate |].
  change (run (map Iteration (f0 :: fs)) e)
    with (run (map Iteration fs) (_main_loop_iteration f0 e)).
  unfold _main_loop_iteration. rewrite H.
  destruct (run_frame_state f0 e) as (Hs & Hc & Hm).
  destruct j as [| j].
  - injection Hj as ->.
    rewrite run_frames_get_old by (rewrite ?Hs, ?Hc; (assumption || lia)).
    rewrite Hm. replace (current_frame e + Z.of_nat 1)%Z
      with (current_frame e + 1)%Z by lia.
    apply od_get_set_eq.
  - cbn in Hj.
    replace (current_frame e + Z.of_nat (S (S j)))%Z
      with (current_frame (run_frame f0 e) + Z.of_nat (S j))%Z
      by (rewrite Hc; lia).
    apply IH; [congruence | exact Hj].
Qed.

(** X21. Every frame that the running loop executes is found afterwards
    under its own frame number, with the duration it took and the rate
    that goes with it, however many frames follow. *)
Theorem frames_found_by_number (fs : list Frame) (e : GameEngine)
    (j : nat) (f : Frame) :
  state e = RUNNING ->
  fs !! j = Some f ->
  od_get (current_frame e + Z.of_nat (S j))%Z
         (performance_metrics (run (map Iteration fs) e)) =
    Some (frame_entry f (current_frame e + Z.of_nat (S j))%Z).
Proof. apply run_frames_get_new. Qed.

(** X21 on the example engine: the second of three frames. *)
Lemma frames_found_by_number_witness :
  od_get 2%Z
    (performance_metrics
       (run (map Iteration [calm_frame; renderer_fails; calm_frame])
            (start 0 example_engine))) =
    Some (frame_entry renderer_fails 2).
Proof.
  apply (frames_found_by_number [calm_frame; renderer_fails; calm_frame]
           (start 0 example_engine) 1 renderer_fails); reflexivity.
Defined.

Lemma run_frame_overwrites (f : Frame) (e : GameEngine) (n : nat) :
  state e = RUNNING ->
  (0 <= current_frame e < Z.of_nat n)%Z ->
  od_keys (performance_metrics e) = frames_upto n ->
  od_keys (performance_metrics (run_frame f e)) = frames_upto n.
Proof.
  intros Hs Hc Hk. destruct (run_frame_state f e) as (_ & _ & Hm).
  rewrite Hm, od_set_keys.
  assert (Hin : od_mem (current_frame e + 1)%Z (performance_metrics e)
                = true).
  { apply od_mem_keys. rewrite Hk. unfold frames_upto.
    apply list_elem_of_fmap. exists (Z.to_nat (current_frame e + 1)).
    split; [lia |]. apply list_elem_of_In, in_seq. lia. }
  now rewrite Hin.
Qed.

Lemma run_frames_overwrite (fs : list Frame) :
  forall (e : GameEngine) (n : nat),
    state e = RUNNING ->
    (0 <= current_frame e)%Z ->
    (current_frame e + Z.of_nat (length fs) <= Z.of_nat n)%Z ->
    od_keys (performance_metrics e) = frames_upto n ->
    od_keys (performance_metrics (run (map Iteration fs) e)) = frames_upto n.
Proof.
  induction fs as [| f fs IH]; intros e n Hs H0 Hc Hk; [exact Hk |].
  change (run (map Iteration (f :: fs)) e)
    with (run (map Iteration fs) (_main_loop_iteration f e)).
  unfold _main_loop_iteration. rewrite Hs. cbn [length] in Hc.
  destruct (run_frame_state f e) as (Hs' & Hc' & _).
  apply IH.
  - congruence.
  - lia.
  - rewrite Hc'. lia.
  - apply run_frame_overwrites; [assumption | lia | assumption].
Qed.

(** X22. Stopping and starting again does not clear the frame history but
    restarts the numbering: the frames of the new run overwrite the
    entries of the old one, so as long as the new run is not longer than
    the old one the history keeps the frame numbers it had, and the entry
    under the number of a new frame is that of the new frame. *)
Theorem restart_overwrites_history (fs1 fs2 : list Frame) (now1 now2 : Q)
    (e : GameEngine) :
  state e = STOPPED ->
  performance_metrics e = [] ->
  (length fs2 <= length fs1)%nat ->
  od_keys (performance_metrics
             (run (map Iteration fs1 ++ [CallStop; CallStart now2]
                     ++ map Iteration fs2) (start now1 e)))
    = map Z.of_nat (seq 1 (length fs1)) /\
  current_frame
    (run (map Iteration fs1 ++ [CallStop; CallStart now2]
            ++ map Iteration fs2) (start now1 e))
    = Z.of_nat (length fs2) /\
  forall (j : nat) (f : Frame),
    fs2 !! j = Some f ->
    od_get (Z.of_nat (S j))
      (performance_metrics
         (run (map Iteration fs1 ++ [CallStop; CallStart now2]
                 ++ map Iteration fs2) (start now1 e)))
      = Some (frame_entry f (Z.of_nat (S j))).
Proof.
  intros Hs Hm Hlen.
  set (e1 := run (map Iteration fs1) (start now1 e)).
  assert (H1 : od_keys (performance_metrics e1) = frames_upto (length fs1)).
  { apply (run_frames_keys fs1 (start now1 e) 0);
      unfold start; rewrite Hs; simpl; [reflexivity | reflexivity |].
    now rewrite Hm. }
  set (e2 := start now2 (stop e1)).
  assert (H2 : state e2 = RUNNING /\ current_frame e2 = 0%Z /\
               performance_metrics e2 = performance_metrics e1)
    by (unfold e2, start, stop; cbn; easy).
  destruct H2 as (S2 & C2 & M2).
  assert (E : run (map Iteration fs1 ++ [CallStop; CallStart now2]
                     ++ map Iteration fs2) (start now1 e)
              = run (map Iteration fs2) e2).
  { unfold run. rewrite !fold_left_app. reflexivity. }
  rewrite E. split; [| split].
  - apply run_frames_overwrite; rewrite ?C2, ?M2; try assumption; lia.
  - destruct (run_frames_state fs2 e2 S2) as [_ Hc]. rewrite Hc, C2. lia.
  - intros j f Hj.
    pose proof (run_frames_get_new fs2 e2 j f S2 Hj) as Hf.
    rewrite C2 in Hf. exact Hf.
Qed.

(** X22 on the example engine: three frames, a restart, one frame. *)
Lemma restart_overwrites_history_witness :
  od_keys (performance_metrics
             (run (map Iteration [calm_frame; calm_frame; calm_frame]
                     ++ [CallStop; CallStart 9]
                     ++ map Iteration [renderer_fails])
                  (start 0 example_engine)))
    = [1; 2; 3]%Z /\
  current_frame
    (run (map Iteration [calm_frame; calm_frame; calm_frame]
            ++ [CallStop; CallStart 9] ++ map Iteration [renderer_fails])
         (start 0 example_engine)) = 1%Z.
Proof.
  destruct (restart_overwrites_history [calm_frame; calm_frame; calm_frame]
              [renderer_fails] 0 9 example_engine)
    as (H1 & H2 & _); [reflexivity | reflexivity | simpl; lia |].
  split; [exact H1 | exact H2].
Defined.

(** *** The records of the systems *)

Lemma update_system_info (raises : string -> bool) (e : GameEngine)
    (k : string) (sys : SystemObject) (n : string) :
  system_info (update_system raises e (k, sys)) !! n =
    if decide (k = n)
    then updated_info (frame_time e) raises k sys <$> system_info e !! n
    else system_info e !! n.
Proof.
  unfold update_system, updated_info.
  destruct (decide (k = n)) as [-> | Hne].
  - destruct (has_update sys); [| now destruct (system_info e !! n)].
    destruct (raises n); cbn; [now rewrite lookup_alter_eq |].
    destruct (div 1 (frame_time e * 0.9)); cbn; now rewrite lookup_alter_eq.
  - destruct (has_update sys); [| reflexivity].
    destruct (raises k); cbn; [now rewrite lookup_alter_ne |].
    destruct (div 1 (frame_time e * 0.9)); cbn; now rewrite lookup_alter_ne.
Qed.

Lemma update_system_frame_time (raises : string -> bool) (e : GameEngine)
    (item : string * SystemObject) :
  frame_time (update_system raises e item) = frame_time e.
Proof.
  destruct item as [k sys]. unfold update_system.
  destruct (has_update sys); [| reflexivity].
  destruct (raises k); [reflexivity |].
  now destruct (div 1 (frame_time e * 0.9)).
Qed.

Lemma initialize_system_info (raises : string -> bool) (e : GameEngine)
    (k : string) (sys : SystemObject) (n : string) :
  system_info (initialize_system raises e (k, sys)) !! n =
    if decide (k = n)
    then initialized_info raises k sys <$> system_info e !! n
    else system_info e !! n.
Proof.
  unfold initialize_system, initialized_info, initial_status.
  destruct (decide (k = n)) as [-> | Hne].
  - destruct (has_initialize sys); [destruct (raises n) |]; cbn;
      now rewrite lookup_alter_eq.
  - destruct (has_initialize sys); [destruct (raises k) |]; cbn;
      now rewrite lookup_alter_ne.
Qed.

Section fold_systems.
Variable step : GameEngine -> string * SystemObject -> GameEngine.
Variable g : string -> SystemObject -> SystemInfo -> SystemInfo.
Variable Inv : GameEngine -> Prop.

Hypothesis Inv_step : forall e item, Inv e -> Inv (step e item).
Hypothesis step_info :
  forall e k sys n,
    Inv e ->
    system_info (step e (k, sys)) !! n =
      if decide (k = n) then g k sys <$> system_info e !! n
      else system_info e !! n.

Lemma fold_systems_lookup (l : list (string * SystemObject)) :
  forall (e : GameEngine) (n : string),
    Inv e ->
    NoDup (od_keys l) ->
    system_info (fold_left step l e) !! n =
      match od_get n l with
      | Some sys => g n sys <$> system_info e !! n
      | None => system_info e !! n
      end.
Proof.
  induction l as [| [k sys] l IH]; intros e n HI Hnd; [reflexivity |].
  cbn [fold_left od_get]. unfold od_keys in Hnd. cbn [map fst] in Hnd.
  apply NoDup_cons in Hnd as [Hk Hnd].
  rewrite (IH _ n (Inv_step e (k, sys) HI) Hnd), (step_info e k sys n HI).
  destruct (decide (n = k)) as [-> | Hne].
  - rewrite decide_True by reflexivity.
    assert (Hnone : od_get k l = None) by now apply od_get_absent.
    now rewrite Hnone.
  - now rewrite decide_False by congruence.
Qed.

End fold_systems.

Lemma update_systems_lookup (raises : string -> bool) (e : GameEngine)
    (n : string) :
  NoDup (od_keys (systems e)) ->
  system_info (_update_systems raises e) !! n =
    match od_get n (systems e) with
    | Some sys => updated_info (frame_time e) raises n sys
                    <$> system_info e !! n
    | None => system_info e !! n
    end.
Proof.
  intros Hnd. unfold _update_systems.
  apply (fold_systems_lookup (update_system raises)
           (updated_info (frame_time e) raises)
           (λ e', frame_time e' = frame_time e)); try assumption.
  - intros e' item H. now rewrite update_system_frame_time.
  - intros e' k sys n' H. rewrite update_system_info. now rewrite H.
  - reflexivity.
Qed.

Lemma initialize_systems_lookup (raises : string -> bool) (e : GameEngine)
    (n : string) :
  NoDup (od_keys (systems e)) ->
  system_info (initialize_systems raises e) !! n =
    match od_get n (systems e) with
    | Some sys => initialized_info raises n sys <$> system_info e !! n
    | None => system_info e !! n
    end.
Proof.
  intros Hnd. unfold initialize_systems.
  apply (fold_systems_lookup (initialize_system raises)
           (initialized_info raises) (λ _, True)); try assumption; auto.
  intros e' k sys n' _. apply initialize_system_info.
Qed.

(** X23. In an engine where every registered system has its record,
    after [initialize_systems] the record of every registered system
    has the status "error" if its [initialize] raised, "initialized" if it
    returned and "ready" if the system has none, whatever the status was
    before, and nothing else of the record changes; records of names that
    are not registered are not touched. *)
Theorem initialize_sets_every_status (raises : string -> bool)
    (e : GameEngine) (n : string) (i : SystemInfo) :
  NoDup (od_keys (systems e)) ->
  infos_present e ->
  system_info e !! n = Some i ->
  system_info (initialize_systems raises e) !! n =
    Some match od_get n (systems e) with
         | Some sys =>
             {| name := name i; version := version i;
                status := if has_initialize sys
                          then if raises n then "error" else "initialized"
                          else "ready";
                performance := performance i |}
         | None => i
         end.
Proof.
  intros Hnd _ Hi. rewrite (initialize_systems_lookup raises e n Hnd), Hi.
  now destruct (od_get n (systems e)).
Qed.

(** X23 on the example engine when the initialization of the renderer
    raises. *)
Lemma initialize_sets_every_status_witness :
  status <$> system_info
               (initialize_systems (raises renderer_fails) example_engine)
             !! "renderer" = Some "error" /\
  status <$> system_info
               (initialize_systems (raises renderer_fails) example_engine)
             !! "physics" = Some "initialized".
Proof.
  assert (Hnd : NoDup (od_keys (systems example_engine))).
  { apply (bool_decide_unpack _). vm_compute. exact I. }
  assert (Hall : infos_present example_engine) by records_present.
  split.
  - rewrite (initialize_sets_every_status (raises renderer_fails)
               example_engine "renderer"
               {| name := "renderer"; version := "1.0";
                  status := "initialized"; performance := 1 |} Hnd Hall);
      reflexivity.
  - rewrite (initialize_sets_every_status (raises renderer_fails)
               example_engine "physics"
               {| name := "physics"; version := "1.0";
                  status := "initialized"; performance := 1 |} Hnd Hall);
      reflexivity.
Defined.

(** X24. In an engine where every registered system has its record and
    whose frame time is positive and at most 10/9 s (the default is
    1/60 s), [_update_systems] sets the performance of every system whose
    [update] returned to exactly 1.0 and leaves its status; it gives a
    system whose [update] raised the status "error" and leaves its
    performance; it does not touch a system without [update]. *)
Theorem update_systems_resets_performance (raises : string -> bool)
    (e : GameEngine) (n : string) (sys : SystemObject) (i : SystemInfo) :
  NoDup (od_keys (systems e)) ->
  infos_present e ->
  0 < frame_time e /\ frame_time e <= 10 / 9 ->
  od_get n (systems e) = Some sys ->
  system_info e !! n = Some i ->
  system_info (_update_systems raises e) !! n =
    Some (if has_update sys
          then if raises n
               then {| name := name i; version := version i;
                       status := "error"; performance := performance i |}
               else {| name := name i; version := version i;
                       status := status i; performance := 1 |}
          else i).
Proof.
  intros Hnd _ [Hpos Hle] Hsys Hi.
  rewrite (update_systems_lookup raises e n Hnd), Hsys, Hi.
  cbn [fmap option_fmap option_map]. f_equal. unfold updated_info.
  destruct (has_update sys); [| reflexivity].
  destruct (raises n); [reflexivity |].
  rewrite div_Some by lra. unfold set_performance. f_equal.
  unfold min. destruct (ltb (1 / (frame_time e * 0.9)) 1) eqn:E;
    [| reflexivity].
  apply ltb_lt in E. exfalso.
  assert (H9 : 0 < frame_time e * 0.9) by lra.
  apply (Qmult_lt_r _ _ _ H9) in E.
  assert (E1 : 1 / (frame_time e * 0.9) * (frame_time e * 0.9) == 1)
    by (field; lra).
  rewrite E1 in E. clear E1. change (10 / 9) with (10 # 9) in Hle. lra.
Qed.

(** X24 on the example engine in a frame in which the renderer raises. *)
Lemma update_systems_resets_performance_witness :
  status <$> system_info
               (_update_systems (raises renderer_fails) example_engine)
             !! "renderer" = Some "error" /\
  performance <$> system_info
                    (_update_systems (raises renderer_fails) example_engine)
                  !! "physics" = Some 1.
Proof.
  assert (Hnd : NoDup (od_keys (systems example_engine))).
  { apply (bool_decide_unpack _). vm_compute. exact I. }
  assert (Hall : infos_present example_engine) by records_present.
  assert (Hft : 0 < frame_time example_engine
                /\ frame_time example_engine <= 10 / 9).
  { split; [reflexivity | discriminate]. }
  split.
  - rewrite (update_systems_resets_performance (raises renderer_fails)
               example_engine "renderer"
               {| has_initialize := true; has_update := true |}
               {| name := "renderer"; version := "1.0";
                  status := "initialized"; performance := 1 |}
               Hnd Hall Hft);
      reflexivity.
  - rewrite (update_systems_resets_performance (raises renderer_fails)
               example_engine "physics"
               {| has_initialize := true; has_update := true |}
               {| name := "physics"; version := "1.0";
                  status := "initialized"; performance := 1 |}
               Hnd Hall Hft);
      reflexivity.
Defined.

(** *** Errors stay, performance recovers *)

Lemma update_systems_in_error (raises : string -> bool) (n : string) :
  forall e : GameEngine,
    in_error n e -> in_error n (_update_systems raises e).
Proof.
  unfold _update_systems. intros e. generalize (systems e). intros l.
  revert e. induction l as [| [k sys] l IH]; intros e H; [exact H |].
  cbn [fold_left]. apply IH. destruct H as (i & Hi & Herr).
  unfold in_error. rewrite update_system_info, Hi.
  destruct (decide (k = n)); [| now exists i].
  eexists. split; [reflexivity |]. unfold updated_info.
  destruct (has_update sys); [| exact Herr].
  destruct (raises k); [reflexivity |].
  now destruct (div 1 (frame_time e * 0.9)).
Qed.

Lemma optimize_systems_lookup (e : GameEngine) (n : string) :
  system_info (_optimize_systems e) !! n =
    (λ info,
       if ltb (performance info) 0.8 && adaptation_enabled e
       then set_performance
              (min 1 (performance info
                      + min 0.2 ((1 - performance info) * 0.5))) info
       else info) <$> system_info e !! n.
Proof. unfold _optimize_systems. cbn. apply lookup_fmap. Qed.

Lemma step_in_error (n : string) (e : GameEngine) (ev : Event) :
  in_error n e -> in_error n (step e ev).
Proof.
  intros H. destruct ev as [f | now | | | now]; cbn [step].
  - unfold _main_loop_iteration. destruct (state e); try exact H.
    unfold run_frame.
    pose proof (update_systems_in_error (raises f) n e H) as H1.
    set (e1 := _update_systems (raises f) e) in *.
    assert (H2 : in_error n (if adaptation_enabled e1
                             then _adapt_and_improve e1 else e1)).
    { destruct (adaptation_enabled e1); [| exact H1].
      unfold _adapt_and_improve. destruct (_ =? _)%Z; [| exact H1].
      destruct H1 as (i & Hi & Herr). unfold in_error.
      rewrite optimize_systems_lookup, Hi. eexists.
      split; [reflexivity |]. now destruct (_ && _). }
    exact H2.
  - unfold start. now destruct (state e).
  - exact H.
  - unfold pause. now destruct (state e).
  - unfold resume. now destruct (state e).
Qed.

(** X25. The status "error" that a raising [update] leaves on a system is
    never taken back by the loop or the control methods: however many
    frames follow in which the [update] of the system returns, the record
    still says "error". *)
Theorem error_status_is_never_cleared (evs : list Event) (e : GameEngine)
    (n : string) (i : SystemInfo) :
  infos_present e ->
  system_info e !! n = Some i ->
  status i = "error" ->
  exists i', system_info (run evs e) !! n = Some i' /\ status i' = "error".
Proof.
  intros _ Hi Herr.
  assert (H : in_error n e) by now exists i.
  clear Hi Herr. revert e H.
  induction evs as [| ev evs IH]; intros e H; [exact H |].
  change (run (ev :: evs) e) with (run evs (step e ev)).
  apply IH. now apply step_in_error.
Qed.

(** X25 on the example engine: the renderer raises in the first frame and
    runs well in the frames after it. *)
Lemma error_status_is_never_cleared_witness :
  exists i',
    system_info
      (run (tail troubled_run)
           (step (start 0 example_engine) (Iteration renderer_fails)))
      !! "renderer" = Some i' /\
    status i' = "error".
Proof.
  apply (error_status_is_never_cleared (tail troubled_run)
           (step (start 0 example_engine) (Iteration renderer_fails))
           "renderer"
           {| name := "renderer"; version := "1.0"; status := "error";
              performance := 1 |});
    [records_present | vm_compute; reflexivity | reflexivity].
Defined.

(** X26. [_optimize_systems] changes the performance of a system only when
    it is below 0.8 and the adaptation is enabled; it then raises it, by
    at most 0.2 and to less than 0.9; and it never changes a name, a
    version or a status. *)
Theorem optimize_raises_performance_gently (e : GameEngine) (n : string)
    (i : SystemInfo) :
  system_info e !! n = Some i ->
  exists i',
    system_info (_optimize_systems e) !! n = Some i' /\
    name i' = name i /\ version i' = version i /\ status i' = status i /\
    performance i <= performance i' /\
    performance i' - performance i <= 0.2 /\
    (performance i < 0.8 -> adaptation_enabled e = true ->
     performance i < performance i' /\ performance i' < 0.9) /\
    (0.8 <= performance i \/ adaptation_enabled e = false -> i' = i).
Proof.
  intros Hi. rewrite optimize_systems_lookup, Hi.
  cbn [fmap option_fmap option_map]. eexists. split; [reflexivity |].
  destruct (ltb (performance i) 0.8) eqn:E.
  - apply ltb_lt in E. destruct (adaptation_enabled e); cbn [andb].
    + set (p := performance i) in *.
      assert (Hm : min 0.2 ((1 - p) * 0.5) <= 0.2) by apply min_le_l.
      assert (Hm' : min 0.2 ((1 - p) * 0.5) <= (1 - p) * 0.5)
        by apply min_le_r.
      assert (Hm0 : 0.1 < min 0.2 ((1 - p) * 0.5)).
      { unfold min. destruct (ltb _ _); lra. }
      assert (Hv : min 1 (p + min 0.2 ((1 - p) * 0.5))
                   = p + min 0.2 ((1 - p) * 0.5)).
      { unfold min at 1. destruct (ltb _ 1) eqn:E1; [reflexivity |].
        apply ltb_ge in E1. lra. }
      cbn. rewrite Hv. repeat split; try lra.
    + repeat split; try lra; discriminate.
  - apply ltb_ge in E. cbn [andb]. repeat split; lra.
Qed.

(** X26 on a renderer at 0.3: one optimization brings it to 0.5. *)
Lemma optimize_raises_performance_gently_witness :
  exists i',
    system_info (_optimize_systems lagging_engine) !! "renderer" = Some i' /\
    status i' = "initialized" /\
    0.3 <= performance i' /\ performance i' - 0.3 <= 0.2.
Proof.
  destruct (optimize_raises_performance_gently lagging_engine "renderer"
              {| name := "renderer"; version := "1.0";
                 status := "initialized"; performance := 0.3 |})
    as (i' & H1 & _ & _ & H2 & H3 & H4 & _); [reflexivity |].
  exists i'. auto.
Defined.

(** *** What the history holds *)

Lemma frame_entry_ok (f : Frame) (k : Z) : entry_ok (k, frame_entry f k).
Proof.
  unfold entry_ok, frame_entry. cbn.
  set (d := end_time f - start_time f).
  split; [reflexivity |]. unfold gtb.
  destruct (ltb 0 d) eqn:E.
  - apply ltb_lt in E. repeat split.
    + apply Qlt_le_weak. unfold Qdiv. rewrite Qmult_1_l.
      now apply Qinv_lt_0_compat.
    + intros _. field. lra.
    + intros H. lra.
  - apply ltb_ge in E. repeat split; lra.
Qed.

Lemma step_entries_ok (e : GameEngine) (ev : Event) :
  entries_ok e -> entries_ok (step e ev).
Proof.
  intros H. destruct ev as [f | now | | | now]; cbn [step].
  - unfold _main_loop_iteration. destruct (state e); try exact H.
    unfold entries_ok. destruct (run_frame_state f e) as (_ & _ & ->).
    apply od_set_Forall; [apply frame_entry_ok | exact H].
  - unfold start. now destruct (state e).
  - exact H.
  - unfold pause. now destruct (state e).
  - unfold resume. now destruct (state e).
Qed.

(** X27. Every entry of the frame history is stored under its own frame
    number, and its rate is never negative: it is the inverse of the
    duration of the frame when that is positive, and 0 otherwise (no
    division by zero on a frame that took no time). This holds in every
    state that registrations, initializations, the loop and the control
    methods reach. *)
Theorem history_entries_are_consistent (acts : list Action)
    (e : GameEngine) :
  entries_ok e ->
  Forall (λ item : Z * FrameMetrics,
            m_frame_number (snd item) = fst item /\
            0 <= m_fps (snd item) /\
            (0 < m_frame_time (snd item) ->
             m_fps (snd item) * m_frame_time (snd item) == 1) /\
            (m_frame_time (snd item) <= 0 -> m_fps (snd item) == 0))
         (performance_metrics (perform acts e)).
Proof.
  revert e. induction acts as [| a acts IH]; intros e H; [exact H |].
  change (perform (a :: acts) e) with (perform acts (act e a)).
  apply IH. destruct a as [n sys v | raises | ev]; cbn [act].
  - exact H.
  - unfold entries_ok, initialize_systems. generalize (systems e).
    intros l. revert e H. induction l as [| [k sys] l IHl]; intros e H;
      [exact H |].
    cbn [fold_left]. apply IHl. unfold initialize_system.
    destruct (has_initialize sys); [destruct (raises k) |]; exact H.
  - now apply step_entries_ok.
Qed.

(** X27 from the initial engine. *)
Lemma history_entries_are_consistent_witness :
  entries_ok EngineCore.__init__ /\
  Forall entry_ok
         (performance_metrics (perform example_program EngineCore.__init__)).
Proof.
  assert (H : entries_ok EngineCore.__init__) by apply Forall_nil_2.
  split; [exact H |].
  exact (history_entries_are_consistent example_program _ H).
Defined.

(** *** Every system has its record *)

Lemma fold_keeps_infos (step : GameEngine -> string * SystemObject -> GameEngine)
    (l : list (string * SystemObject)) :
  (forall e item n,
     is_Some (system_info e !! n) ->
     is_Some (system_info (step e item) !! n)) ->
  forall (e : GameEngine) (n : string),
    is_Some (system_info e !! n) ->
    is_Some (system_info (fold_left step l e) !! n).
Proof.
  intros Hstep. induction l as [| item l IH]; intros e n H; [exact H |].
  cbn [fold_left]. apply IH. now apply Hstep.
Qed.

Lemma update_system_keeps (raises : string -> bool) (e : GameEngine)
    (item : string * SystemObject) (n : string) :
  is_Some (system_info e !! n) ->
  is_Some (system_info (update_system raises e item) !! n).
Proof.
  destruct item as [k sys]. intros [i Hi].
  rewrite update_system_info, Hi. now destruct (decide (k = n)).
Qed.

Lemma initialize_system_keeps (raises : string -> bool) (e : GameEngine)
    (item : string * SystemObject) (n : string) :
  is_Some (system_info e !! n) ->
  is_Some (system_info (initialize_system raises e item) !! n).
Proof.
  destruct item as [k sys]. intros [i Hi].
  rewrite initialize_system_info, Hi. now destruct (decide (k = n)).
Qed.

Lemma fold_keeps_systems
    (step : GameEngine -> string * SystemObject -> GameEngine)
    (l : list (string * SystemObject)) :
  (forall e item, systems (step e item) = systems e) ->
  forall e : GameEngine, systems (fold_left step l e) = systems e.
Proof.
  intros Hstep. induction l as [| item l IH]; intros e; [reflexivity |].
  cbn [fold_left]. now rewrite IH, Hstep.
Qed.

Lemma update_system_systems (raises : string -> bool) (e : GameEngine)
    (item : string * SystemObject) :
  systems (update_system raises e item) = systems e.
Proof.
  destruct item as [k sys]. unfold update_system.
  destruct (has_update sys); [| reflexivity].
  destruct (raises k); [reflexivity |].
  now destruct (div 1 (frame_time e * 0.9)).
Qed.

Lemma initialize_system_systems (raises : string -> bool) (e : GameEngine)
    (item : string * SystemObject) :
  systems (initialize_system raises e item) = systems e.
Proof.
  destruct item as [k sys]. unfold initialize_system.
  destruct (has_initialize sys); [destruct (raises k) |]; reflexivity.
Qed.

Lemma step_keeps (e : GameEngine) (ev : Event) :
  systems (step e ev) = systems e /\
  forall n, is_Some (system_info e !! n) ->
            is_Some (system_info (step e ev) !! n).
Proof.
  destruct ev as [f | now | | | now]; cbn [step].
  - unfold _main_loop_iteration. destruct (state e); try easy.
    unfold run_frame. cbn [systems system_info with_performance_metrics
                           with_current_frame].
    set (e1 := _update_systems (raises f) e).
    assert (H1 : systems e1 = systems e /\
                 forall n, is_Some (system_info e !! n) ->
                           is_Some (system_info e1 !! n)).
    { unfold e1, _update_systems. split.
      - apply fold_keeps_systems. apply update_system_systems.
      - intros n. apply fold_keeps_infos. apply update_system_keeps. }
    destruct H1 as [S1 I1].
    destruct (adaptation_enabled e1); [| now split].
    unfold _adapt_and_improve. destruct (_ =? _)%Z; [| now split].
    split; [exact S1 |]. intros n Hn.
    rewrite optimize_systems_lookup. destruct (I1 n Hn) as [i ->].
    now eexists.
  - unfold start. now destruct (state e).
  - easy.
  - unfold pause. now destruct (state e).
  - unfold resume. now destruct (state e).
Qed.

(** X28. Every registered system has a record of information in every
    state that registrations, initializations, the loop and the control
    methods reach: the lookups [self.system_info[name]] of the loop never
    miss. *)
Theorem every_system_has_its_record (acts : list Action) (e : GameEngine) :
  infos_present e ->
  Forall (λ n, is_Some (system_info (perform acts e) !! n))
         (od_keys (systems (perform acts e))).
Proof.
  revert e. induction acts as [| a acts IH]; intros e H; [exact H |].
  change (perform (a :: acts) e) with (perform acts (act e a)).
  apply IH. unfold infos_present in *.
  destruct a as [n sys v | raises | ev]; cbn [act].
  - unfold register_system.
    cbn [systems system_info with_system_info with_systems].
    rewrite od_set_keys.
    assert (Hold : Forall (λ n0, is_Some (<[n := {| name := n; version := v;
                                                   status := "initialized";
                                                   performance := 1 |}]>
                                            (system_info e) !! n0))
                     (od_keys (systems e))).
    { eapply Forall_impl; [exact H |]. intros k Hk.
      destruct (decide (n = k)) as [-> | Hne].
      - rewrite lookup_insert_eq. now eexists.
      - now rewrite lookup_insert_ne. }
    destruct (od_mem n (systems e)); [exact Hold |].
    apply Forall_app. split; [exact Hold |].
    apply Forall_singleton. rewrite lookup_insert_eq. now eexists.
  - unfold initialize_systems.
    rewrite (fold_keeps_systems _ _ (initialize_system_systems raises)).
    eapply Forall_impl; [exact H |]. intros k.
    apply fold_keeps_infos. apply initialize_system_keeps.
  - destruct (step_keeps e ev) as [Hs Hi]. rewrite Hs.
    eapply Forall_impl; [exact H |]. exact Hi.
Qed.

(** X28 from the initial engine. *)
Lemma every_system_has_its_record_witness :
  infos_present EngineCore.__init__ /\
  Forall (λ n, is_Some (system_info
                          (perform example_program EngineCore.__init__)
                        !! n))
         (od_keys (systems (perform example_program EngineCore.__init__))).
Proof.
  assert (H : infos_present EngineCore.__init__) by apply Forall_nil_2.
  split; [exact H |].
  exact (every_system_has_its_record example_program _ H).
Defined.

End EngineMore.
